(** * Spreadsheet normalisation pipeline: a shallow embedding

    The TypeScript sources embedded here are
      - [src/services/data-parsers.ts]: [cleanValue], [calculateDailyPlans],
        [parseProductionExcel], [parseFinanceExcel], [getFYLabel],
        [parseSalesExcel];
      - [src/components/UniversalUploader.tsx]: [detectAndProcessFile], the
        caller of the three parsers;
      - [src/Delivery Package/components/FinanceEntry.tsx]: [handleFileUpload],
        the parse of each file and the batch merge;
      - [src/components/ProductionEntry.tsx]: [handleFileUpload];
      - the two versions of [handleUpload] of the sales upload component (the
        current one, with its trade tab, and the one of the delivery
        package), and of the current one [workingDaysCount],
        [handleMonthChange] and [handleToggleHoliday];
      - [src/components/Dashboard.tsx]: [isLastDay], [getDailyTarget],
        [workingDaysCount], [handleMonthChange], [tradeFYs], [activeFY],
        [tradeData], [tradeSummary];
      - [src/services/reportService.ts]: [safeNum], [aggregateDeptData].

    JavaScript numbers are IEEE 754 binary64 values; they are modelled by
    Rocq's primitive floats, whose operations are the same correctly rounded
    binary64 operations.  [parseFloat], [Number], [String] of a number,
    [Math.round] and [Date] are written out after ECMAScript.  Strings are
    byte strings; the case conversions and the white-space class are the
    ASCII ones, so the model covers sheets whose cells hold ASCII text and
    numbers.  A sheet is the array of rows that
    [XLSX.utils.sheet_to_json(ws, {header: 1, defval: ""})] returns. *)

From Stdlib Require Import ZArith List String Ascii Bool Lia Floats Sorted.
Import ListNotations.

Set Warnings "-inexact-float".

Local Open Scope string_scope.
Local Open Scope Z_scope.

(** ** JavaScript primitives used by the parsers *)

Module JS.

Definition code (c : ascii) : nat := nat_of_ascii c.

Definition is_digit (c : ascii) : bool :=
  (48 <=? code c)%nat && (code c <=? 57)%nat.

Definition is_upper (c : ascii) : bool :=
  (65 <=? code c)%nat && (code c <=? 90)%nat.

Definition is_lower (c : ascii) : bool :=
  (97 <=? code c)%nat && (code c <=? 122)%nat.

Definition is_alpha (c : ascii) : bool := is_upper c || is_lower c.

(** White space and line terminators removed by [String.prototype.trim]
    (tab, line feed, vertical tab, form feed, carriage return, space). *)
Definition is_space (c : ascii) : bool :=
  ((9 <=? code c)%nat && (code c <=? 13)%nat) || (code c =? 32)%nat.

Definition lower_char (c : ascii) : ascii :=
  if is_upper c then ascii_of_nat (code c + 32) else c.

Definition upper_char (c : ascii) : ascii :=
  if is_lower c then ascii_of_nat (code c - 32) else c.

Fixpoint map_string (f : ascii -> ascii) (s : string) : string :=
  match s with
  | EmptyString => EmptyString
  | String c r => String (f c) (map_string f r)
  end.

Definition toLowerCase : string -> string := map_string lower_char.
Definition toUpperCase : string -> string := map_string upper_char.

Fixpoint trimStart (s : string) : string :=
  match s with
  | String c r => if is_space c then trimStart r else s
  | EmptyString => EmptyString
  end.

(** [trimEnd] keeps a character when it is not a space or when something
    that is kept follows it. *)
Fixpoint trimEnd (s : string) : string :=
  match s with
  | EmptyString => EmptyString
  | String c r =>
      match trimEnd r with
      | EmptyString => if is_space c then EmptyString else String c EmptyString
      | r' => String c r'
      end
  end.

Definition trim (s : string) : string := trimEnd (trimStart s).

Fixpoint startsWith (s p : string) : bool :=
  match p, s with
  | EmptyString, _ => true
  | String _ _, EmptyString => false
  | String a p', String b s' => Ascii.eqb a b && startsWith s' p'
  end.

(** [s.includes(sub)] *)
Fixpoint includes (s sub : string) : bool :=
  startsWith s sub ||
  match s with
  | EmptyString => false
  | String _ r => includes r sub
  end.

(** [s.replace(/,/g, '')] and [s.replace(/[()]/g, '')]: every character of
    the class is deleted. *)
Fixpoint remove_chars (p : ascii -> bool) (s : string) : string :=
  match s with
  | EmptyString => EmptyString
  | String c r => if p c then remove_chars p r else String c (remove_chars p r)
  end.

Definition is_comma (c : ascii) : bool := (code c =? 44)%nat.
Definition is_paren (c : ascii) : bool := (code c =? 40)%nat || (code c =? 41)%nat.

(** [a.join(sep)] on an array of strings *)
Fixpoint join (sep : string) (l : list string) : string :=
  match l with
  | [] => ""
  | [x] => x
  | x :: r => x ++ sep ++ join sep r
  end.

(** [Array.prototype.findIndex]: the first index whose element satisfies
    [p], or [-1]. *)
Fixpoint findIndex_from {A} (p : A -> bool) (l : list A) (i : Z) : Z :=
  match l with
  | [] => -1
  | x :: r => if p x then i else findIndex_from p r (i + 1)
  end.

Definition findIndex {A} (p : A -> bool) (l : list A) : Z := findIndex_from p l 0.

(** [Array.prototype.indexOf] on an array of strings *)
Definition indexOf (l : list string) (s : string) : Z :=
  findIndex (String.eqb s) l.

Fixpoint endsWith_aux (s p : string) (n : nat) : bool :=
  match n with
  | O => String.eqb s p
  | S n' => match s with
            | EmptyString => false
            | String _ r => endsWith_aux r p n'
            end
  end.

(** [s.endsWith(p)]: the suffix of [s] of the length of [p] is [p]. *)
Definition endsWith (s p : string) : bool :=
  (String.length p <=? String.length s)%nat &&
  endsWith_aux s p (String.length s - String.length p).

(** *** Numbers

    A JavaScript number is a binary64 value.  [float_of_ratio] is the
    correctly rounded (to nearest, ties to even) value of a non-negative
    rational [num / den]: the quotient is taken with more than 64 bits and a
    sticky bit, which [binary_normalize] then rounds. *)

Definition number := float.

Definition signed_zero (neg : bool) : number :=
  if neg then (-0)%float else 0%float.

Definition float_of_ratio (neg : bool) (num den : Z) : number :=
  if num =? 0 then signed_zero neg
  else
    let s := Z.max 0 (Z.log2 den - Z.log2 num + 66) in
    let n := Z.shiftl num s in
    let q := n / den in
    let m := 2 * q + (if n mod den =? 0 then 0 else 1) in
    SF2Prim (binary_normalize prec emax (if neg then - m else m) (- (s + 1)) neg).

(** A lower estimate of the number of decimal digits of a positive
    integer, short of it by one at most. *)
Definition ndigits10 (m : Z) : Z :=
  if m <=? 0 then 0 else Z.log2 m * 30103 / 100000 + 1.

(** The number nearest to [m * 10^e], for [0 <= m].  Beyond the guards the
    value is above every finite double, or below half the least one. *)
Definition float_of_decimal (neg : bool) (m e : Z) : number :=
  if m =? 0 then signed_zero neg
  else if 400 <? ndigits10 m + e then (if neg then neg_infinity else infinity)
  else if ndigits10 m + e <? -400 then signed_zero neg
  else if 0 <=? e then float_of_ratio neg (m * 10 ^ e) 1
  else float_of_ratio neg m (10 ^ (- e)).

Definition digit_val (c : ascii) : Z := Z.of_nat (code c - 48).

Fixpoint span_digits (s : string) : list ascii * string :=
  match s with
  | String c r =>
      if is_digit c then let (d, t) := span_digits r in (c :: d, t) else ([], s)
  | EmptyString => ([], EmptyString)
  end.

Definition digits_val (d : list ascii) : Z :=
  fold_left (fun acc c => 10 * acc + digit_val c) d 0.

Definition is_char (n : nat) (c : ascii) : bool := (code c =? n)%nat.

(** The sign of a numeric literal: [(negative, rest)]. *)
Definition read_sign (s : string) : bool * string :=
  match s with
  | String c r =>
      if is_char 45 c then (true, r)
      else if is_char 43 c then (false, r)
      else (false, s)
  | EmptyString => (false, s)
  end.

(** The exponent part [e[+-]digits] of a literal and what follows it; the
    exponent is [0] and nothing is consumed when the part is absent or
    incomplete. *)
Definition read_exponent (s : string) : Z * string :=
  match s with
  | String c r =>
      if is_char 101 c || is_char 69 c then
        let (neg, r') := read_sign r in
        let (d, r'') := span_digits r' in
        match d with
        | [] => (0, s)
        | _ => (if neg then - digits_val d else digits_val d, r'')
        end
      else (0, s)
  | EmptyString => (0, s)
  end.

(** The longest prefix of [s] that is a signed decimal literal
    ([StrDecimalLiteral]): its value and the rest of [s]. *)
Definition read_decimal (s : string) : option (number * string) :=
  let (neg, r) := read_sign s in
  if startsWith r "Infinity"
  then Some (if neg then neg_infinity else infinity, String.substring 8 (String.length r - 8) r)
  else
    let (ip, r1) := span_digits r in
    let (fp, r2) :=
      match r1 with
      | String c r' => if is_char 46 c then span_digits r' else ([], r1)
      | EmptyString => ([], r1)
      end in
    match ip, fp with
    | [], [] => None
    | _, _ =>
        let (ex, r3) := read_exponent r2 in
        Some (float_of_decimal neg (digits_val (ip ++ fp)) (ex - Z.of_nat (List.length fp)), r3)
    end.

(** [parseFloat(s)]: leading white space is skipped and the longest prefix
    that is a decimal literal is converted; [NaN] when there is none. *)
Definition parseFloat (s : string) : number :=
  match read_decimal (trimStart s) with
  | Some (x, _) => x
  | None => nan
  end.

(** [parseInt(s)] on a string of decimal digits (the only use in the
    sources is on a [\d{1,2}] capture group). *)
Definition parseInt_digits (d : list ascii) : Z := digits_val d.

Definition is_nan (x : number) : bool := negb (PrimFloat.eqb x x).

(** [x === y] on numbers *)
Definition strict_eq (x y : number) : bool := PrimFloat.eqb x y.

(** [!x] is true for [0], [-0] and [NaN]. *)
Definition falsy_number (x : number) : bool := is_nan x || PrimFloat.eqb x 0.

(** [x || 0] on a number *)
Definition or_zero (x : number) : number := if falsy_number x then 0%float else x.

(** [Number(n)] for an integer [n] *)
Definition of_int (n : Z) : number := float_of_ratio (n <? 0) (Z.abs n) 1.

(** [Math.round(x)]: the integer nearest to [x], ties towards +infinity;
    [-0] for [-0.5 <= x < 0] and for [-0]. *)
Definition Math_round (x : number) : number :=
  match Prim2SF x with
  | S754_finite s m e =>
      if 0 <=? e then x
      else
        let v := if s then Z.neg m else Z.pos m in
        let n := (2 * v + 2 ^ (- e)) / 2 ^ (1 - e) in
        if n =? 0 then signed_zero s else of_int n
  | _ => x
  end.

(** [reduce((a, b) => a + b, 0)] over numbers *)
Definition sum (l : list number) : number :=
  fold_left (fun a b => (a + b)%float) l 0%float.

(** *** Number::toString

    [String(x)] for a number follows the ECMAScript algorithm: the least
    number [k] of significant digits [s] with [s * 10^(n-k)] reading back as
    [x], the nearest such [s] when there are two, and the positional or the
    exponential layout according to [n]. *)

Definition scale10 (r : Z * Z) (p : Z) : Z * Z :=
  let (a, b) := r in
  if 0 <=? p then (a * 10 ^ p, b) else (a, b * 10 ^ (- p)).

(** The least [n] from [n0] on with [r < 10^n]. *)
Fixpoint dec_exponent_from (fuel : nat) (r : Z * Z) (n : Z) : Z :=
  match fuel with
  | O => n
  | S f =>
      let (a, b) := scale10 r (- n) in
      if a <? b then n else dec_exponent_from f r (n + 1)
  end.

(** The decimal exponent [n] of a positive fraction [r]:
    [10^(n-1) <= r < 10^n].  The search starts below it, at an estimate
    taken from the binary logarithms. *)
Definition dec_exponent (r : Z * Z) : Z :=
  let (a, b) := r in
  dec_exponent_from 8 r ((Z.log2 a - Z.log2 b - 1) * 30103 / 100000 - 1).

(** The digits [(s, k, n)] of a positive finite [x] whose exact value is
    [r]; [k] runs from [k] to [k + fuel]. *)
Fixpoint shortest_from (fuel : nat) (x : number) (r : Z * Z) (n k : Z)
  : Z * Z * Z :=
  let (a, b) := scale10 r (k - n) in
  let lo := a / b in
  let rm := a mod b in
  let back s := PrimFloat.eqb (float_of_decimal false s (n - k)) x in
  let pick s := if s =? 10 ^ k then (10 ^ (k - 1), k, n + 1) else (s, k, n) in
  let next :=
    match fuel with
    | O => pick lo
    | S f => shortest_from f x r n (k + 1)
    end in
  if rm =? 0 then pick lo
  else
    match back lo, back (lo + 1) with
    | true, true =>
        match 2 * rm ?= b with
        | Lt => pick lo
        | Gt => pick (lo + 1)
        | Eq => if Z.even lo then pick lo else pick (lo + 1)
        end
    | true, false => pick lo
    | false, true => pick (lo + 1)
    | false, false => next
    end.

Definition digit_char (d : Z) : ascii := ascii_of_nat (48 + Z.to_nat d).

(** The [k] decimal digits of [s], most significant first. *)
Fixpoint dec_digits (k : nat) (s : Z) (acc : string) : string :=
  match k with
  | O => acc
  | S k' => dec_digits k' (s / 10) (String (digit_char (s mod 10)) acc)
  end.

Definition nat_to_string (n : Z) : string :=
  if n =? 0 then "0" else dec_digits (Z.to_nat (ndigits10 n + 1)) n "".

Fixpoint strip_zeros (s : string) : string :=
  match s with
  | String c r => if is_char 48 c then
                    match r with EmptyString => s | _ => strip_zeros r end
                  else s
  | EmptyString => s
  end.

(** The decimal numeral of an integer, as [String(n)] prints it. *)
Definition int_to_string (n : Z) : string :=
  if n <? 0 then "-" ++ strip_zeros (nat_to_string (- n))
  else strip_zeros (nat_to_string n).

Fixpoint zeros (n : nat) : string :=
  match n with
  | O => ""
  | S n' => String "0"%char (zeros n')
  end.

Definition substr_from (n : nat) (s : string) : string :=
  String.substring n (String.length s - n) s.

Definition layout (s k n : Z) : string :=
  let ds := dec_digits (Z.to_nat k) s "" in
  if (k <=? n) && (n <=? 21) then ds ++ zeros (Z.to_nat (n - k))
  else if (0 <? n) && (n <=? 21) then
    String.substring 0 (Z.to_nat n) ds ++ "." ++ substr_from (Z.to_nat n) ds
  else if (-6 <? n) && (n <=? 0) then "0." ++ zeros (Z.to_nat (- n)) ++ ds
  else
    let ex := (if 0 <=? n - 1 then "+" else "-") ++ int_to_string (Z.abs (n - 1)) in
    if k =? 1 then ds ++ "e" ++ ex
    else String.substring 0 1 ds ++ "." ++ substr_from 1 ds ++ "e" ++ ex.

Definition number_to_string (x : number) : string :=
  match Prim2SF x with
  | S754_nan => "NaN"
  | S754_zero _ => "0"
  | S754_infinity s => if s then "-Infinity" else "Infinity"
  | S754_finite sg m e =>
      let r := if 0 <=? e then (Z.pos m * 2 ^ e, 1) else (Z.pos m, 2 ^ (- e)) in
      let '(s, k, n) := shortest_from 16 (abs x) r (dec_exponent r) 1 in
      (if sg then "-" else "") ++ layout s k n
  end.

(** *** String to number conversions of the upload component *)

Definition hex_val (c : ascii) : option Z :=
  if is_digit c then Some (digit_val c)
  else if (97 <=? code c)%nat && (code c <=? 102)%nat then Some (Z.of_nat (code c - 87))
  else if (65 <=? code c)%nat && (code c <=? 70)%nat then Some (Z.of_nat (code c - 55))
  else None.

(** The value of the longest prefix of digits in base [b], and the number
    of digits read. *)
Fixpoint read_radix (b : Z) (s : string) (acc : Z) (n : nat) : Z * nat * string :=
  match s with
  | String c r =>
      match hex_val c with
      | Some v => if v <? b then read_radix b r (b * acc + v) (S n) else (acc, n, s)
      | None => (acc, n, s)
      end
  | EmptyString => (acc, n, s)
  end.

Definition radix_prefix (s : string) : option (Z * string) :=
  match s with
  | String z (String x r) =>
      if is_char 48 z then
        if is_char 120 (lower_char x) then Some (16, r)
        else if is_char 111 (lower_char x) then Some (8, r)
        else if is_char 98 (lower_char x) then Some (2, r)
        else None
      else None
  | _ => None
  end.

(** [Number(s)] on a string: the whole trimmed string is a numeric
    literal (decimal, or an unsigned hexadecimal, octal or binary
    integer); the empty string is 0; anything else is [NaN]. *)
Definition Number_ (s : string) : number :=
  let t := trim s in
  if String.eqb t "" then 0%float
  else
    match radix_prefix t with
    | Some (b, r) =>
        match read_radix b r 0 O with
        | (v, S _, EmptyString) => of_int v
        | _ => nan
        end
    | None =>
        match read_decimal t with
        | Some (x, EmptyString) => x
        | _ => nan
        end
    end.

(** [parseInt(s)]: white space, a sign, then hexadecimal digits after
    [0x] or else decimal digits; [None] is [NaN]. *)
Definition parseInt (s : string) : option Z :=
  let (neg, r) := read_sign (trimStart s) in
  let '(v, n, _) :=
    match radix_prefix r with
    | Some (16, r') => read_radix 16 r' 0 O
    | _ => read_radix 10 r 0 O
    end in
  match n with
  | O => None
  | S _ => Some (if neg then - v else v)
  end.

(** [s.split('/')] *)
Fixpoint split_slash (s : string) : list string :=
  match s with
  | EmptyString => [EmptyString]
  | String c r =>
      if is_char 47 c then EmptyString :: split_slash r
      else match split_slash r with
           | x :: l => String c x :: l
           | [] => [String c EmptyString]
           end
  end.

(** *** Objects keyed by numbers

    The property keys of an object are strings.  [Object.keys] lists the
    keys that are array indices (canonical numerals below 2^32 - 1) in
    ascending order and then the other keys in the order of their
    creation. *)

Definition object_t := list (string * Z).

Fixpoint obj_set (o : object_t) (k : string) (v : Z) : object_t :=
  match o with
  | [] => [(k, v)]
  | (k', v') :: r => if String.eqb k k' then (k, v) :: r else (k', v') :: obj_set r k v
  end.

Fixpoint obj_get (o : object_t) (k : string) : option Z :=
  match o with
  | [] => None
  | (k', v) :: r => if String.eqb k k' then Some v else obj_get r k
  end.

Definition array_index (k : string) : option Z :=
  match span_digits k with
  | (c :: d, EmptyString) =>
      let n := digits_val (c :: d) in
      if String.eqb (int_to_string n) k && (n <? 4294967295) then Some n else None
  | _ => None
  end.

Fixpoint insert_index (k : Z * string) (l : list (Z * string)) : list (Z * string) :=
  match l with
  | [] => [k]
  | x :: r => if fst k <=? fst x then k :: l else x :: insert_index k r
  end.

Definition obj_keys (o : object_t) : list string :=
  let idx := flat_map (fun kv => match array_index (fst kv) with
                                 | Some n => [(n, fst kv)]
                                 | None => []
                                 end) o in
  let others := filter (fun k => match array_index k with Some _ => false | None => true end)
                       (map fst o) in
  (map snd (fold_right insert_index [] idx) ++ others)%list.

(** *** Dates

    [new Date(year, month, day)] in local time, read back with [getMonth]
    and [getDate]: a year from 0 to 99 means 1900 + year, the month and then
    the day are carried over into the neighbouring months. *)

Definition is_leap (y : Z) : bool :=
  (y mod 4 =? 0) && (negb (y mod 100 =? 0) || (y mod 400 =? 0)).

(** Days of month [m] (0 = January) of year [y]. *)
Definition days_in_month (y m : Z) : Z :=
  if m =? 1 then (if is_leap y then 29 else 28)
  else if (m =? 3) || (m =? 5) || (m =? 8) || (m =? 10) then 30
  else 31.

Definition norm_month (y m : Z) : Z * Z := (y + m / 12, m mod 12).

Fixpoint norm_day (fuel : nat) (y m d : Z) : Z * Z * Z :=
  match fuel with
  | O => (y, m, d)
  | S f =>
      if d <? 1 then
        let (y', m') := norm_month y (m - 1) in
        norm_day f y' m' (d + days_in_month y' m')
      else if days_in_month y m <? d then
        let (y', m') := norm_month y (m + 1) in
        norm_day f y' m' (d - days_in_month y m)
      else (y, m, d)
  end.

(** A year from 0 to 99 stands for 1900 + year. *)
Definition full_year (year : Z) : Z :=
  if (0 <=? year) && (year <=? 99) then 1900 + year else year.

Definition Date (year month day : Z) : Z * Z * Z :=
  let (y, m) := norm_month (full_year year) month in
  norm_day (Z.to_nat (Z.abs day) + 1) y m day.

Definition getMonth (d : Z * Z * Z) : Z := snd (fst d).
Definition getDate (d : Z * Z * Z) : Z := snd d.

(** *** Cells of a sheet

    [XLSX.utils.sheet_to_json(ws, {header: 1, defval: ""})] yields rows of
    strings and numbers; reading a row past its end yields [undefined]. *)

Inductive cell : Type :=
| CNum (x : number)
| CStr (s : string)
| CUndef.

Definition row := list cell.
Definition grid := list row.

(** [r[i]] *)
Definition get (r : row) (i : Z) : cell :=
  if i <? 0 then CUndef else nth (Z.to_nat i) r CUndef.

(** [String(c)] *)
Definition String_ (c : cell) : string :=
  match c with
  | CNum x => number_to_string x
  | CStr s => s
  | CUndef => "undefined"
  end.

(** [!c] *)
Definition falsy (c : cell) : bool :=
  match c with
  | CNum x => falsy_number x
  | CStr s => String.eqb s ""
  | CUndef => true
  end.

(** [String(c || d)] for a string [d] *)
Definition String_or (c : cell) (d : string) : string :=
  if falsy c then d else String_ c.

(** [1, 2, ..., n] *)
Definition range1 (n : Z) : list Z := map Z.of_nat (seq 1 (Z.to_nat n)).

(** [0, 1, ..., n - 1] *)
Definition range0 (n : Z) : list Z := map Z.of_nat (seq 0 (Z.to_nat n)).

(** [l[l.length - 1] += d] on a non-empty array; on an empty one the
    assignment creates the property [-1] and leaves the elements alone. *)
Fixpoint add_to_last (l : list number) (d : number) : list number :=
  match l with
  | [] => []
  | [x] => [(x + d)%float]
  | x :: r => x :: add_to_last r d
  end.

(** [a.join(sep)] on a row: [undefined] elements print as the empty string. *)
Definition join_cells (sep : string) (r : row) : string :=
  join sep (map (fun c => match c with CUndef => "" | _ => String_ c end) r).

Definition is_line_terminator (c : ascii) : bool := is_char 10 c || is_char 13 c.

(** [/\d{1,2}\/\d{1,2}\/\d{4}/]: one or two digits and a slash, read at the
    head of [s]; the rest of the input. *)
Definition digits12_slash (s : string) : option string :=
  match s with
  | String a (String b r) =>
      if is_digit a && is_char 47 b then Some r
      else
        match r with
        | String c r' => if is_digit a && is_digit b && is_char 47 c then Some r' else None
        | EmptyString => None
        end
  | _ => None
  end.

Definition slash_date_here (s : string) : bool :=
  match digits12_slash s with
  | Some r1 =>
      match digits12_slash r1 with
      | Some (String a (String b (String c (String d _)))) =>
          is_digit a && is_digit b && is_digit c && is_digit d
      | _ => false
      end
  | None => false
  end.

(** [/\d{1,2}\/\d{1,2}\/\d{4}/.test(s)] *)
Fixpoint test_slash_date (s : string) : bool :=
  slash_date_here s ||
  match s with
  | EmptyString => false
  | String _ r => test_slash_date r
  end.

(** [/\d+.*(?:TO|-).*\d+/i.test(s)].  A match lies within one line ([.]
    excludes the line terminators): a digit, later [to] or [-], later a
    digit.  The scan is the automaton of these three phases; [R1t] is [R1]
    after a [t]. *)
Inductive range_state : Type := R0 | R1 | R1t | R2.

Fixpoint range_scan (st : range_state) (s : string) : bool :=
  match s with
  | EmptyString => false
  | String c r =>
      if is_line_terminator c then range_scan R0 r
      else
        match st with
        | R0 => range_scan (if is_digit c then R1 else R0) r
        | R1 =>
            if is_char 45 c then range_scan R2 r
            else if is_char 116 (lower_char c) then range_scan R1t r
            else range_scan R1 r
        | R1t =>
            if is_char 45 c then range_scan R2 r
            else if is_char 111 (lower_char c) then range_scan R2 r
            else if is_char 116 (lower_char c) then range_scan R1t r
            else range_scan R1 r
        | R2 => is_digit c || range_scan R2 r
        end
  end.

Definition test_date_range (s : string) : bool := range_scan R0 s.

(** [/week/i.test(s)], [/total/i.test(s)] *)
Definition test_ci (word s : string) : bool := includes (toLowerCase s) word.

(** [a.slice(0, n)] *)
Definition slice0 {A} (n : Z) (l : list A) : list A := firstn (Z.to_nat n) l.

(** [x > 0] on numbers *)
Definition gt0 (x : number) : bool := PrimFloat.ltb 0 x.

(** [/\d{1,2}[-./][A-Za-z]{3}[-./]\d{2}/.test(s)]: a digit, a separator,
    three letters, a separator and two digits somewhere in [s] (a match
    with two leading digits contains one with a single leading digit). *)
Fixpoint test_named_date (s : string) : bool :=
  match s with
  | String d (String p1 (String a (String b (String c (String p2 (String y1 (String y2 _))))))) =>
      (is_digit d && (is_char 45 p1 || is_char 46 p1 || is_char 47 p1)
       && is_alpha a && is_alpha b && is_alpha c
       && (is_char 45 p2 || is_char 46 p2 || is_char 47 p2)
       && is_digit y1 && is_digit y2)
  | _ => false
  end
  || match s with
     | String _ r => test_named_date r
     | EmptyString => false
     end.

End JS.

(** ** Tables of [config.ts] *)

Module Config.

(** Modelled from the spec: [config.ts] is not among the sources.  The
    report dates of the spec ("November 01, 2025", "MASTER_November_2025")
    are built from [MONTH_NAMES[selectedMonth]], and every component that
    declares the table locally ([ProductionEntry.tsx], [FinanceEntry.tsx],
    [ProductionDashboard.tsx]) declares the full English names. *)
Definition MONTH_NAMES : list string :=
  ["January"; "February"; "March"; "April"; "May"; "June"; "July";
   "August"; "September"; "October"; "November"; "December"].

(** Modelled from the spec: the "fixed set of known team names", which the
    parsers compare with the upper-cased cell. *)
Definition SALES_TEAMS : list string :=
  ["ACHIEVERS"; "PASSIONATE"; "CONCORD"; "DYNAMIC"].

End Config.

(** ** [src/services/data-parsers.ts] *)

Module DataParsers.
Import JS.
Local Open Scope float_scope.

Definition cleanValue (val : cell) : number :=
  match val with
  | CNum x => x
  | _ =>
      if falsy val then 0
      else
        let str := trim (remove_chars is_comma (String_ val)) in
        if String.eqb str "-" || String.eqb str "" then 0
        else if startsWith str "(" && endsWith str ")" then
          (-1) * parseFloat (remove_chars is_paren str)
        else or_zero (parseFloat str)
  end.

Definition calculateDailyPlans (monthlyPlan : number) (daysInMonth : Z)
  : list number :=
  let basePlan := monthlyPlan / of_int daysInMonth in
  let last7DaysPlan := basePlan * 1.05 in
  let last7DaysTotal := last7DaysPlan * 7 in
  let remainingDays := of_int daysInMonth - 7 in
  let remainingPlan := monthlyPlan - last7DaysTotal in
  let earlyDayPlan := remainingPlan / remainingDays in
  let plans :=
    map (fun i => if (daysInMonth - 7 <? i)%Z then last7DaysPlan else earlyDayPlan)
        (range1 daysInMonth) in
  let totalPlanned := sum plans in
  let diff := monthlyPlan - totalPlanned in
  add_to_last plans diff.

(** The error channel of a parser: [Throw] is a JavaScript exception with
    its message. *)
Inductive result (A : Type) : Type :=
| Ok (a : A)
| Throw (msg : string).
Arguments Ok {A} a.
Arguments Throw {A} msg.

(** [DepartmentMismatch], the fact record; [fy] is absent from the records
    of the upload component *)
Record DepartmentMismatch : Type := mkFact {
  department : string;
  team : string;
  metric : string;
  plan : number;
  actual : number;
  variance : number;
  unit : string;
  status : string;
  reportDate : string;
  fy : option string
}.

(** [n.toString().padStart(2, '0')] *)
Definition pad (n : Z) : string :=
  let t := int_to_string n in
  zeros (2 - String.length t) ++ t.

(** [%] on integers is the remainder that has the sign of the dividend. *)
Definition getFYLabel (month year : Z) : string :=
  if (6 <=? month)%Z then
    "FY " ++ pad (Z.rem year 100) ++ "-" ++ pad (Z.rem (year + 1) 100)
  else
    "FY " ++ pad (Z.rem (year - 1) 100) ++ "-" ++ pad (Z.rem year 100).

Definition is_date_sep (c : ascii) : bool :=
  is_char 45 c || is_char 46 c || is_char 47 c.

(** The tail of [^(\d{1,2})[-./]([A-Za-z]{3})[-./](\d{2})$] after the day:
    separator, three letters, separator, two digits, end of input. *)
Definition match_month_year (s : string) : option string :=
  match s with
  | String p1 (String a (String b (String c (String p2 (String y1 (String y2 EmptyString)))))) =>
      if is_date_sep p1 && is_alpha a && is_alpha b && is_alpha c
         && is_date_sep p2 && is_digit y1 && is_digit y2
      then Some (String a (String b (String c EmptyString)))
      else None
  | _ => None
  end.

(** [String(h).match(/^(\d{1,2})[-./]([A-Za-z]{3})[-./](\d{2})$/)]: the
    groups 1 and 2.  Two digits are tried before one. *)
Definition match_date_header (s : string) : option (list ascii * string) :=
  match s with
  | String d1 r1 =>
      if is_digit d1 then
        let one := match match_month_year r1 with
                   | Some m => Some ([d1], m)
                   | None => None
                   end in
        match r1 with
        | String d2 r2 =>
            if is_digit d2 then
              match match_month_year r2 with
              | Some m => Some ([d1; d2], m)
              | None => one
              end
            else one
        | EmptyString => one
        end
      else None
  | EmptyString => None
  end.

(** [m.charAt(0).toUpperCase() + m.slice(1).toLowerCase()] *)
Definition capitalize (m : string) : string :=
  match m with
  | String c r => String (upper_char c) (toLowerCase r)
  | EmptyString => EmptyString
  end.

(** [dateColumnMap]: an object whose keys are day numbers.  Its own keys
    are integer indices, which [Object.keys] lists in ascending order; the
    association list is kept sorted by key, a second write to a key
    replaces the first. *)
Definition dateColumnMap_t := list (Z * Z).

Fixpoint dcm_set (m : dateColumnMap_t) (k v : Z) : dateColumnMap_t :=
  match m with
  | [] => [(k, v)]
  | (k', v') :: r =>
      if (k <? k')%Z then (k, v) :: m
      else if (k =? k')%Z then (k, v) :: r
      else (k', v') :: dcm_set r k v
  end.

Fixpoint dcm_get (m : dateColumnMap_t) (k : Z) : option Z :=
  match m with
  | [] => None
  | (k', v) :: r => if (k =? k')%Z then Some v else dcm_get r k
  end.

(** [Object.keys(m).map(Number)], as integers *)
Definition dcm_keys (m : dateColumnMap_t) : list Z := map fst m.

(** [a.find(p)] *)
Definition find_ {A} (p : A -> bool) (l : list A) : option A := List.find p l.

(** [a.some(p)] *)
Definition some {A} (p : A -> bool) (l : list A) : bool := existsb p l.

Definition lowered (c : cell) : string := toLowerCase (String_ c).

(** [[x0; x1; ...]] with the index of each element *)
Definition indexed {A} (l : list A) : list (Z * A) :=
  combine (range0 (Z.of_nat (List.length l))) l.

Section Tables.

Variable MONTH_NAMES : list string.
Variable SALES_TEAMS : list string.

(** [MONTH_NAMES[i]] inside a template literal: ["undefined"] out of range *)
Definition month_name (i : Z) : string :=
  if (i <? 0)%Z then "undefined" else nth (Z.to_nat i) MONTH_NAMES "undefined".

Definition sales_trigger (c : cell) : bool :=
  let low := lowered c in
  String.eqb low "teams" || String.eqb low "brands" || String.eqb low "all regions"
  || String.eqb low "products" || String.eqb low "target units".

(** The index of the header row: the first row with a trigger cell, else
    row 0 ([rows.find(...) || rows[0]]). *)
Definition sales_headerRowIdx (rows : grid) : Z :=
  let i := findIndex (some sales_trigger) rows in
  if (i =? -1)%Z then 0%Z else i.

Definition sales_dateColumnMap (headerRow : row) (selectedMonth : Z)
  : dateColumnMap_t :=
  fold_left
    (fun m (ih : Z * cell) =>
       match match_date_header (String_ (snd ih)) with
       | Some (d, mon) =>
           if (indexOf MONTH_NAMES (capitalize mon) =? selectedMonth)%Z
           then dcm_set m (parseInt_digits d) (fst ih)
           else m
       | None => m
       end)
    (indexed headerRow) [].

(** The state of the row loop: [currentTeam] and the entries pushed so far
    (in order). *)
Definition sales_row_step (isMaster : bool) (selectedMonth selectedYear day : Z)
  (teamIdx regionIdx productIdx dataIdx : Z) (fyl : string)
  (st : string * list DepartmentMismatch) (r : row)
  : string * list DepartmentMismatch :=
  let (currentTeam, out) := st in
  let teamCell := toUpperCase (String_ (get r (if negb (teamIdx =? -1)%Z then teamIdx else 0%Z))) in
  let teamFound := find_ (String.eqb teamCell) SALES_TEAMS in
  let currentTeam :=
    match teamFound with
    | Some t => if String.eqb t "" then currentTeam else t
    | None => currentTeam
    end in
  if String.eqb currentTeam "" then (currentTeam, out)
  else
    let metric := trim (String_ (get r (if negb (productIdx =? -1)%Z then productIdx else 0%Z))) in
    let region := if negb (regionIdx =? -1)%Z then trim (String_ (get r regionIdx)) else currentTeam in
    if String.eqb metric "" || includes (toLowerCase metric) "total"
       || includes (toLowerCase region) "total"
    then (currentTeam, out)
    else
      let val := cleanValue (get r dataIdx) in
      if negb (strict_eq val 0) || isMaster then
        let rd := if isMaster
                  then "MASTER_" ++ month_name selectedMonth ++ "_" ++ int_to_string selectedYear
                  else month_name selectedMonth ++ " " ++ int_to_string day ++ ", "
                       ++ int_to_string selectedYear in
        let entry dept tm :=
          mkFact dept tm metric (if isMaster then val else 0) (if isMaster then 0 else val)
                 (if isMaster then - val else val) "Units" "on-track" rd (Some fyl) in
        let out := (out ++ [entry "Sales" currentTeam])%list in
        if negb (String.eqb region "") && negb (String.eqb region currentTeam)
        then (currentTeam, (out ++ [entry "Territory Sales" region])%list)
        else (currentTeam, out)
      else (currentTeam, out).

(** The body of [daysToProcess.forEach]: the entries of one day. *)
Definition sales_day (rows : grid) (hdr : Z) (isMaster : bool)
  (selectedMonth selectedYear : Z) (teamIdx regionIdx productIdx targetIdx : Z)
  (dcm : dateColumnMap_t) (fyl : string) (day : Z) : list DepartmentMismatch :=
  let dataIdx := if isMaster then targetIdx
                 else match dcm_get dcm day with Some c => c | None => (-1)%Z end in
  if (dataIdx =? -1)%Z then []
  else
    snd (fold_left
           (fun st (ir : Z * row) =>
              if (fst ir =? hdr)%Z then st
              else sales_row_step isMaster selectedMonth selectedYear day
                     teamIdx regionIdx productIdx dataIdx fyl st (snd ir))
           (indexed rows) ("", [])).

(** [parseSalesExcel].  On an empty grid [rows[0]] is [undefined] and the
    first [headerRow.findIndex] throws a [TypeError]. *)
Definition parseSalesExcel (rows : grid) (selectedMonth selectedYear : Z)
  (isMaster isTerritory : bool) : result (list DepartmentMismatch) :=
  let fyl := getFYLabel selectedMonth selectedYear in
  match rows with
  | [] => Throw "TypeError: Cannot read properties of undefined (reading 'findIndex')"
  | _ =>
      let hdr := sales_headerRowIdx rows in
      let headerRow := nth (Z.to_nat hdr) rows [] in
      let teamIdx := findIndex (fun c => String.eqb (lowered c) "teams" || String.eqb (lowered c) "team") headerRow in
      let regionIdx := findIndex (fun c => String.eqb (lowered c) "all regions") headerRow in
      let productIdx := findIndex (fun c => includes (lowered c) "product") headerRow in
      let targetIdx := findIndex (fun c => String.eqb (lowered c) "target units" || String.eqb (lowered c) "plan") headerRow in
      let dcm := if negb isMaster then sales_dateColumnMap headerRow selectedMonth else [] in
      let daysToProcess := if isMaster then [0%Z] else dcm_keys dcm in
      Ok (flat_map (sales_day rows hdr isMaster selectedMonth selectedYear
                      teamIdx regionIdx productIdx targetIdx dcm fyl) daysToProcess)
  end.

(** *** [parseProductionExcel] *)

Record DailyData : Type := mkDaily {
  dd_day : Z;
  dd_planned : number;
  dd_achieved : number;
  dd_variance : number;
  dd_percentage : number
}.

Record Particular : Type := mkParticular {
  p_name : string;
  p_monthlyPlan : number;
  p_totalAchieved : number;
  p_dailyData : list DailyData;
  p_mtdPlan : number;
  p_mtdAchieved : number;
  p_mtdPercentage : number;
  p_remaining : number;
  p_remarks : option string
}.

Record ProductionReport : Type := mkProduction {
  pr_month : string;
  pr_monthKey : string;
  pr_particulars : list Particular;
  pr_totalMonthlyPlan : number;
  pr_totalAchieved : number;
  pr_totalRemaining : number;
  pr_overallPercentage : number;
  pr_reportDate : string;
  pr_daysInMonth : Z
}.

Definition production_header (r : row) : bool :=
  let rowStr := toLowerCase (join_cells "|" r) in
  (includes rowStr "product" || includes rowStr "plan")
  && (includes rowStr "achiev" || test_slash_date rowStr).

(** [(a / b) * 100] when [b > 0], else [0] *)
Definition percent_of (a b : number) : number :=
  if gt0 b then (a / b) * 100 else 0.

(** The last day with a positive achievement, [daysInMonth] when there is
    none: the loop runs from the end of [dailyAchieved]. *)
Definition lastDayWithData (dailyAchieved : list number) (daysInMonth : Z) : Z :=
  fold_left (fun acc (ja : Z * number) => if gt0 (snd ja) then (fst ja + 1)%Z else acc)
            (indexed dailyAchieved) daysInMonth.

(** One data row: [None] when the row is skipped ([continue]). *)
Definition production_row (monthlyPlanCol firstDailyCol daysInMonth : Z) (r : row)
  : option Particular :=
  let name := trim (String_or (get r 0) "") in
  if String.eqb name "" || includes (toLowerCase name) "total"
     || String.eqb (toLowerCase name) "product category"
  then None
  else
    let monthlyPlan := cleanValue (get r monthlyPlanCol) in
    if strict_eq monthlyPlan 0 then None
    else
      let dailyAchieved :=
        map (fun d => let col := (firstDailyCol + (d - 1))%Z in
                      if (col <? Z.of_nat (List.length r))%Z then cleanValue (get r col) else 0)
            (range1 daysInMonth) in
      let totalAchieved := sum dailyAchieved in
      let dailyPlans := calculateDailyPlans monthlyPlan daysInMonth in
      let dailyData :=
        map (fun x : Z * (number * number) =>
               let '(idx, (planned, achieved)) := x in
               mkDaily (idx + 1) planned achieved (achieved - planned)
                       (percent_of achieved planned))
            (indexed (combine dailyPlans dailyAchieved)) in
      let lastDay := lastDayWithData dailyAchieved daysInMonth in
      let mtdPlan := sum (slice0 lastDay dailyPlans) in
      let mtdAchieved := sum (slice0 lastDay dailyAchieved) in
      Some (mkParticular name monthlyPlan totalAchieved dailyData mtdPlan mtdAchieved
              (percent_of mtdAchieved mtdPlan) (monthlyPlan - totalAchieved) None).

(** [rows.slice(n)] *)
Definition rows_from {A} (n : Z) (l : list A) : list A := skipn (Z.to_nat n) l.

Definition filter_map {A B} (f : A -> option B) (l : list A) : list B :=
  flat_map (fun a => match f a with Some b => [b] | None => [] end) l.

(** [now] is [new Date().toISOString()]. *)
Definition parseProductionExcel (now : string) (rows : grid)
  (selectedMonth selectedYear : Z) : result ProductionReport :=
  let headerRow := findIndex production_header (slice0 10 rows) in
  if (headerRow =? -1)%Z then Throw "Missing Production headers"
  else
    let headers := nth (Z.to_nat headerRow) rows [] in
    let monthlyPlanCol :=
      let c := findIndex (fun h => includes (lowered h) "plan"
                                   && (includes (lowered h) "unit" || includes (lowered h) "no."))
                         headers in
      if (c =? -1)%Z then 1%Z else c in
    let firstDailyCol :=
      let c := findIndex (fun ih : Z * cell =>
                            (monthlyPlanCol + 1 <=? fst ih)%Z
                            && (includes (lowered (snd ih)) "achiev"
                                || test_slash_date (lowered (snd ih))))
                         (indexed headers) in
      if (c =? -1)%Z then (monthlyPlanCol + 1)%Z else c in
    let daysInMonth := getDate (Date selectedYear (selectedMonth + 1) 0) in
    let particulars :=
      filter_map (production_row monthlyPlanCol firstDailyCol daysInMonth)
                 (rows_from (headerRow + 1) rows) in
    Ok (mkProduction
          (month_name selectedMonth ++ " " ++ int_to_string selectedYear)
          (int_to_string selectedYear ++ "-" ++ int_to_string selectedMonth)
          particulars
          (sum (map p_monthlyPlan particulars))
          (sum (map p_totalAchieved particulars))
          (sum (map p_remaining particulars))
          0 now daysInMonth).

(** *** [parseFinanceExcel] *)

Record FinanceWeek : Type := mkWeek {
  weekLabel : string;
  weekNumber : Z;
  w_projected : number;
  w_actual : number;
  w_variance : number;
  w_percentage : number
}.

Inductive flow : Type := inflow_t | outflow_t.

Record FinanceCategory : Type := mkCategory {
  c_name : string;
  c_type : flow;
  weeks : list FinanceWeek;
  totalProjected : number;
  totalActual : number;
  c_percentage : number;
  remarks : option string
}.

Record Balance : Type := mkBalance { b_projected : number; b_actual : number }.
Record Position : Type := mkPosition {
  n_projected : number; n_actual : number; n_variance : number }.
Record Flow : Type := mkFlow {
  f_projected : number; f_actual : number; f_percentage : number }.

Record FinanceMismatchReport : Type := mkFinance {
  month : string;
  monthKey : string;
  openingBalance : Balance;
  closingBalance : Position;
  inflow : Flow;
  outflow : Flow;
  netPosition : Position;
  inflowCategories : list FinanceCategory;
  outflowCategories : list FinanceCategory;
  fr_reportDate : string
}.

(** The week columns [{weekLabel, projectedIdx, actualIdx}], with
    [actualIdx = projectedIdx + 1]: the label and [projectedIdx]. *)
Definition pe_weekCols (headers : list string) : list (string * Z) :=
  flat_map
    (fun ch : Z * string =>
       let (c, h) := ch in
       if (test_date_range h || (test_ci "week" h && negb (test_ci "total" h)))
          && (c + 1 <? Z.of_nat (List.length headers))%Z
       then [(h, c)] else [])
    (indexed headers).

Definition pe_section (rows : grid) (particularsColIdx : Z) (weekCols : list (string * Z))
  (start stop : Z) (type : flow) : list FinanceCategory :=
  filter_map
    (fun r : row =>
       let name := trim (String_or (get r particularsColIdx) "") in
       if String.eqb name "" || includes (toLowerCase name) "total"
          || String.eqb (toLowerCase name) "inflow"
          || String.eqb (toLowerCase name) "outflow"
       then None
       else
         let wks :=
           map (fun iw : Z * (string * Z) =>
                  let '(idx, (lbl, c)) := iw in
                  let proj := cleanValue (get r c) in
                  let act := cleanValue (get r (c + 1)) in
                  mkWeek lbl (idx + 1) proj act (act - proj) (percent_of act proj))
               (indexed weekCols) in
         Some (mkCategory name type wks (sum (map w_projected wks))
                 (sum (map w_actual wks)) 0 None))
    (slice0 (stop - start) (rows_from start rows)).

Definition parseFinanceExcel (now : string) (rows : grid)
  (selectedMonth selectedYear : Z) : result FinanceMismatchReport :=
  let headerRowIdx :=
    findIndex (fun r => includes (toLowerCase (join_cells "|" r)) "particulars")
              (slice0 50 rows) in
  if (headerRowIdx =? -1)%Z then Throw "Missing Finance headers"
  else
    let hrow := nth (Z.to_nat headerRowIdx) rows [] in
    let particularsColIdx :=
      findIndex (fun c => String.eqb (trim (lowered c)) "particulars") hrow in
    let headers := map (fun h => trim (String_ h)) hrow in
    let weekCols := pe_weekCols headers in
    let at_label lbl :=
      findIndex (fun r => String.eqb (trim (lowered (get r particularsColIdx))) lbl) rows in
    let inflowStart :=
      if (at_label "inflow" =? -1)%Z then (headerRowIdx + 1)%Z else at_label "inflow" in
    let outflowStart := at_label "outflow" in
    let len := Z.of_nat (List.length rows) in
    let inflowCats :=
      pe_section rows particularsColIdx weekCols inflowStart
        (if negb (outflowStart =? -1)%Z then outflowStart else len) inflow_t in
    let outflowCats :=
      if negb (outflowStart =? -1)%Z
      then pe_section rows particularsColIdx weekCols outflowStart len outflow_t
      else [] in
    Ok (mkFinance
          (month_name selectedMonth ++ " " ++ int_to_string selectedYear)
          (int_to_string selectedYear ++ "-" ++ int_to_string selectedMonth)
          (mkBalance 0 0) (mkPosition 0 0 0) (mkFlow 0 0 0) (mkFlow 0 0 0)
          (mkPosition 0 0 0) inflowCats outflowCats now).

End Tables.

End DataParsers.

(** ** [src/Delivery Package/components/FinanceEntry.tsx]

    [handleFileUpload] parses every selected file into a report of its own
    (fresh objects per file) and then merges the reports into the first
    one.  The merge mutates the categories of [masterReport] in place; a
    report that has been merged is not read again, so the mutation is
    modelled by passing the master's categories along. *)

Module FinanceEntry.
Import JS DataParsers.
Local Open Scope float_scope.

(** The component's own [cleanValue] is the text of the one in
    [data-parsers.ts]. *)
Definition cleanValue : cell -> number := DataParsers.cleanValue.

Record WeekCol : Type := mkWeekCol {
  wc_label : string;
  wc_number : Z;
  projectedIdx : Z;
  actualIdx : Z
}.

Definition rowStr (r : row) : string := toLowerCase (join_cells "|" r).

Definition has_week_dates (s : string) : bool :=
  test_date_range s || includes s "week".

(** The header scan: [(headerRowIdx, dateRowIdx, particularsColIdx)] after
    the loop over the first 50 rows.  [rest] are the rows from index [i]
    on; the loop stops at the first "particulars" row for which a date row
    is found. *)
Fixpoint find_header (rest : grid) (i : Z) (fuel : nat) (st : Z * Z * Z) : Z * Z * Z :=
  match fuel, rest with
  | S fuel', r :: rest' =>
      if includes (rowStr r) "particulars" then
        let '(_, _, pcol) := st in
        let c := findIndex (fun x => String.eqb (trim (lowered x)) "particulars") r in
        let pcol := if (c =? -1)%Z then pcol else c in
        let dateRowIdx :=
          if has_week_dates (rowStr r) then i
          else match rest' with
               | nxt :: _ => if has_week_dates (rowStr nxt) then (i + 1)%Z else (-1)%Z
               | [] => (-1)%Z
               end in
        if negb (dateRowIdx =? -1)%Z then (i, dateRowIdx, pcol)
        else find_header rest' (i + 1) fuel' (i, (-1)%Z, pcol)
      else find_header rest' (i + 1) fuel' st
  | _, _ => st
  end.

(** The week columns read off the date row. *)
Fixpoint weekCols_primary (hs : list (Z * string)) (len : Z) (num : Z) : list WeekCol :=
  match hs with
  | [] => []
  | (c, header) :: r =>
      let isDateRange := test_date_range header in
      let isWeekLabel := test_ci "week" header && negb (test_ci "total" header) in
      if (isDateRange || (isWeekLabel && negb (includes (toLowerCase header) "received")
                                      && negb (includes (toLowerCase header) "paid")))
         && (c + 1 <? len)%Z
      then mkWeekCol header num c (c + 1) :: weekCols_primary r len (num + 1)
      else weekCols_primary r len num
  end.

(** The fallback, from column 1 on: a "week ... received/paid" or "actual"
    column closes a week whose label is the header before it. *)
Fixpoint weekCols_fallback (prev : string) (hs : list (Z * string)) (num : Z) : list WeekCol :=
  match hs with
  | [] => []
  | (c, h) :: r =>
      let header := toLowerCase h in
      if (includes header "week" && (includes header "received" || includes header "paid"))
         || includes header "actual"
      then mkWeekCol (if String.eqb prev "" then "Week " ++ int_to_string num else prev)
                     num (c - 1) c
           :: weekCols_fallback h r (num + 1)
      else weekCols_fallback h r num
  end.

Definition weekCols_of (headers : list string) : list WeekCol :=
  match weekCols_primary (indexed headers) (Z.of_nat (List.length headers)) 1 with
  | [] =>
      match indexed headers with
      | (_, h0) :: r => weekCols_fallback h0 r 1
      | [] => []
      end
  | l => l
  end.

(** [rows[i][0] && String(rows[i][0]).toLowerCase().includes(...)] *)
Definition is_opening_row (r : row) : bool :=
  negb (falsy (get r 0)) && includes (lowered (get r 0)) "opening bank balance".

Definition openingBalance_of (rows : grid) (headerRowIdx : Z) : Balance :=
  match find_ is_opening_row (slice0 headerRowIdx rows) with
  | Some r =>
      match filter (fun v => negb (is_nan v)) (map cleanValue (tl r)) with
      | p :: a :: _ => mkBalance p a
      | [p] => mkBalance p 0
      | [] => mkBalance 0 0
      end
  | None => mkBalance 0 0
  end.

(** [String(r[pcol] || r[0] || '').toLowerCase().trim()] *)
Definition section_cell (pcol : Z) (r : row) : string :=
  trim (toLowerCase
          (if negb (falsy (get r pcol)) then String_ (get r pcol)
           else String_or (get r 0) "")).

(** The last row whose cell is [lbl], or [-1]. *)
Definition last_label (pcol : Z) (lbl : string) (rows : grid) : Z :=
  fold_left (fun acc (ir : Z * row) =>
               if String.eqb (section_cell pcol (snd ir)) lbl then fst ir else acc)
            (indexed rows) (-1)%Z.

Definition parseSection (rows : grid) (pcol : Z) (weekCols : list WeekCol)
  (nheaders : Z) (start stop : Z) (type : flow) : list FinanceCategory :=
  filter_map
    (fun r : row =>
       let name := trim (String_or (get r pcol) "") in
       if String.eqb name "" || includes (toLowerCase name) "particulars"
          || includes (toLowerCase name) "total"
          || String.eqb (toLowerCase name) "inflow"
          || String.eqb (toLowerCase name) "outflow"
       then None
       else if (String.length name <? 2)%nat then None
       else
         let categoryWeeks :=
           map (fun wc =>
                  let proj := cleanValue (CStr (String_ (get r (projectedIdx wc)))) in
                  let act := cleanValue (CStr (String_ (get r (actualIdx wc)))) in
                  mkWeek (wc_label wc) (wc_number wc) proj act (act - proj)
                         (percent_of act proj))
               weekCols in
         let totalProj := sum (map w_projected categoryWeeks) in
         let totalAct := sum (map w_actual categoryWeeks) in
         Some (mkCategory name type categoryWeeks totalProj totalAct
                 (percent_of totalAct totalProj)
                 (Some (String_or (get r nheaders) ""))))
    (slice0 (stop - start) (rows_from start rows)).

Section Upload.

Variable now : string.
Variables selectedMonth selectedYear : Z.

Definition MONTH_NAMES : list string :=
  ["January"; "February"; "March"; "April"; "May"; "June"; "July";
   "August"; "September"; "October"; "November"; "December"].

(** The body of [reader.onload] for one file, given the rows of its first
    sheet. *)
Definition parseFile (rows : grid) : result FinanceMismatchReport :=
  let '(headerRowIdx, dateRowIdx, pcol) :=
    find_header rows 0 50 ((-1)%Z, (-1)%Z, 0%Z) in
  if (headerRowIdx =? -1)%Z then Throw "Missing 'Particulars' header"
  else
    let dateRowIdx := if (dateRowIdx =? -1)%Z then headerRowIdx else dateRowIdx in
    let headers := map (fun h => trim (String_ h)) (nth (Z.to_nat dateRowIdx) rows []) in
    let weekCols := weekCols_of headers in
    match weekCols with
    | [] => Throw "No weekly data columns found"
    | _ =>
        let len := Z.of_nat (List.length rows) in
        let inflowStartIdx :=
          let i := last_label pcol "inflow" rows in
          if (i =? -1)%Z then (dateRowIdx + 1)%Z else i in
        let outflowStartIdx :=
          let o := last_label pcol "outflow" rows in
          if (o =? -1)%Z then
            let k := findIndex (fun r => includes (rowStr r) "particulars")
                               (rows_from (inflowStartIdx + 5) rows) in
            if (k =? -1)%Z then (-1)%Z else (inflowStartIdx + 5 + k)%Z
          else o in
        let nheaders := Z.of_nat (List.length headers) in
        let inflowEnd := if negb (outflowStartIdx =? -1)%Z then outflowStartIdx else len in
        let inflowCats := parseSection rows pcol weekCols nheaders inflowStartIdx inflowEnd inflow_t in
        let outflowCats :=
          if negb (outflowStartIdx =? -1)%Z
          then parseSection rows pcol weekCols nheaders outflowStartIdx len outflow_t
          else [] in
        Ok (mkFinance
              (month_name MONTH_NAMES selectedMonth ++ " " ++ int_to_string selectedYear)
              (int_to_string selectedYear ++ "-" ++ int_to_string selectedMonth)
              (openingBalance_of rows headerRowIdx)
              (mkPosition 0 0 0) (mkFlow 0 0 0) (mkFlow 0 0 0) (mkPosition 0 0 0)
              inflowCats outflowCats now)
    end.

(** *** The batch merge *)

(** [a[i] = x] for an index within the array *)
Fixpoint set_nth {A} (i : nat) (x : A) (l : list A) : list A :=
  match l, i with
  | [], _ => []
  | _ :: r, O => x :: r
  | y :: r, S i' => y :: set_nth i' x r
  end.

(** The inner [forEach]: a week with a known label replaces the first week
    of that label, another one is pushed. *)
Definition merge_week (ws : list FinanceWeek) (newWeek : FinanceWeek) : list FinanceWeek :=
  let existWeekIdx := findIndex (fun w => String.eqb (weekLabel w) (weekLabel newWeek)) ws in
  if (0 <=? existWeekIdx)%Z then set_nth (Z.to_nat existWeekIdx) newWeek ws
  else (ws ++ [newWeek])%list.

(** [weeks.sort((a, b) => a.weekNumber - b.weekNumber)]: the sort is
    stable; insertion before the first week with a number that is not
    smaller keeps equal weeks in order. *)
Fixpoint insert_week (w : FinanceWeek) (l : list FinanceWeek) : list FinanceWeek :=
  match l with
  | [] => [w]
  | x :: r => if (weekNumber w <=? weekNumber x)%Z then w :: l else x :: insert_week w r
  end.

Definition sort_weeks (l : list FinanceWeek) : list FinanceWeek :=
  fold_right insert_week [] l.

Definition merge_category (existing newCat : FinanceCategory) : FinanceCategory :=
  let ws := sort_weeks (fold_left merge_week (weeks newCat) (weeks existing)) in
  let tp := sum (map w_projected ws) in
  let ta := sum (map w_actual ws) in
  mkCategory (c_name existing) (c_type existing) ws tp ta (percent_of ta tp)
             (remarks existing).

(** The category found by [baseCats.find(c => c.name === newCat.name)] is
    updated where it stands. *)
Fixpoint merge_existing (baseCats : list FinanceCategory) (newCat : FinanceCategory)
  : option (list FinanceCategory) :=
  match baseCats with
  | [] => None
  | c :: r =>
      if String.eqb (c_name c) (c_name newCat) then Some (merge_category c newCat :: r)
      else match merge_existing r newCat with
           | Some r' => Some (c :: r')
           | None => None
           end
  end.

Definition mergeCats (baseCats newCats : list FinanceCategory) : list FinanceCategory :=
  fold_left (fun base newCat =>
               match merge_existing base newCat with
               | Some base' => base'
               | None => (base ++ [newCat])%list
               end)
            newCats baseCats.

Definition with_categories (r : FinanceMismatchReport) (ob : Balance)
  (ic oc : list FinanceCategory) : FinanceMismatchReport :=
  mkFinance (month r) (monthKey r) ob (closingBalance r) (inflow r) (outflow r)
            (netPosition r) ic oc (fr_reportDate r).

(** One turn of the loop over [reportsToMerge[1..]]. *)
Definition merge_report (masterReport report : FinanceMismatchReport)
  : FinanceMismatchReport :=
  with_categories masterReport
    (if strict_eq (b_projected (openingBalance masterReport)) 0
     then openingBalance report else openingBalance masterReport)
    (mergeCats (inflowCategories masterReport) (inflowCategories report))
    (mergeCats (outflowCategories masterReport) (outflowCategories report)).

Definition reCalcTotal (cats : list FinanceCategory) : number * number :=
  (sum (map totalProjected cats), sum (map totalActual cats)).

(** "Recalculate Master Totals" *)
Definition recalculate (masterReport : FinanceMismatchReport) : FinanceMismatchReport :=
  let totalInflow := reCalcTotal (inflowCategories masterReport) in
  let totalOutflow := reCalcTotal (outflowCategories masterReport) in
  let op := openingBalance masterReport in
  let netProj := b_projected op + fst totalInflow - fst totalOutflow in
  let netAct := b_actual op + snd totalInflow - snd totalOutflow in
  mkFinance (month masterReport) (monthKey masterReport) op
    (mkPosition netProj netAct (netAct - netProj))
    (mkFlow (fst totalInflow) (snd totalInflow) (percent_of (snd totalInflow) (fst totalInflow)))
    (mkFlow (fst totalOutflow) (snd totalOutflow) (percent_of (snd totalOutflow) (fst totalOutflow)))
    (mkPosition (fst totalInflow - fst totalOutflow) (snd totalInflow - snd totalOutflow)
       ((snd totalInflow - snd totalOutflow) - (fst totalInflow - fst totalOutflow)))
    (inflowCategories masterReport) (outflowCategories masterReport)
    (fr_reportDate masterReport).

(** The merged report of a batch, [None] when no file gave a report. *)
Definition mergeReports (reportsToMerge : list FinanceMismatchReport)
  : option FinanceMismatchReport :=
  match reportsToMerge with
  | [] => None
  | first :: others => Some (recalculate (fold_left merge_report others first))
  end.

(** The reports of the files that parse, in file order. *)
Definition reportsToMerge (files : list grid) : list FinanceMismatchReport :=
  filter_map (fun rows => match parseFile rows with
                          | Ok r => Some r
                          | Throw _ => None
                          end) files.

(** [handleFileUpload]: the argument of [onDataUpdate], [None] when it is
    not called. *)
Definition handleFileUpload (files : list grid) (currentData : list FinanceMismatchReport)
  : option (list FinanceMismatchReport) :=
  let monthKey_ := int_to_string selectedYear ++ "-" ++ int_to_string selectedMonth in
  match mergeReports (reportsToMerge files) with
  | Some masterReport =>
      Some (filter (fun d => negb (String.eqb (monthKey d) monthKey_)) currentData
            ++ [masterReport])%list
  | None => None
  end.

End Upload.

End FinanceEntry.

(** ** The upload component of the sales sheets ([handleUpload] of
    [DataEntry]), for the tabs daily, master, territory-daily and
    territory-master

    [readFile] is the body of [reader.onload] after the sheet has been
    chosen; the branch of the trade tab is [TradeUpload.readTradeFile],
    further down. *)

Module DataEntry.
Import JS DataParsers.
Local Open Scope float_scope.

(** The messages pushed on [errors], after the file name. *)
Inductive upload_error : Type :=
| TerritoryColumnInSalesTab
| MissingTerritoryColumn
| NoValidDateColumns (monthName : string) (year : Z)
| ProcessingFailed.

Definition monthMap : list (string * Z) :=
  [("Jan", 0); ("Feb", 1); ("Mar", 2); ("Apr", 3); ("May", 4); ("Jun", 5);
   ("Jul", 6); ("Aug", 7); ("Sep", 8); ("Oct", 9); ("Nov", 10); ("Dec", 11)]%Z.

Fixpoint assoc (k : string) (l : list (string * Z)) : option Z :=
  match l with
  | [] => None
  | (k', v) :: r => if String.eqb k k' then Some v else assoc k r
  end.

Definition one_of (names : list string) (c : cell) : bool :=
  existsb (String.eqb (lowered c)) names.

Definition all_digits (s : string) : option (list ascii) :=
  match span_digits s with
  | (d, EmptyString) => Some d
  | _ => None
  end.

(** [(\d{2,4})$]: the rest of the input is two to four digits; their
    value. *)
Definition year_digits (s : string) : option Z :=
  match all_digits s with
  | Some d => if (2 <=? List.length d)%nat && (List.length d <=? 4)%nat
              then Some (digits_val d) else None
  | None => None
  end.

(** [^(\d{1,2})[-./]]: the day and the input after the separator. *)
Definition day_sep (s : string) : option (Z * string) :=
  match span_digits s with
  | (d, String p r) =>
      if (1 <=? List.length d)%nat && (List.length d <=? 2)%nat && is_date_sep p
      then Some (digits_val d, r) else None
  | _ => None
  end.

(** [str.match(/^(\d{1,2})[-./]([A-Za-z]{3})[-./](\d{2,4})$/)]: day, month
    letters, year. *)
Definition matchMmm (str : string) : option (Z * string * Z) :=
  match day_sep str with
  | Some (d, String a (String b (String c (String p r)))) =>
      if is_alpha a && is_alpha b && is_alpha c && is_date_sep p then
        match year_digits r with
        | Some y => Some (d, String a (String b (String c EmptyString)), y)
        | None => None
        end
      else None
  | _ => None
  end.

(** [str.match(/^(\d{1,2})[-./](\d{1,2})[-./](\d{2,4})$/)]: day, month,
    year. *)
Definition matchNum (str : string) : option (Z * Z * Z) :=
  match day_sep str with
  | Some (d, r) =>
      match day_sep r with
      | Some (m, r') =>
          match year_digits r' with
          | Some y => Some (d, m, y)
          | None => None
          end
      | None => None
      end
  | None => None
  end.

(** [rawY < 100 ? 2000 + rawY : rawY] *)
Definition century (rawY : Z) : Z := if (rawY <? 100)%Z then (2000 + rawY)%Z else rawY.

(** The key of [dateColumnMap[d]] for an integer [d]. *)
Definition day_key (d : Z) : string := number_to_string (of_int d).

Section Upload.

Variable MONTH_NAMES : list string.
Variable SALES_TEAMS : list string.

(** [XLSX.SSF.parse_date_code]: the day, month and year of a serial date,
    or nothing. *)
Variable parse_date_code : number -> option (Z * Z * Z).

Variables fileMonth fileYear : Z.

(** "Priority 1": the date columns of the header row. *)
Definition header_dates (headerRow : row) : object_t :=
  fold_left
    (fun m (ic : Z * cell) =>
       let (colIdx, cellVal) := ic in
       let str := trim (String_or cellVal "") in
       let byName :=
         match matchMmm str with
         | Some (d, mon, rawY) =>
             match assoc (capitalize mon) monthMap with
             | Some mo => if (mo =? fileMonth)%Z && (century rawY =? fileYear)%Z
                          then Some d else None
             | None => None
             end
         | None => None
         end in
       match byName with
       | Some d => obj_set m (day_key d) colIdx
       | None =>
           match matchNum str with
           | Some (d, mo, rawY) =>
               if (mo - 1 =? fileMonth)%Z && (century rawY =? fileYear)%Z
               then obj_set m (day_key d) colIdx else m
           | None => m
           end
       end)
    (indexed headerRow) [].

(** One cell of "Priority 2": a serial date between 40000 and 50000 is
    turned into [d/m/y]; a cell with two slashes is read as a date. *)
Definition body_date_cell (m : object_t) (c : Z) (x : cell) : object_t :=
  let cellVal := trim (String_or x "") in
  let n := Number_ cellVal in
  let cellVal :=
    if negb (is_nan n) && (4 <? String.length cellVal)%nat
       && PrimFloat.ltb 40000 n && PrimFloat.ltb n 50000
    then match parse_date_code n with
         | Some (d, mo, y) => int_to_string d ++ "/" ++ int_to_string mo ++ "/" ++ int_to_string y
         | None => cellVal
         end
    else cellVal in
  match split_slash cellVal with
  | [p0; p1; p2] =>
      match parseInt p0, parseInt p1, parseInt p2 with
      | Some d, Some mo, Some rawY =>
          if (mo - 1 =? fileMonth)%Z && (century rawY =? fileYear)%Z
          then obj_set m (day_key d) c else m
      | _, _, _ => m
      end
  | _ => m
  end.

Definition body_dates (rows : grid) : object_t :=
  fold_left
    (fun m r => fold_left (fun m c => body_date_cell m c (get r c)) (range0 100) m)
    (slice0 15 rows) [].

(** The column of the targets of a master sheet: the first cell, row by
    row over the first 25 rows and 40 columns, that reads TGT, TARGET,
    PLAN or TARGET UNITS; [-1] when there is none. *)
Definition target_column (rows : grid) : Z :=
  let is_target (x : cell) :=
    let val := toUpperCase (trim (String_or x "")) in
    String.eqb val "TGT" || String.eqb val "TARGET" || String.eqb val "PLAN"
    || String.eqb val "TARGET UNITS" in
  fold_left
    (fun found r =>
       if negb (found =? -1)%Z then found
       else findIndex (fun c => is_target (get r c)) (range0 40))
    (slice0 25 rows) (-1)%Z.

(** [idx !== -1 ? String(row[idx] || "").trim() : ""] *)
Definition column_value (r : row) (idx : Z) : string :=
  if negb (idx =? -1)%Z then trim (String_or (get r idx) "") else "".

Definition em_dash : string :=
  String (ascii_of_nat 226) (String (ascii_of_nat 128) (String (ascii_of_nat 148) EmptyString)).

(** The body of [rows.forEach] *)
Definition upload_row (isMaster isTerritory : bool)
  (teamHeaderIdx regionHeaderIdx productHeaderIdx territoryHeaderIdx dataColumnIndex : Z)
  (reportDateStr : string)
  (st : string * list DepartmentMismatch) (r : row) : string * list DepartmentMismatch :=
  let (currentTeam, out) := st in
  let teamSearchIdx := if negb (teamHeaderIdx =? -1)%Z then teamHeaderIdx else productHeaderIdx in
  let rawTeamVal := trim (String_or (get r teamSearchIdx) "") in
  match find_ (String.eqb (toUpperCase rawTeamVal)) SALES_TEAMS with
  | Some (String c rest) => (String c (toLowerCase rest), out)
  | _ =>
      if String.eqb currentTeam "" then (currentTeam, out)
      else
        let regionVal := column_value r regionHeaderIdx in
        let territoryVal := column_value r territoryHeaderIdx in
        let productVal := column_value r productHeaderIdx in
        if includes (toLowerCase territoryVal) "total" || includes (toLowerCase regionVal) "total"
           || includes (toLowerCase productVal) "total"
        then (currentTeam, out)
        else
          let rawVal := trim (remove_chars is_comma (String_or (get r dataColumnIndex) "0")) in
          let rawVal := if String.eqb rawVal "-" || String.eqb rawVal em_dash
                           || String.eqb rawVal "" then "0" else rawVal in
          let numericVal := parseFloat rawVal in
          if is_nan numericVal then (currentTeam, out)
          else
            let entry dept tm met :=
              mkFact dept tm met (if isMaster then numericVal else 0)
                     (if isMaster then 0 else numericVal)
                     (if isMaster then - numericVal else numericVal)
                     "Units" "on-track" reportDateStr None in
            if isTerritory then
              let detailName :=
                if negb (String.eqb territoryVal "")
                then territoryVal ++ (if negb (String.eqb regionVal "") then " - " ++ regionVal else "")
                else if negb (String.eqb regionVal "") then regionVal else "Unmapped Territory" in
              let teamName := if String.eqb currentTeam "" then "Unmapped Team" else currentTeam in
              (currentTeam, (out ++ [entry "Territory Sales" teamName detailName])%list)
            else
              let metricName :=
                if negb (String.eqb productVal "") then productVal
                else if negb (String.eqb territoryVal "") then territoryVal else regionVal in
              if negb (String.eqb metricName "")
              then (currentTeam, (out ++ [entry "Sales" currentTeam metricName])%list)
              else (currentTeam, out)
  end.

(** The body of [targetDays.forEach] for the key [key] of [dateColumnMap]
    ([day] is [Number(key)]; in master mode the only day is 0). *)
Definition upload_day (rows : grid) (hdr : Z) (isMaster isTerritory : bool)
  (teamHeaderIdx regionHeaderIdx productHeaderIdx territoryHeaderIdx : Z)
  (dcm : object_t) (day : number) : list DepartmentMismatch :=
  let dataColumnIndex :=
    if isMaster then target_column rows
    else match obj_get dcm (number_to_string day) with Some c => c | None => (-1)%Z end in
  if (dataColumnIndex =? -1)%Z then []
  else
    let dStr := if PrimFloat.ltb day 10 then "0" ++ number_to_string day
                else number_to_string day in
    let reportDateStr :=
      if isMaster then "MASTER_" ++ month_name MONTH_NAMES fileMonth ++ "_" ++ int_to_string fileYear
      else month_name MONTH_NAMES fileMonth ++ " " ++ dStr ++ ", " ++ int_to_string fileYear in
    snd (fold_left
           (fun st (ir : Z * row) =>
              if (fst ir =? hdr)%Z then st
              else upload_row isMaster isTerritory teamHeaderIdx regionHeaderIdx
                     productHeaderIdx territoryHeaderIdx dataColumnIndex reportDateStr
                     st (snd ir))
           (indexed rows) ("", [])).

Definition upload_trigger (c : cell) : bool :=
  one_of ["teams"; "team"; "brands"; "all regions"; "products"; "product_name";
          "target units"; "row labels"] c.

(** The index of the header row: the first row with a trigger cell, else
    row 0 ([rowsToUse.find(...) || rowsToUse[0]]). *)
Definition headerRowIdx (rows : grid) : Z :=
  let i := findIndex (some upload_trigger) rows in
  if (i =? -1)%Z then 0%Z else i.

(** The outcome of one file: its entries, or the error pushed on
    [errors]. *)
Definition readFile (isTerritoryTab isMaster : bool) (rows : grid)
  : list DepartmentMismatch * option upload_error :=
  match rows with
  | [] => ([], Some ProcessingFailed)
  | _ =>
      let hdr := headerRowIdx rows in
      let headerRow := nth (Z.to_nat hdr) rows [] in
      let teamHeaderIdx :=
        findIndex (one_of ["team"; "teams"; "sales force"; "sales force name"; "salesforce"; "sf name"]) headerRow in
      let regionHeaderIdx :=
        findIndex (one_of ["all regions"; "region"; "division"; "region name"]) headerRow in
      let productHeaderIdx :=
        findIndex (one_of ["products"; "product_name"; "product name"; "brand"; "brands"; "row labels"]) headerRow in
      let territoryHeaderIdx :=
        findIndex (one_of ["territory"; "territory name"]) headerRow in
      if negb isTerritoryTab && negb (territoryHeaderIdx =? -1)%Z
      then ([], Some TerritoryColumnInSalesTab)
      else if isTerritoryTab && (territoryHeaderIdx =? -1)%Z
      then ([], Some MissingTerritoryColumn)
      else
        let dateColumnMap :=
          if negb isMaster then
            match header_dates headerRow with
            | [] => body_dates rows
            | m => m
            end
          else [] in
        let targetDays := if isMaster then [0] else map Number_ (obj_keys dateColumnMap) in
        match isMaster, targetDays with
        | false, [] =>
            ([], Some (NoValidDateColumns (month_name MONTH_NAMES fileMonth) fileYear))
        | _, _ =>
            (flat_map (upload_day rows hdr isMaster isTerritoryTab teamHeaderIdx
                         regionHeaderIdx productHeaderIdx territoryHeaderIdx dateColumnMap)
                      targetDays, None)
        end
  end.

(** The end of [handleUpload]: the entries of the files are saved when
    there is one at least; otherwise the first error, or "No valid data
    found", is notified.  The files are taken in the order of the list. *)
Inductive outcome : Type :=
| Saved (entries : list DepartmentMismatch)
| Rejected (first_error : option upload_error).

Definition handleUpload (isTerritoryTab isMaster : bool) (files : list grid) : outcome :=
  let results := map (readFile isTerritoryTab isMaster) files in
  let allNewEntries := flat_map fst results in
  let errors := flat_map (fun r => match snd r with Some e => [e] | None => [] end) results in
  match allNewEntries with
  | [] => Rejected (hd_error errors)
  | _ => Saved allNewEntries
  end.

End Upload.

End DataEntry.

(** ** [src/components/ProductionEntry.tsx]

    The upload component of the production sheet: [handleFileUpload] reads
    the numbers with [parseFloat] and refuses a sheet without a valid
    row. *)

Module ProductionEntry.
Import JS DataParsers.
Local Open Scope float_scope.

Definition MONTH_NAMES : list string :=
  ["January"; "February"; "March"; "April"; "May"; "June"; "July";
   "August"; "September"; "October"; "November"; "December"].

(** The component's own [calculateDailyPlans] is the text of the one in
    [data-parsers.ts]. *)
Definition calculateDailyPlans : number -> Z -> list number :=
  DataParsers.calculateDailyPlans.

(** [parseFloat(String(c || '0').replace(/,/g, '')) || 0] *)
Definition numeric (c : cell) : number :=
  or_zero (parseFloat (remove_chars is_comma (String_or c "0"))).

Definition header_of (c : cell) : string := toLowerCase (String_or c "").

Definition upload_row (monthlyPlanCol firstDailyCol remarksCol daysInMonth : Z) (r : row)
  : option Particular :=
  let particularName := trim (String_or (get r 0) "") in
  if String.eqb particularName "" || includes (toLowerCase particularName) "total"
     || String.eqb (toLowerCase particularName) "product category"
  then None
  else
    let monthlyPlan := numeric (get r monthlyPlanCol) in
    if strict_eq monthlyPlan 0 then None
    else
      let dailyAchieved :=
        map (fun day => let colIndex := (firstDailyCol + (day - 1))%Z in
                        if (colIndex <? Z.of_nat (List.length r))%Z
                        then numeric (get r colIndex) else 0)
            (range1 daysInMonth) in
      let totalAchieved := sum dailyAchieved in
      let dailyPlans := calculateDailyPlans monthlyPlan daysInMonth in
      let dailyData :=
        map (fun x : Z * (number * number) =>
               let '(idx, (planned, a)) := x in
               let achieved := or_zero a in
               mkDaily (idx + 1) planned achieved (achieved - planned)
                       (percent_of achieved planned))
            (indexed (combine dailyPlans dailyAchieved)) in
      let lastDayWithData_ := lastDayWithData dailyAchieved daysInMonth in
      let mtdPlan := sum (slice0 lastDayWithData_ dailyPlans) in
      let mtdAchieved := sum (slice0 lastDayWithData_ dailyAchieved) in
      let remarks := if negb (remarksCol =? -1)%Z
                     then Some (trim (String_or (get r remarksCol) "")) else None in
      Some (mkParticular particularName monthlyPlan totalAchieved dailyData mtdPlan
              mtdAchieved (percent_of mtdAchieved mtdPlan) (monthlyPlan - totalAchieved)
              remarks).

Section Upload.

Variable now : string.
Variables selectedMonth selectedYear : Z.

(** The report built from the rows of the first sheet, or the message of
    the exception. *)
Definition buildReport (rows : grid) : result ProductionReport :=
  let headerRow := findIndex production_header (slice0 10 rows) in
  if (headerRow =? -1)%Z
  then Throw "Could not find header row. Expected columns: Product Category, Plan No.of Units, and date columns with Achievement"
  else
    let headers := nth (Z.to_nat headerRow) rows [] in
    let monthlyPlanCol :=
      let c := findIndex (fun h => includes (header_of h) "plan"
                                   && (includes (header_of h) "unit" || includes (header_of h) "no."))
                         headers in
      if (c =? -1)%Z then 1%Z else c in
    let firstDailyCol :=
      let c := findIndex (fun ih : Z * cell =>
                            (monthlyPlanCol + 1 <=? fst ih)%Z
                            && (includes (header_of (snd ih)) "achiev"
                                || test_slash_date (header_of (snd ih))))
                         (indexed headers) in
      if (c =? -1)%Z then (monthlyPlanCol + 1)%Z else c in
    let remarksCol :=
      findIndex (fun h => includes (header_of h) "remark" || includes (header_of h) "comment")
                headers in
    let daysInMonth := getDate (Date selectedYear (selectedMonth + 1) 0) in
    let particulars :=
      filter_map (upload_row monthlyPlanCol firstDailyCol remarksCol daysInMonth)
                 (rows_from (headerRow + 1) rows) in
    match particulars with
    | [] => Throw "No valid production data found in Excel file"
    | _ =>
        let totalMonthlyPlan := sum (map p_monthlyPlan particulars) in
        let totalAchieved := sum (map p_totalAchieved particulars) in
        Ok (mkProduction
              (month_name MONTH_NAMES selectedMonth ++ " " ++ int_to_string selectedYear)
              (int_to_string selectedYear ++ "-" ++ int_to_string selectedMonth)
              particulars totalMonthlyPlan totalAchieved
              (sum (map p_remaining particulars))
              (percent_of totalAchieved totalMonthlyPlan) now daysInMonth)
    end.

(** [handleFileUpload]: the argument of [onDataUpdate], or the message
    shown as the upload error. *)
Definition handleFileUpload (rows : grid) (currentData : list ProductionReport)
  : result (list ProductionReport) :=
  match buildReport rows with
  | Ok productionReport =>
      Ok (filter (fun d => negb (String.eqb (pr_monthKey d) (pr_monthKey productionReport)))
                 currentData ++ [productionReport])%list
  | Throw msg => Throw msg
  end.

End Upload.

End ProductionEntry.

(** ** The upload component of the sales sheets in the delivery package
    ([handleUpload] of [DataEntry], in
    [src/Delivery Package/components/Dashboard.tsx]) *)

Module DeliveryDataEntry.
Import JS DataParsers.
Local Open Scope float_scope.

(** The error of a daily file without a date column ("No valid date
    columns found"). *)
Inductive upload_error : Type :=
| NoValidDateColumns.

Section Upload.

Variable MONTH_NAMES : list string.
Variable SALES_TEAMS : list string.
Variable parse_date_code : number -> option (Z * Z * Z).
Variables fileMonth fileYear : Z.

(** One cell of the scan for date columns: a serial date between 40000
    and 50000 is turned into [d/m/y]; a cell with two slashes is read as a
    date. *)
Definition date_cell (m : object_t) (c : Z) (x : cell) : object_t :=
  let cellVal := trim (String_or x "") in
  let n := Number_ cellVal in
  let cellVal :=
    if negb (is_nan n) && (4 <? String.length cellVal)%nat
       && PrimFloat.ltb 40000 n && PrimFloat.ltb n 50000
    then match parse_date_code n with
         | Some (d, mo, y) => int_to_string d ++ "/" ++ int_to_string mo ++ "/" ++ int_to_string y
         | None => cellVal
         end
    else cellVal in
  match split_slash cellVal with
  | [p0; p1; p2] =>
      match parseInt p0, parseInt p1, parseInt p2 with
      | Some d, Some mo, Some y =>
          if (mo - 1 =? fileMonth)%Z && (y =? fileYear)%Z
          then obj_set m (number_to_string (of_int d)) c else m
      | _, _, _ => m
      end
  | _ => m
  end.

Definition date_columns (rows : grid) : object_t :=
  fold_left
    (fun m r => fold_left (fun m c => date_cell m c (get r c)) (range0 100) m)
    (slice0 10 rows) [].

(** The first cell, over the first 20 rows and 30 columns, that reads TGT,
    TARGET or PLAN; [-1] when there is none. *)
Definition target_column (rows : grid) : Z :=
  let is_target (x : cell) :=
    let val := toUpperCase (trim (String_or x "")) in
    String.eqb val "TGT" || String.eqb val "TARGET" || String.eqb val "PLAN" in
  fold_left
    (fun found r =>
       if negb (found =? -1)%Z then found
       else findIndex (fun c => is_target (get r c)) (range0 30))
    (slice0 20 rows) (-1)%Z.

(** The body of [rows.forEach] *)
Definition upload_row (isMaster isTerritory : bool) (dataColumnIndex : Z)
  (reportDateStr : string)
  (st : string * list DepartmentMismatch) (r : row) : string * list DepartmentMismatch :=
  let (currentTeam, out) := st in
  let firstCol := trim (String_or (get r 0) "") in
  let secondCol := trim (String_or (get r 1) "") in
  if String.eqb firstCol "" then (currentTeam, out)
  else
    let teamFound :=
      match find_ (String.eqb (toUpperCase firstCol)) SALES_TEAMS with
      | Some (String c rest) => Some (String c (toLowerCase rest))
      | _ => None
      end in
    let currentTeam := match teamFound with Some t => t | None => currentTeam end in
    let header_only := match teamFound with Some _ => String.eqb secondCol "" | None => false end in
    if header_only then (currentTeam, out)
    else if String.eqb currentTeam "" || includes (toUpperCase firstCol) "TOTAL"
    then (currentTeam, out)
    else
      let metricName :=
        if isTerritory then
          (if String.eqb (trim (String_or (get r 2) "")) "" then secondCol
           else trim (String_or (get r 2) ""))
        else firstCol in
      if String.eqb metricName "" then (currentTeam, out)
      else
        let rawVal := remove_chars is_comma (String_or (get r dataColumnIndex) "0") in
        let numericVal := parseFloat rawVal in
        if negb (is_nan numericVal) && negb (strict_eq numericVal 0)
        then (currentTeam,
              (out ++ [mkFact (if isTerritory then "Territory Sales" else "Sales")
                         currentTeam metricName
                         (if isMaster then numericVal else 0)
                         (if isMaster then 0 else numericVal)
                         (if isMaster then numericVal * (-1) else numericVal)
                         "Units" "on-track" reportDateStr None])%list)
        else (currentTeam, out).

Definition upload_day (rows : grid) (isMaster isTerritory : bool) (dcm : object_t)
  (day : number) : list DepartmentMismatch :=
  let dataColumnIndex :=
    if isMaster then target_column rows
    else match obj_get dcm (number_to_string day) with Some c => c | None => (-1)%Z end in
  if (dataColumnIndex =? -1)%Z then []
  else
    let dStr := if PrimFloat.ltb day 10 then "0" ++ number_to_string day
                else number_to_string day in
    let reportDateStr :=
      if isMaster then "MASTER_" ++ month_name MONTH_NAMES fileMonth ++ "_" ++ int_to_string fileYear
      else month_name MONTH_NAMES fileMonth ++ " " ++ dStr ++ ", " ++ int_to_string fileYear in
    snd (fold_left (upload_row isMaster isTerritory dataColumnIndex reportDateStr)
                   rows ("", [])).

Definition readFile (isTerritory isMaster : bool) (rows : grid)
  : list DepartmentMismatch * option upload_error :=
  let dateColumnMap := if negb isMaster then date_columns rows else [] in
  let targetDays := if isMaster then [0] else map Number_ (obj_keys dateColumnMap) in
  match isMaster, targetDays with
  | false, [] => ([], Some NoValidDateColumns)
  | _, _ => (flat_map (upload_day rows isMaster isTerritory dateColumnMap) targetDays, None)
  end.

End Upload.

End DeliveryDataEntry.

(** ** [src/components/UniversalUploader.tsx]

    [detectAndProcessFile] routes a dropped file to one of the three
    parsers of [data-parsers.ts]; an exception ends in the error status
    with its message.  The outcome is the update that is saved, for the
    month and year of the current date. *)

Module UniversalUploader.
Import JS DataParsers.

Inductive outcome : Type :=
| ProductionIntegrated (report : ProductionReport)
| FinanceIntegrated (report : FinanceMismatchReport)
| SalesIntegrated (entries : list DepartmentMismatch)
| Failed (message : string).

Section Detect.

Variable MONTH_NAMES : list string.
Variable SALES_TEAMS : list string.
Variable now : string.
Variables currentMonth currentYear : Z.

Definition detectAndProcessFile (rows : grid) : outcome :=
  match rows with
  | [] => Failed "File is empty"
  | _ =>
      let rowStrings := map (fun r => toLowerCase (join_cells "|" r)) (slice0 20 rows) in
      let allContent := join (String (ascii_of_nat 10) EmptyString) rowStrings in
      if includes allContent "product category"
         && (includes allContent "plan" || includes allContent "achievement")
      then match parseProductionExcel MONTH_NAMES now rows currentMonth currentYear with
           | Ok report => ProductionIntegrated report
           | Throw msg => Failed msg
           end
      else if includes allContent "particulars"
              && (includes allContent "inflow" || includes allContent "outflow"
                  || includes allContent "opening bank balance")
      then match parseFinanceExcel MONTH_NAMES now rows currentMonth currentYear with
           | Ok report => FinanceIntegrated report
           | Throw msg => Failed msg
           end
      else
        let hasSalesHeaders :=
          includes allContent "target units" || includes allContent "teams"
          || includes allContent "brands" || includes allContent "all regions"
          || includes allContent "product_name" in
        let hasDateHeaders :=
          some (fun s => test_named_date s || test_slash_date s) rowStrings in
        if hasSalesHeaders || hasDateHeaders then
          let isMaster := includes allContent "target units" || includes allContent "plan" in
          match parseSalesExcel MONTH_NAMES SALES_TEAMS rows currentMonth currentYear
                  isMaster false with
          | Ok [] => Failed "No valid Sales data found."
          | Ok entries => SalesIntegrated entries
          | Throw msg => Failed msg
          end
        else Failed "Could not detect department format."
  end.

End Detect.

End UniversalUploader.

(** ** [src/components/Dashboard.tsx] *)

Module Dashboard.
Import JS.
Local Open Scope float_scope.

Definition isLastDay (year month day : Z) : bool :=
  let nextDay := Date year month (day + 1) in
  negb (getMonth nextDay =? month)%Z.

(** [getDailyTarget], with the component state it closes over
    ([selectedYear], [selectedMonth], [workingDaysCount]). *)
Definition getDailyTarget (selectedYear selectedMonth workingDaysCount : Z)
  (totalPlan : number) (day : Z) : number :=
  let isClosingDay := isLastDay selectedYear selectedMonth day in
  let weightOfLastDay := 3.5 in
  let totalWeights := (of_int workingDaysCount - 1) + weightOfLastDay in
  if isClosingDay then Math_round ((totalPlan / totalWeights) * weightOfLastDay)
  else Math_round (totalPlan / totalWeights).

End Dashboard.

(** ** Month navigation, working days and holidays

    The text of [workingDaysCount] and of [handleMonthChange] is the same in
    [src/components/Dashboard.tsx] and in the upload component;
    [handleToggleHoliday] belongs to the calendar tabs of the upload
    component. *)

Module Calendar.
Import JS.

Definition getFullYear (d : Z * Z * Z) : Z := fst (fst d).

(** [date.setDate(day)]: the day is carried over from the date's own year
    and month. *)
Definition setDate (date : Z * Z * Z) (day : Z) : Z * Z * Z :=
  let '(y, m, _) := date in
  norm_day (Z.to_nat (Z.abs day) + 1) y m day.

(** [`${selectedYear}-${selectedMonth}`] *)
Definition monthKey (selectedYear selectedMonth : Z) : string :=
  int_to_string selectedYear ++ "-" ++ int_to_string selectedMonth.

(** [HolidaysMap]: the holidays (day numbers) of the months, by month key. *)
Definition HolidaysMap := list (string * list Z).

Fixpoint hm_get (m : HolidaysMap) (k : string) : option (list Z) :=
  match m with
  | [] => None
  | (k', v) :: r => if String.eqb k k' then Some v else hm_get r k
  end.

(** [{ ...prev, [k]: v }] *)
Fixpoint hm_set (m : HolidaysMap) (k : string) (v : list Z) : HolidaysMap :=
  match m with
  | [] => [(k, v)]
  | (k', v') :: r => if String.eqb k k' then (k, v) :: r else (k', v') :: hm_set r k v
  end.

(** [m[k] || []] *)
Definition holidays_of (m : HolidaysMap) (k : string) : list Z :=
  match hm_get m k with
  | Some l => l
  | None => []
  end.

(** [hols.includes(day)] *)
Definition includes_day (hols : list Z) (day : Z) : bool := existsb (Z.eqb day) hols.

(** The [while] loop of [workingDaysCount]: the count when the month of
    [date] is no longer [selectedMonth]; [None] when the fuel runs out
    before. *)
Fixpoint workingDays_loop (fuel : nat) (selectedMonth : Z) (hols : list Z)
  (date : Z * Z * Z) (count : Z) : option Z :=
  match fuel with
  | O => None
  | S f =>
      if getMonth date =? selectedMonth then
        let dayNum := getDate date in
        let count := if negb (includes_day hols dayNum) then count + 1 else count in
        workingDays_loop f selectedMonth hols (setDate date (getDate date + 1)) count
      else Some count
  end.

(** [workingDaysCount]: the days of the month that are not holidays, 26
    when there is none ([count || 26]). *)
Definition workingDaysCount (holidaysMap : HolidaysMap) (selectedYear selectedMonth : Z)
  : option Z :=
  let hols := holidays_of holidaysMap (monthKey selectedYear selectedMonth) in
  match workingDays_loop 33 selectedMonth hols (Date selectedYear selectedMonth 1) 0 with
  | Some count => Some (if count =? 0 then 26 else count)
  | None => None
  end.

(** [handleMonthChange(offset)]: the new [viewDate]. *)
Definition handleMonthChange (selectedYear selectedMonth offset : Z) : Z * Z * Z :=
  Date selectedYear (selectedMonth + offset) 1.

(** [handleToggleHoliday(day)]: the new holidays map. *)
Definition handleToggleHoliday (prev : HolidaysMap) (selectedYear selectedMonth day : Z)
  : HolidaysMap :=
  let key := monthKey selectedYear selectedMonth in
  let currentHols := holidays_of prev key in
  let newHols :=
    if includes_day currentHols day
    then filter (fun d => negb (d =? day)) currentHols
    else (currentHols ++ [day])%list in
  hm_set prev key newHols.

End Calendar.

(** ** The trade tab of the upload component ([handleUpload], the branch
    [isTrade]) *)

Module TradeUpload.
Import JS DataParsers.
Local Open Scope float_scope.

(** The months of the financial year with the stems of their column
    titles: [/Aug(?:ust)? Budget/i] is matched by "aug budget" and by
    "august budget", in any letter case, anywhere in the cell. *)
Definition tradeMonths : list (string * list string) :=
  [("July", ["july"]); ("August", ["aug"; "august"]); ("September", ["sept"; "september"]);
   ("October", ["oct"; "october"]); ("November", ["nov"; "november"]);
   ("December", ["dec"; "december"]); ("January", ["jan"; "january"]);
   ("February", ["feb"; "february"]); ("March", ["mar"; "march"]);
   ("April", ["apr"; "april"]); ("May", ["may"]); ("June", ["june"])].

(** [/<stem> <word>/i.test(s)] for one of the stems *)
Definition test_title (stems : list string) (word : string) (s : string) : bool :=
  existsb (fun stem => includes (toLowerCase s) (stem ++ " " ++ word)) stems.

(** A month of [currentMonthIndices]: its name, [bIdx] and [sIdx]. *)
Record MonthIndices : Type := mkMonthIndices {
  mi_name : string;
  bIdx : Z;
  sIdx : Z
}.

(** [parseFloat(String(c || "0").replace(/,/g, "")) || 0] *)
Definition amount (c : cell) : number :=
  or_zero (parseFloat (remove_chars is_comma (String_or c "0"))).

(** [`FY ${currentYear - 2000}-${currentYear - 1999}`] from July on, else
    [`FY ${currentYear - 2001}-${currentYear - 2000}`] *)
Definition fyLabel (currentMonth currentYear : Z) : string :=
  if (6 <=? currentMonth)%Z
  then "FY " ++ int_to_string (currentYear - 2000) ++ "-" ++ int_to_string (currentYear - 1999)
  else "FY " ++ int_to_string (currentYear - 2001) ++ "-" ++ int_to_string (currentYear - 2000).

Section Upload.

(** The month and the year of [new Date()] *)
Variables currentMonth currentYear : Z.

(** The entries of one data row, one for each month of the block that has
    a budget or a sale. *)
Definition trade_entries (currentMonthIndices : list MonthIndices)
  (category customerName : string) (r : row) : list DepartmentMismatch :=
  flat_map
    (fun m =>
       let budget := if negb (bIdx m =? -1)%Z then amount (get r (bIdx m)) else 0 in
       let sales := if negb (sIdx m =? -1)%Z then amount (get r (sIdx m)) else 0 in
       if strict_eq budget 0 && strict_eq sales 0 then []
       else [mkFact "TRADE" (if String.eqb category "" then "GENERIC" else category)
               customerName budget sales (sales - budget) "PKR"
               (if PrimFloat.leb budget sales then "on-track" else "critical")
               (mi_name m) (Some (fyLabel currentMonth currentYear))])
    currentMonthIndices.

(** The body of [rows.forEach]: the state is [currentMonthIndices] and the
    entries pushed so far. *)
Definition trade_row (st : list MonthIndices * list DepartmentMismatch) (r : row)
  : list MonthIndices * list DepartmentMismatch :=
  let (currentMonthIndices, out) := st in
  let cellB := toLowerCase (trim (String_or (get r 1) "")) in
  let isHeader :=
    includes cellB "customer"
    || (2 <=? List.length (filter (fun c => includes (lowered c) "budget") r))%nat in
  if isHeader then
    (filter (fun m => negb (bIdx m =? -1)%Z || negb (sIdx m =? -1)%Z)
       (map (fun m : string * list string =>
               mkMonthIndices (fst m)
                 (findIndex (fun c => test_title (snd m) "budget" (String_ c)) r)
                 (findIndex (fun c => test_title (snd m) "sales" (String_ c)) r))
            tradeMonths),
     out)
  else
    match currentMonthIndices with
    | [] => st
    | _ =>
        let category := trim (String_or (get r 0) "") in
        let customerName := trim (String_or (get r 1) "") in
        if String.eqb customerName "" then st
        else
          let lowName := toLowerCase customerName in
          let lowCat := toLowerCase category in
          if includes lowName "total" || includes lowCat "total"
             || String.eqb lowName "return" || String.eqb lowName "achievement"
             || String.eqb lowName "customer"
          then st
          else (currentMonthIndices,
                (out ++ trade_entries currentMonthIndices category customerName r)%list)
    end.

(** The entries of one file of the trade tab. *)
Definition readTradeFile (rows : grid) : list DepartmentMismatch :=
  snd (fold_left trade_row rows ([], [])).

End Upload.

End TradeUpload.

(** ** The trade sheet of [src/components/Dashboard.tsx]: [tradeFYs],
    [activeFY], [tradeData], [tradeSummary] *)

Module TradeView.
Import JS DataParsers.
Local Open Scope float_scope.

(** [Array.from(new Set(l))]: the first occurrences, in order. *)
Definition set_add {A : Type} (eqb : A -> A -> bool) (seen : list A) (x : A) : list A :=
  if existsb (eqb x) seen then seen else (seen ++ [x])%list.

Definition unique {A : Type} (eqb : A -> A -> bool) (l : list A) : list A :=
  fold_left (set_add eqb) l [].

Definition option_eqb (a b : option string) : bool :=
  match a, b with
  | Some x, Some y => String.eqb x y
  | None, None => true
  | _, _ => false
  end.

(** [l.sort()] on strings: ascending by code units. *)
Fixpoint insert_string (x : string) (l : list string) : list string :=
  match l with
  | [] => [x]
  | y :: r => if String.leb x y then x :: l else y :: insert_string x r
  end.

Definition sort_strings (l : list string) : list string :=
  fold_right insert_string [] l.

(** [.filter(Boolean)] on labels that may be absent *)
Definition truthy_labels (l : list (option string)) : list string :=
  flat_map (fun o => match o with
                     | Some s => if String.eqb s "" then [] else [s]
                     | None => []
                     end) l.

Definition is_trade (d : DepartmentMismatch) : bool := String.eqb (department d) "TRADE".

Definition tradeFYs (data : list DepartmentMismatch) : list string :=
  sort_strings (truthy_labels (unique option_eqb (map fy (filter is_trade data)))).

(** [activeFY]: the selected label, else the last of [tradeFYs], else the
    label of the current date ([currMonth], [currYear]). *)
Definition activeFY (tradeFY : string) (data : list DepartmentMismatch)
  (currMonth currYear : Z) : string :=
  if negb (String.eqb tradeFY "") then tradeFY
  else
    match tradeFYs data with
    | _ :: _ => List.last (tradeFYs data) ""
    | [] =>
        if (6 <=? currMonth)%Z
        then "FY " ++ pad (Z.rem currYear 100) ++ "-" ++ pad (Z.rem (currYear + 1) 100)
        else "FY " ++ pad (Z.rem (currYear - 1) 100) ++ "-" ++ pad (Z.rem currYear 100)
    end.

Definition tradeData (tradeFY : string) (data : list DepartmentMismatch)
  (currMonth currYear : Z) : list DepartmentMismatch :=
  filter (fun d => is_trade d
                   && option_eqb (fy d) (Some (activeFY tradeFY data currMonth currYear)))
         data.

Record TeamSummary : Type := mkTeamSummary {
  ts_name : string;
  Budget : number;
  Achievement : number
}.

Definition tradeSummary (tradeData : list DepartmentMismatch) : list TeamSummary :=
  map (fun tm =>
         let teamRows := filter (fun d => String.eqb (team d) tm) tradeData in
         mkTeamSummary tm (sum (map plan teamRows)) (sum (map actual teamRows)))
      (unique String.eqb (map team tradeData)).

End TradeView.

(** ** [src/services/reportService.ts]: [safeNum], [aggregateDeptData] *)

Module ReportService.
Import JS DataParsers.
Local Open Scope float_scope.

(** [safeNum(val)] on a number: [Number(val)] is the number itself. *)
Definition safeNum (val : number) : number :=
  if is_nan val then 0 else val.

Record AggregateRow : Type := mkAggregateRow {
  a_team : string;
  a_metric : string;
  a_plan : number;
  a_actual : number
}.

(** [a || b] on strings *)
Definition or_string (a b : string) : string := if String.eqb a "" then b else a.

Section Aggregate.

(** The sign of [a.localeCompare(b)], which depends on the collation of
    the host. *)
Variable localeCompare : string -> string -> Z.

(** [l.sort(cmp)]: the sort is stable; an element is inserted before the
    first element that it does not follow. *)
Fixpoint insert_by {A : Type} (cmp : A -> A -> Z) (x : A) (l : list A) : list A :=
  match l with
  | [] => [x]
  | y :: r => if (cmp x y <=? 0)%Z then x :: l else y :: insert_by cmp x r
  end.

Definition sort_by {A : Type} (cmp : A -> A -> Z) (l : list A) : list A :=
  fold_right (insert_by cmp) [] l.

Definition is_master (d : DepartmentMismatch) : bool := startsWith (reportDate d) "MASTER_".

(** [master] of the metric: the first master record of the department *)
Definition master_of (data : list DepartmentMismatch) (dept metric_ : string)
  : option DepartmentMismatch :=
  find_ (fun d => String.eqb (department d) dept && String.eqb (metric d) metric_
                  && is_master d) data.

(** [dailyEntry] of the metric: the first of the daily records when they
    are sorted by report date, latest first *)
Definition dailyEntry_of (data : list DepartmentMismatch) (dept metric_ : string)
  : option DepartmentMismatch :=
  hd_error
    (sort_by (fun a b => localeCompare (reportDate b) (reportDate a))
       (filter (fun d => String.eqb (department d) dept && String.eqb (metric d) metric_
                         && negb (is_master d)) data)).

(** The row of one metric, before the final filter. *)
Definition aggregate_metric (data : list DepartmentMismatch) (dept : string)
  (workingDaysCount : number) (metric_ : string) : AggregateRow :=
  let weightOfLastDay := 3.5 in
  let totalWeights := (workingDaysCount - 1) + weightOfLastDay in
  let master := master_of data dept metric_ in
  let rawPlan := match master with Some m => safeNum (plan m) | None => 0 end in
  let dailyPlan := Math_round (rawPlan / totalWeights) in
  let dailyEntry := dailyEntry_of data dept metric_ in
  mkAggregateRow
    (or_string (match master with Some m => team m | None => "" end)
       (or_string (match dailyEntry with Some d => team d | None => "" end) "Unknown"))
    (or_string metric_ "Unnamed Metric")
    dailyPlan
    (match dailyEntry with Some d => safeNum (actual d) | None => 0 end).

(** [aggregateDeptData(data, dept, dayNum, workingDaysCount)] *)
Definition aggregateDeptData (data : list DepartmentMismatch) (dept : string)
  (dayNum : Z) (workingDaysCount : number) : list AggregateRow :=
  let allMetrics :=
    TradeView.unique String.eqb
      (map metric (filter (fun d => String.eqb (department d) dept) data)) in
  filter (fun d => gt0 (a_plan d) || gt0 (a_actual d))
         (map (aggregate_metric data dept workingDaysCount) allMetrics).

End Aggregate.

End ReportService.

(** * The vocabulary of the properties, and sheets to try them on *)

Module Spec.
Import JS FinanceEntry DataParsers.

(** [x] and [y] are the same number: equal as numbers ([0] and [-0] are),
    or both [NaN]. *)
Definition same_number (x y : number) : bool :=
  (is_nan x && is_nan y) || PrimFloat.eqb x y.



(** The sign convention alone, as the upload component follows it. *)
Definition sign_convention (isMaster : bool) (f : DepartmentMismatch) : Prop :=
  same_number (variance f) (actual f - plan f)%float = true
  /\ if isMaster
     then actual f = 0%float /\ variance f = (- plan f)%float
     else plan f = 0%float /\ variance f = actual f.

(** The records of the upload component of the delivery package: the
    variance of a master record is written [plan * -1]. *)
Definition delivery_convention (isMaster : bool) (f : DepartmentMismatch) : Prop :=
  if isMaster
  then actual f = 0%float /\ variance f = (plan f * (-1))%float
  else plan f = 0%float /\ variance f = actual f.


(** The plan cell of a row is not zero. *)
Definition plan_nonzero (monthlyPlanCol : Z) (r : row) : bool :=
  negb (strict_eq (cleanValue (get r monthlyPlanCol)) 0%float).

(** The position of the first element that satisfies [p]. *)
Fixpoint first_pos {A : Type} (p : A -> bool) (l : list A) : option nat :=
  match l with
  | [] => None
  | x :: r => if p x then Some O else option_map S (first_pos p r)
  end.

(** The weeks are in the order of their numbers. *)
Definition weeks_ascending (ws : list FinanceWeek) : Prop :=
  StronglySorted Z.le (map weekNumber ws).

(** A category as the parser builds it: weeks in the order of their
    numbers, totals and percentage computed from the weeks. *)
Definition category_consistent (c : FinanceCategory) : Prop :=
  weeks_ascending (weeks c)
  /\ totalProjected c = sum (map w_projected (weeks c))
  /\ totalActual c = sum (map w_actual (weeks c))
  /\ c_percentage c = percent_of (totalActual c) (totalProjected c).

(** The strings of a list are pairwise different. *)
Fixpoint distinct (l : list string) : bool :=
  match l with
  | [] => true
  | x :: r => negb (existsb (String.eqb x) r) && distinct r
  end.

(** The keys of the merge are distinct in a report: the category names
    within each section, the week labels within each category. *)
Definition distinct_keys (r : FinanceMismatchReport) : bool :=
  distinct (map c_name (inflowCategories r))
  && distinct (map c_name (outflowCategories r))
  && forallb (fun c => distinct (map weekLabel (weeks c)))
       (inflowCategories r ++ outflowCategories r).

(** The round-trip scenario of the spec. *)
Definition scenario_daily : grid :=
  [[CStr "Teams"; CStr "Products"; CStr "01-Nov-25"];
   [CStr "ACHIEVERS"; CStr "ProductX"; CStr "150"]].

(** The master scenario of the spec. *)
Definition scenario_master : grid :=
  [[CStr "Teams"; CStr "Products"; CStr "Target Units"];
   [CStr "ACHIEVERS"; CStr "ProductX"; CStr "4646"]].

(** A daily sheet whose only date column belongs to October. *)
Definition october_sheet : grid :=
  [[CStr "Teams"; CStr "Products"; CStr "01-Oct-25"];
   [CStr "ACHIEVERS"; CStr "ProductX"; CStr "150"]].

(** The fact the spec expects from the round-trip scenario. *)
Definition scenario_daily_expected : DepartmentMismatch :=
  mkFact "Sales" "Achievers" "ProductX" 0%float 150%float 150%float "Units" "on-track"
         "November 01, 2025" (Some "FY 25-26").

(** A daily sheet of May whose header cells hold no trigger cell either. *)
Definition headerless_may_sheet : grid :=
  [[CStr "Team"; CStr "Product"; CStr "01-May-25"];
   [CStr "ACHIEVERS"; CStr "ProductX"; CStr "150"]].

(** A production sheet of February 2025 with a plan of 1001.6 units. *)
Definition february_sheet : grid :=
  [[CStr "Product Category"; CStr "Plan No.of Units"; CStr "Achievement"];
   [CStr "Tablets"; CStr "1001.6"; CNum 5%float]].

(** A master sheet whose header cells ("Team", "Product", "Plan") are none
    of the trigger cells of the sales parser. *)
Definition headerless_sheet : grid :=
  [[CStr "Team"; CStr "Product"; CStr "Plan"];
   [CStr "ACHIEVERS"; CStr "ProductX"; CStr "4646"]].

(** A sheet of February 2025 with a zero plan, a dash and a total row. *)
Definition production_sheet : grid :=
  [[CStr "Product Category"; CStr "Plan No.of Units"; CStr "Achievement"];
   [CStr "Tablets"; CStr "3,100"; CNum 5%float];
   [CStr "Syrups"; CStr "0"; CNum 5%float];
   [CStr "Total"; CStr "3,100"];
   [CStr "Creams"; CStr "-"; CNum 5%float]].

(** Two files of one batch, with a closing-balance row that is skipped. *)
Definition finance_sheet_1 : grid :=
  [[CStr "Opening Bank Balance"; CNum 100%float; CNum 90%float];
   [CStr "Particulars"; CStr "Week 1"; CStr "Received"; CStr "Week 2"; CStr "Received"];
   [CStr "Inflow"];
   [CStr "Sales"; CStr "1,000"; CNum 900%float; CStr "500"; CStr "(20)"];
   [CStr "Total Inflow"; CNum 1500%float; CNum 880%float];
   [CStr "Outflow"];
   [CStr "Rent"; CStr "10"; CNum 9%float; CStr "10"; CStr "-"];
   [CStr "Closing Balance Total"; CNum 7%float; CNum 7%float]].

Definition finance_sheet_2 : grid :=
  [[CStr "Particulars"; CStr "Week 2"; CStr "Received"; CStr "Week 3"; CStr "Received"];
   [CStr "Inflow"];
   [CStr "Sales"; CStr "600"; CNum 30%float; CStr "5"; CStr "4"];
   [CStr "Loans"; CStr "1"; CNum 2%float; CStr "3"; CStr "4"]].

(** A sheet with two inflow rows of the same name. *)
Definition finance_sheet_twins : grid :=
  [[CStr "Particulars"; CStr "Week 1"; CStr "Received"];
   [CStr "Inflow"];
   [CStr "Sales"; CStr "100"; CStr "90"];
   [CStr "Sales"; CStr "50"; CStr "40"];
   [CStr "Outflow"];
   [CStr "Rent"; CStr "10"; CStr "9"]].

(** The days [d], [d + 1], ..., [d + k - 1] that are not holidays. *)
Definition working_from (hols : list Z) (d : Z) (k : nat) : Z :=
  Z.of_nat (List.length (filter (fun x => negb (Calendar.includes_day hols x))
                           (map (fun i => d + Z.of_nat i) (seq 0 k)))).

(** The days of a month of [daysInMonth] days that are not holidays. *)
Definition working_days (hols : list Z) (daysInMonth : Z) : Z :=
  Z.of_nat (List.length (filter (fun d => negb (Calendar.includes_day hols d))
                           (range1 daysInMonth))).

(** An entry of the trade tab, uploaded in the month [currentMonth] of
    [currentYear]. *)
Definition trade_record (currentMonth currentYear : Z) (f : DepartmentMismatch) : Prop :=
  department f = "TRADE" /\ unit f = "PKR"
  /\ In (reportDate f) (map fst TradeUpload.tradeMonths)
  /\ fy f = Some (TradeUpload.fyLabel currentMonth currentYear)
  /\ team f <> "" /\ metric f <> ""
  /\ includes (toLowerCase (metric f)) "total" = false
  /\ is_nan (plan f) = false /\ is_nan (actual f) = false
  /\ strict_eq (plan f) 0%float && strict_eq (actual f) 0%float = false
  /\ variance f = (actual f - plan f)%float
  /\ status f = if PrimFloat.leb (plan f) (actual f) then "on-track" else "critical".

(** The row opens a block of month columns of the trade tab. *)
Definition trade_header (r : row) : bool :=
  includes (toLowerCase (trim (String_or (get r 1) ""))) "customer"
  || (2 <=? List.length (filter (fun c => includes (lowered c) "budget") r))%nat.

(** A trade sheet with one block of one month. *)
Definition trade_sheet : grid :=
  [[CStr "Category"; CStr "Customer"; CStr "July Budget"; CStr "July Sales"];
   [CStr "Retail"; CStr "Acme"; CStr "1,000"; CStr "900"]].

(** What the sales fact extractor writes in the fields that C7 leaves
    aside. *)
Definition sales_fact_wellformed (SALES_TEAMS : list string) (selectedMonth selectedYear : Z)
  (isMaster : bool) (f : DepartmentMismatch) : Prop :=
  unit f = "Units" /\ status f = "on-track"
  /\ fy f = Some (getFYLabel selectedMonth selectedYear)
  /\ metric f <> "" /\ includes (toLowerCase (metric f)) "total" = false
  /\ (isMaster = false -> strict_eq (actual f) 0%float = false)
  /\ ((department f = "Sales" /\ In (team f) SALES_TEAMS)
      \/ (department f = "Territory Sales" /\ team f <> ""
          /\ includes (toLowerCase (team f)) "total" = false)).

(** A date column of the header row: the cell at [col] reads as day [day]
    of the selected month. *)
Definition date_column (MONTH_NAMES : list string) (headerRow : row) (selectedMonth : Z)
  (day col : Z) : Prop :=
  0 <= col < Z.of_nat (List.length headerRow)
  /\ exists d mon,
       match_date_header (String_ (get headerRow col)) = Some (d, mon)
       /\ parseInt_digits d = day
       /\ indexOf MONTH_NAMES (capitalize mon) = selectedMonth.

(** The daily data of a particular agree with its totals. *)
Definition particular_consistent (daysInMonth : Z) (p : Particular) : Prop :=
  map dd_day (p_dailyData p) = range1 daysInMonth
  /\ map dd_planned (p_dailyData p) = calculateDailyPlans (p_monthlyPlan p) daysInMonth
  /\ Forall (fun d => dd_variance d = (dd_achieved d - dd_planned d)%float) (p_dailyData p)
  /\ p_totalAchieved p = sum (map dd_achieved (p_dailyData p))
  /\ p_remaining p = (p_monthlyPlan p - p_totalAchieved p)%float.

(** A category as [parseFinanceExcel] builds it from the week columns
    [labels]. *)
Definition parsed_category (labels : list string) (type : flow) (c : FinanceCategory) : Prop :=
  c_type c = type /\ c_name c <> ""
  /\ includes (toLowerCase (c_name c)) "total" = false
  /\ map weekLabel (weeks c) = labels
  /\ map weekNumber (weeks c) = range1 (Z.of_nat (List.length labels))
  /\ Forall (fun w => w_variance w = (w_actual w - w_projected w)%float) (weeks c)
  /\ totalProjected c = sum (map w_projected (weeks c))
  /\ totalActual c = sum (map w_actual (weeks c)).

(** A stored report of the month [key] without categories. *)
Definition stored_report (key : string) : FinanceMismatchReport :=
  let zero := 0%float in
  mkFinance "" key (mkBalance zero zero) (mkPosition zero zero zero) (mkFlow zero zero zero)
    (mkFlow zero zero zero) (mkPosition zero zero zero) [] [] "".

(** A team name as the upload component stores it: a member of
    [SALES_TEAMS] with its tail in lower case. *)
Definition stored_team (SALES_TEAMS : list string) (t : string) : Prop :=
  exists c rest, In (String c rest) SALES_TEAMS /\ t = String c (toLowerCase rest).

(** An entry of the upload component in the tab [isTerritoryTab]. *)
Definition upload_entry (SALES_TEAMS : list string) (isTerritoryTab : bool)
  (f : DepartmentMismatch) : Prop :=
  department f = (if isTerritoryTab then "Territory Sales" else "Sales")
  /\ stored_team SALES_TEAMS (team f)
  /\ metric f <> ""
  /\ is_nan (plan f) = false /\ is_nan (actual f) = false /\ is_nan (variance f) = false
  /\ unit f = "Units" /\ status f = "on-track" /\ fy f = None.

(** An entry of the upload component of the delivery package. *)
Definition delivery_entry (isTerritory isMaster : bool) (f : DepartmentMismatch) : Prop :=
  department f = (if isTerritory then "Territory Sales" else "Sales")
  /\ team f <> "" /\ metric f <> ""
  /\ (let v := if isMaster then plan f else actual f in
      is_nan v = false /\ strict_eq v 0%float = false).

(** A particular of the upload component of the production sheet. *)
Definition uploaded_particular (p : Particular) : Prop :=
  p_name p <> ""
  /\ is_nan (p_monthlyPlan p) = false /\ strict_eq (p_monthlyPlan p) 0%float = false
  /\ Forall (fun d => is_nan (dd_achieved d) = false) (p_dailyData p).

(** The monthly plan that the daily report reads for a metric. *)
Definition rawPlan_of (data : list DepartmentMismatch) (dept metric_ : string) : number :=
  match ReportService.master_of data dept metric_ with
  | Some m => ReportService.safeNum (plan m)
  | None => 0%float
  end.

(** A collation to try the daily report with: the order of the code
    units. *)
Definition compare_code_units (a b : string) : Z :=
  if String.eqb a b then 0 else if String.leb a b then -1 else 1.

(** A master record and two daily records of one metric. *)
Definition report_data : list DepartmentMismatch :=
  [mkFact "Sales" "Achievers" "ProductX" 1000%float 0%float (-1000)%float "Units"
     "on-track" "MASTER_November_2025" None;
   mkFact "Sales" "Achievers" "ProductX" 0%float 40%float 40%float "Units"
     "on-track" "November 01, 2025" None;
   mkFact "Sales" "Achievers" "ProductX" 0%float 55%float 55%float "Units"
     "on-track" "November 02, 2025" None].

(** The categories of a batch: those of the first report, with those of
    the other reports merged into them in the order of the files. *)
Definition merged_categories (section_of : FinanceMismatchReport -> list FinanceCategory)
  (reports : list FinanceMismatchReport) : list FinanceCategory :=
  match reports with
  | [] => []
  | first :: others => fold_left mergeCats (map section_of others) (section_of first)
  end.

(** The projected opening balance of the report is not 0. *)
Definition has_opening (r : FinanceMismatchReport) : bool :=
  negb (strict_eq (b_projected (openingBalance r)) 0%float).

(** The opening balance of a batch: that of the first report whose
    projected opening balance is not 0, that of the last report when there
    is none. *)
Definition batch_opening (reports : list FinanceMismatchReport) : Balance :=
  match reports with
  | [] => mkBalance 0%float 0%float
  | first :: others =>
      match find_ has_opening reports with
      | Some r => openingBalance r
      | None => openingBalance (List.last others first)
      end
  end.

(** A sheet whose weeks sum to infinity on both sides. *)
Definition overflow_sheet : grid :=
  [[CStr "Particulars"; CStr "Week 1"; CStr "Received"; CStr "Week 2"; CStr "Received"];
   [CStr "Inflow"];
   [CStr "Sales"; CStr "0"; CStr "1e308"; CStr "0"; CStr "1e308"];
   [CStr "Outflow"];
   [CStr "Rent"; CStr "0"; CStr "1e308"; CStr "0"; CStr "1e308"]].

End Spec.

(** * Properties *)

Import JS FinanceEntry DataParsers Spec.

(** ** Lists *)

Lemma fold_left_invariant {A B : Type} (P : A -> Prop) (f : A -> B -> A)
  (l : list B) (a : A) :
  P a -> (forall a' b, P a' -> In b l -> P (f a' b)) -> P (fold_left f l a).
Proof.
  revert a. induction l as [|b l IH]; intros a Ha Hf; simpl.
  - exact Ha.
  - apply IH.
    + apply Hf; [exact Ha | now left].
    + intros a' b' Ha' Hb'. apply Hf; [exact Ha' | now right].
Qed.


Lemma filter_map_filter {A B : Type} (f : A -> option B) (q : A -> bool) (l : list A) :
  (forall x, q x = false -> f x = None) ->
  filter_map f l = filter_map f (filter q l).
Proof.
  intros H. unfold filter_map. induction l as [|x l IH]; simpl; [reflexivity|].
  destruct (q x) eqn:E; simpl.
  - now rewrite IH.
  - now rewrite (H x E).
Qed.

Lemma filter_map_Forall {A B : Type} (f : A -> option B) (P : B -> Prop) (l : list A) :
  (forall x y, f x = Some y -> P y) -> Forall P (filter_map f l).
Proof.
  intros H. unfold filter_map. apply Forall_flat_map, Forall_forall. intros x _.
  destruct (f x) as [y|] eqn:E; constructor; [now apply (H x) | constructor].
Qed.

Lemma findIndex_from_first_pos {A : Type} (p : A -> bool) (l : list A) (i : Z) :
  findIndex_from p l i
  = match first_pos p l with
    | Some k => i + Z.of_nat k
    | None => -1
    end.
Proof.
  revert i. induction l as [|x r IH]; intros i; simpl; [reflexivity|].
  destruct (p x); [simpl; lia|].
  rewrite IH. destruct (first_pos p r); simpl; lia.
Qed.

Lemma findIndex_none {A : Type} (p : A -> bool) (l : list A) :
  (forall x, In x l -> p x = false) -> findIndex p l = -1.
Proof.
  intros H. unfold findIndex. rewrite findIndex_from_first_pos.
  replace (first_pos p l) with (@None nat); [reflexivity|].
  induction l as [|x r IH]; simpl; [reflexivity|].
  rewrite (H x) by now left. rewrite <- IH; [reflexivity|].
  intros y Hy. apply H. now right.
Qed.

Lemma set_nth_same {A : Type} (l : list A) (k : nat) (x : A) :
  nth_error l k = Some x -> set_nth k x l = l.
Proof.
  revert k. induction l as [|y r IH]; intros [|k] H; simpl in *; try discriminate.
  - now injection H as ->.
  - now rewrite IH.
Qed.

Lemma In_forallb {A : Type} (p : A -> bool) (l : list A) :
  forallb p l = true -> forall x, In x l -> p x = true.
Proof. intros H x Hx. rewrite forallb_forall in H. now apply H. Qed.

(** ** The value normalizer *)

Lemma or_zero_not_nan (x : number) : is_nan (or_zero x) = false.
Proof.
  unfold or_zero, falsy_number.
  destruct (is_nan x) eqn:E; simpl.
  - reflexivity.
  - destruct (PrimFloat.eqb x 0); [reflexivity | exact E].
Qed.

(** Outside the parenthesized branch the normalizer never yields [NaN]:
    a string that does not parse gives 0. *)
Lemma cleanValue_unparenthesized (s : string) :
  let str := trim (remove_chars is_comma s) in
  startsWith str "(" && endsWith str ")" = false ->
  is_nan (cleanValue (CStr s)) = false.
Proof.
  intros str H. unfold cleanValue.
  destruct (falsy (CStr s)); [reflexivity|].
  fold str. simpl String_. fold str.
  destruct (String.eqb str "-" || String.eqb str ""); [reflexivity|].
  rewrite H. apply or_zero_not_nan.
Qed.

(** C6.  The normalizer is a total function, but on the accounting form
    with a non-numeric inside, "(abc)", it returns [NaN] and not 0: the
    parenthesized branch has no [|| 0]. *)
Theorem cleanValue_paren_abc_is_nan :
  cleanValue (CStr "(abc)") = nan /\ is_nan (cleanValue (CStr "(abc)")) = true
  /\ cleanValue (CStr "abc") = 0%float.
Proof. repeat split; vm_compute; reflexivity. Qed.

(** ** The production allocator *)

Lemma range1_length (n : Z) : List.length (range1 n) = Z.to_nat n.
Proof. unfold range1. now rewrite length_map, length_seq. Qed.

Lemma add_to_last_length (l : list number) (d : number) :
  List.length (add_to_last l d) = List.length l.
Proof.
  induction l as [|x [|y r] IH]; simpl in *; auto.
Qed.

(** The allocator returns one plan per day. *)
Lemma calculateDailyPlans_length (monthlyPlan : number) (daysInMonth : Z) :
  List.length (calculateDailyPlans monthlyPlan daysInMonth) = Z.to_nat daysInMonth.
Proof.
  unfold calculateDailyPlans.
  now rewrite add_to_last_length, length_map, range1_length.
Qed.

Lemma add_to_last_nth (l : list number) (d : number) (i : nat) :
  (S i < List.length l)%nat -> nth i (add_to_last l d) 0%float = nth i l 0%float.
Proof.
  revert i. induction l as [|x [|y r] IH]; intros i H; simpl in H; try lia.
  destruct i as [|i]; [reflexivity|].
  change (nth i (add_to_last (y :: r) d) 0%float = nth i (y :: r) 0%float).
  apply IH. simpl. lia.
Qed.

(** Each of the last seven days but the final one is planned at
    [(monthlyPlan / daysInMonth) * 1.05]. *)
Lemma calculateDailyPlans_last7 (monthlyPlan : number) (daysInMonth i : Z) :
  daysInMonth - 7 < i < daysInMonth -> 0 < i ->
  nth (Z.to_nat (i - 1)) (calculateDailyPlans monthlyPlan daysInMonth) 0%float
  = (monthlyPlan / of_int daysInMonth * 1.05)%float.
Proof.
  intros Hi Hpos. unfold calculateDailyPlans.
  rewrite add_to_last_nth by (rewrite length_map, range1_length; lia).
  set (f := fun i0 : Z => if daysInMonth - 7 <? i0 then _ else _).
  rewrite (nth_indep _ 0%float (f 0)) by (rewrite length_map, range1_length; lia).
  rewrite map_nth. unfold range1.
  change 0 with (Z.of_nat 0). rewrite map_nth, seq_nth by lia.
  unfold f. destruct (Z.ltb_spec (daysInMonth - 7) (Z.of_nat (1 + Z.to_nat (i - 1)))); [reflexivity|lia].
Qed.

(** C2.  The allocator returns [daysInMonth] plans, but their sum is not
    always [monthlyPlan]: the correction of the final day is itself rounded.
    For a plan of 1001.6 over the 28 days of February the plans add up to
    1001.6000000000001. *)
Theorem calculateDailyPlans_sum_inexact :
  let plans := calculateDailyPlans (cleanValue (CStr "1001.6")) 28 in
  List.length plans = 28%nat
  /\ sum plans = 1001.6000000000001%float
  /\ strict_eq (sum plans) (cleanValue (CStr "1001.6")) = false.
Proof. vm_compute. repeat split; reflexivity. Qed.

(** The same, through the parser: the planned quantities of the row
    "Tablets" of the February sheet do not add up to its monthly plan. *)
Lemma parseProductionExcel_february_sheet :
  match parseProductionExcel Config.MONTH_NAMES "2025-02-28T00:00:00.000Z" february_sheet
          1 2025 with
  | Ok rep =>
      map (fun p => (p_monthlyPlan p, sum (map dd_planned (p_dailyData p))))
          (pr_particulars rep)
  | Throw _ => []
  end = [(1001.6, 1001.6000000000001)]%float.
Proof. vm_compute. reflexivity. Qed.

(** ** The sales fact extractor *)

(** C4.  On the round-trip scenario [parseSalesExcel] returns no fact at
    all: the month abbreviation "Nov" of the header is looked up in
    [MONTH_NAMES], which holds the full names, so no date column is kept. *)
Theorem parseSalesExcel_scenario_daily :
  parseSalesExcel Config.MONTH_NAMES Config.SALES_TEAMS scenario_daily 10 2025 false false
  = Ok []
  /\ sales_dateColumnMap Config.MONTH_NAMES
       [CStr "Teams"; CStr "Products"; CStr "01-Nov-25"] 10 = [].
Proof. split; vm_compute; reflexivity. Qed.

(** With a table of abbreviations in the place of [MONTH_NAMES] the date
    column is found, and the fact still differs from the expected one in
    its team and in its report date. *)
Lemma parseSalesExcel_scenario_daily_abbreviations :
  parseSalesExcel
    ["Jan"; "Feb"; "Mar"; "Apr"; "May"; "Jun"; "Jul"; "Aug"; "Sep"; "Oct"; "Nov"; "Dec"]
    Config.SALES_TEAMS scenario_daily 10 2025 false false
  = Ok [mkFact "Sales" "ACHIEVERS" "ProductX" 0%float 150%float 150%float "Units"
          "on-track" "Nov 1, 2025" (Some "FY 25-26")].
Proof. vm_compute. reflexivity. Qed.

Section SalesFacts.

Variable MONTH_NAMES : list string.
Variable SALES_TEAMS : list string.

(** In daily mode a header without a date column of the month gives an
    empty list, returned as a success. *)
Lemma parseSalesExcel_no_date_column (r0 : row) (rows : grid)
  (selectedMonth selectedYear : Z) (isTerritory : bool) :
  sales_dateColumnMap MONTH_NAMES
    (nth (Z.to_nat (sales_headerRowIdx (r0 :: rows))) (r0 :: rows) []) selectedMonth = [] ->
  parseSalesExcel MONTH_NAMES SALES_TEAMS (r0 :: rows) selectedMonth selectedYear
    false isTerritory = Ok [].
Proof.
  intros H. unfold parseSalesExcel. cbv zeta.
  change (negb false) with true. cbv iota.
  rewrite H. reflexivity.
Qed.

End SalesFacts.

(** C1.  A daily grid whose only date column belongs to October, parsed
    for November 2025: [parseSalesExcel] succeeds with the empty list of
    facts; no error is raised. *)
Theorem parseSalesExcel_no_date_column_october :
  parseSalesExcel Config.MONTH_NAMES Config.SALES_TEAMS october_sheet 10 2025 false false
  = Ok [].
Proof. vm_compute. reflexivity. Qed.

(** *** The team of a record

    [parseSalesExcel] stores the team as it is found in [SALES_TEAMS],
    that is, as the upper-cased cell: the team of a "Sales" record is in
    upper case, whatever the two tables are. *)

Lemma upper_char_idempotent (c : ascii) : upper_char (upper_char c) = upper_char c.
Proof.
  destruct c as [[] [] [] [] [] [] [] []]; reflexivity.
Qed.

Lemma toUpperCase_idempotent (s : string) : toUpperCase (toUpperCase s) = toUpperCase s.
Proof.
  induction s as [|c s IH]; simpl; [reflexivity|].
  unfold toUpperCase in *. simpl. now rewrite upper_char_idempotent, IH.
Qed.

Lemma find_eqb_found (x : string) (l : list string) (t : string) :
  find_ (String.eqb x) l = Some t -> t = x.
Proof.
  unfold find_. intros H. apply find_some in H as [_ H].
  symmetry. now apply String.eqb_eq.
Qed.

Section SalesTeams.

Variable MONTH_NAMES : list string.
Variable SALES_TEAMS : list string.

Let team_upper (f : DepartmentMismatch) : Prop :=
  department f = "Sales" -> team f = toUpperCase (team f).

Lemma sales_row_step_team (isMaster : bool)
  (selectedMonth selectedYear day teamIdx regionIdx productIdx dataIdx : Z)
  (fyl : string) (st : string * list DepartmentMismatch) (r : row) :
  fst st = toUpperCase (fst st) /\ Forall team_upper (snd st) ->
  let st' := sales_row_step MONTH_NAMES SALES_TEAMS isMaster selectedMonth selectedYear day
               teamIdx regionIdx productIdx dataIdx fyl st r in
  fst st' = toUpperCase (fst st') /\ Forall team_upper (snd st').
Proof.
  destruct st as [team0 out]. simpl fst. simpl snd. intros [Ht Hout].
  unfold sales_row_step.
  match goal with |- context [String.eqb ?t ""] =>
    assert (Hu : t = toUpperCase t); [|generalize dependent t; intros tm Hu] end.
  { destruct (find_ _ SALES_TEAMS) as [t|] eqn:E; [|exact Ht].
    destruct (String.eqb t ""); [exact Ht|].
    apply find_eqb_found in E. rewrite E. symmetry. apply toUpperCase_idempotent. }
  destruct (String.eqb tm ""); [now split|].
  match goal with |- context [if ?b then (tm, out) else _] => destruct b end; [now split|].
  match goal with |- context [if ?b then _ else (tm, out)] => destruct b end; [|now split].
  match goal with |- context [if ?b then _ else _] => destruct b end; simpl; (split; [exact Hu|]);
    repeat (apply Forall_app; split); try exact Hout;
    apply Forall_cons; try apply Forall_nil; unfold team_upper; simpl;
    try (intros _; exact Hu); discriminate.
Qed.

Lemma parseSalesExcel_team_upper (rows : grid) (selectedMonth selectedYear : Z)
  (isMaster isTerritory : bool) (facts : list DepartmentMismatch) :
  parseSalesExcel MONTH_NAMES SALES_TEAMS rows selectedMonth selectedYear
    isMaster isTerritory = Ok facts ->
  Forall (fun f => department f = "Sales" -> team f = toUpperCase (team f)) facts.
Proof.
  unfold parseSalesExcel. destruct rows as [|r0 rest] eqn:E; [discriminate|].
  rewrite <- E. intros H. injection H as <-.
  apply Forall_flat_map, Forall_forall. intros day _. unfold sales_day.
  match goal with |- context [if ?b then [] else _] => destruct b end; [constructor|].
  apply (fold_left_invariant
           (fun st => fst st = toUpperCase (fst st) /\ Forall team_upper (snd st)));
    [split; [reflexivity | constructor]|].
  intros st [i r] Hst _. simpl fst. simpl snd.
  match goal with |- context [if ?b then st else _] => destruct b end; [exact Hst|].
  now apply sales_row_step_team.
Qed.

(** So the record that the spec expects from the round-trip scenario,
    with the team "Achievers", is returned for no choice of the tables. *)
Lemma parseSalesExcel_scenario_daily_any_tables :
  parseSalesExcel MONTH_NAMES SALES_TEAMS scenario_daily 10 2025 false false
  <> Ok [scenario_daily_expected].
Proof.
  intros H. apply parseSalesExcel_team_upper in H.
  inversion H as [|f l Hf _]; subst.
  specialize (Hf eq_refl). discriminate Hf.
Qed.

End SalesTeams.

(** *** Variance and the sign convention *)

Lemma SFeqb_finite_refl (s : bool) (m : positive) (e : Z) :
  SFeqb (S754_finite s m e) (S754_finite s m e) = true.
Proof.
  unfold SFeqb, SFcompare.
  destruct s; rewrite Z.compare_refl, Pos.compare_cont_refl; reflexivity.
Qed.

Lemma same_number_spec (x y : number) :
  same_number x y =
  match Prim2SF x, Prim2SF y with
  | S754_nan, S754_nan => true
  | a, b => SFeqb a b
  end.
Proof.
  unfold same_number, is_nan. rewrite !eqb_spec.
  destruct (Prim2SF x) as [sx|sx| |sx mx ex], (Prim2SF y) as [sy|sy| |sy my ey];
    rewrite ?SFeqb_finite_refl;
    try reflexivity;
    try (destruct sx; reflexivity);
    try (destruct sy; reflexivity).
Qed.

Lemma Prim2SF_zero : Prim2SF 0%float = S754_zero false.
Proof. reflexivity. Qed.

(** [-v] is the number [0 - v]. *)
Lemma opp_is_zero_minus (v : number) : same_number (- v)%float (0 - v)%float = true.
Proof.
  rewrite same_number_spec, opp_spec, sub_spec, Prim2SF_zero.
  destruct (Prim2SF v) as [s|s| |s m e]; simpl.
  - destruct s; reflexivity.
  - destruct s; reflexivity.
  - reflexivity.
  - apply SFeqb_finite_refl.
Qed.

(** [v - 0] is [v] itself. *)
Lemma minus_zero (v : number) : (v - 0)%float = v.
Proof.
  apply Prim2SF_inj. rewrite sub_spec, Prim2SF_zero.
  destruct (Prim2SF v) as [s|s| |s m e]; simpl; try reflexivity.
  destruct s; reflexivity.
Qed.

Lemma same_number_refl (v : number) : same_number v v = true.
Proof.
  rewrite same_number_spec.
  destruct (Prim2SF v) as [s|s| |s m e]; try reflexivity.
  - destruct s; reflexivity.
  - apply SFeqb_finite_refl.
Qed.

Section SalesRecords.

Variable MONTH_NAMES : list string.
Variable SALES_TEAMS : list string.
Variable rows : grid.
Variables selectedMonth selectedYear : Z.





End SalesRecords.


(** ** The production parser *)

Lemma production_row_plan (monthlyPlanCol firstDailyCol daysInMonth : Z) (r : row)
  (p : Particular) :
  production_row monthlyPlanCol firstDailyCol daysInMonth r = Some p ->
  p_monthlyPlan p = cleanValue (get r monthlyPlanCol)
  /\ strict_eq (p_monthlyPlan p) 0%float = false.
Proof.
  unfold production_row.
  match goal with |- context [if ?b then None else _] => destruct b end; [discriminate|].
  destruct (strict_eq (cleanValue (get r monthlyPlanCol)) 0%float) eqn:E; [discriminate|].
  intros H. injection H as <-. simpl. now split.
Qed.

Lemma production_row_zero_plan (monthlyPlanCol firstDailyCol daysInMonth : Z) (r : row) :
  plan_nonzero monthlyPlanCol r = false ->
  production_row monthlyPlanCol firstDailyCol daysInMonth r = None.
Proof.
  unfold plan_nonzero, production_row. intros H.
  apply negb_false_iff in H. rewrite H.
  match goal with |- context [if ?b then None else _] => destruct b end; reflexivity.
Qed.

(** C10.  Every particular of a report of [parseProductionExcel] has a
    monthly plan different from 0, and the rows whose plan cell normalizes
    to 0 contribute nothing: the particulars are those of the data rows
    that are left when these rows are removed, and the totals of the
    report are sums over the particulars. *)
Theorem parseProductionExcel_plans_nonzero (MONTH_NAMES : list string) (now : string)
  (rows : grid) (selectedMonth selectedYear : Z) (rep : ProductionReport) :
  parseProductionExcel MONTH_NAMES now rows selectedMonth selectedYear = Ok rep ->
  Forall (fun p => strict_eq (p_monthlyPlan p) 0%float = false) (pr_particulars rep)
  /\ (exists headerRow monthlyPlanCol firstDailyCol,
        pr_particulars rep
        = filter_map (production_row monthlyPlanCol firstDailyCol (pr_daysInMonth rep))
            (filter (plan_nonzero monthlyPlanCol) (rows_from (headerRow + 1) rows)))
  /\ pr_totalMonthlyPlan rep = sum (map p_monthlyPlan (pr_particulars rep))
  /\ pr_totalAchieved rep = sum (map p_totalAchieved (pr_particulars rep))
  /\ pr_totalRemaining rep = sum (map p_remaining (pr_particulars rep)).
Proof.
  unfold parseProductionExcel.
  destruct (findIndex production_header (slice0 10 rows) =? -1); [discriminate|].
  intros H. injection H as <-. cbn [pr_particulars pr_daysInMonth pr_totalMonthlyPlan
                                     pr_totalAchieved pr_totalRemaining].
  split; [|split; [|repeat split]].
  - apply filter_map_Forall. intros r p Hp.
    now apply production_row_plan in Hp.
  - eexists _, _, _. apply filter_map_filter.
    intros r Hr. now apply production_row_zero_plan.
Qed.

(** An instance: of the rows of the February sheet only 'Tablets' is kept. *)
Lemma parseProductionExcel_plans_nonzero_witness :
  exists rep,
    parseProductionExcel Config.MONTH_NAMES "2025-02-28T00:00:00.000Z" production_sheet 1 2025
    = Ok rep
    /\ map p_name (pr_particulars rep) = ["Tablets"]
    /\ Forall (fun p => strict_eq (p_monthlyPlan p) 0%float = false) (pr_particulars rep).
Proof.
  eexists. split; [vm_compute; reflexivity|]. split; [reflexivity|].
  eapply (parseProductionExcel_plans_nonzero Config.MONTH_NAMES "2025-02-28T00:00:00.000Z"
            production_sheet 1 2025).
  vm_compute. reflexivity.
Defined.

(** ** The finance batch merge *)

Lemma merge_report_inflow (others : list FinanceMismatchReport) (first : FinanceMismatchReport) :
  inflowCategories (fold_left merge_report others first)
  = fold_left mergeCats (map inflowCategories others) (inflowCategories first).
Proof.
  revert first. induction others as [|r rest IH]; intros first; [reflexivity|].
  simpl. now rewrite IH.
Qed.

Lemma merge_report_outflow (others : list FinanceMismatchReport) (first : FinanceMismatchReport) :
  outflowCategories (fold_left merge_report others first)
  = fold_left mergeCats (map outflowCategories others) (outflowCategories first).
Proof.
  revert first. induction others as [|r rest IH]; intros first; [reflexivity|].
  simpl. now rewrite IH.
Qed.

Lemma last_nonempty {A : Type} (l : list A) (d d' : A) :
  l <> [] -> List.last l d = List.last l d'.
Proof.
  induction l as [|x r IH]; intros H; [congruence|].
  destruct r as [|y r']; [reflexivity|]. simpl in *. apply IH. discriminate.
Qed.

Lemma merge_report_opening (others : list FinanceMismatchReport) (first : FinanceMismatchReport) :
  openingBalance (fold_left merge_report others first) = batch_opening (first :: others).
Proof.
  revert first. induction others as [|r rest IH]; intros first.
  - unfold batch_opening, find_. simpl. now destruct (has_opening first).
  - cbn [fold_left]. rewrite IH. unfold batch_opening, find_. cbn [find].
    assert (Ho : openingBalance (merge_report first r)
                 = if has_opening first then openingBalance first else openingBalance r).
    { unfold merge_report, with_categories, has_opening. cbn [openingBalance].
      destruct (strict_eq (b_projected (openingBalance first)) 0%float); reflexivity. }
    assert (Hh : has_opening (merge_report first r)
                 = if has_opening first then true else has_opening r).
    { unfold has_opening at 1. rewrite Ho. unfold has_opening.
      destruct (strict_eq (b_projected (openingBalance first)) 0%float) eqn:E; simpl;
        rewrite ?E; reflexivity. }
    rewrite Hh. destruct (has_opening first); [exact Ho|].
    destruct (has_opening r); [exact Ho|].
    destruct (find has_opening rest); [reflexivity|].
    destruct rest as [|x rest']; [exact Ho|].
    change (List.last (r :: x :: rest') first) with (List.last (x :: rest') first).
    f_equal. apply last_nonempty. discriminate.
Qed.

Lemma merge_existing_names (base : list FinanceCategory) (c : FinanceCategory)
  (base' : list FinanceCategory) :
  merge_existing base c = Some base' ->
  map c_name base' = map c_name base /\ In (c_name c) (map c_name base).
Proof.
  revert base'. induction base as [|c0 r IH]; intros base' H; [discriminate|].
  simpl in H. destruct (String.eqb_spec (c_name c0) (c_name c)) as [E|E].
  - injection H as <-. split; [reflexivity|]. left. exact E.
  - destruct (merge_existing r c) as [r'|]; [|discriminate].
    injection H as <-. destruct (IH r' eq_refl) as [Hn Hi].
    split; [simpl; now rewrite Hn | now right].
Qed.

Lemma mergeCats_name (baseCats newCats : list FinanceCategory) (n : string) :
  In n (map c_name (mergeCats baseCats newCats))
  <-> In n (map c_name baseCats) \/ In n (map c_name newCats).
Proof.
  revert baseCats. induction newCats as [|c rest IH]; intros baseCats.
  - unfold mergeCats. simpl. intuition.
  - unfold mergeCats. cbn [fold_left].
    fold (mergeCats (match merge_existing baseCats c with
                     | Some base' => base'
                     | None => (baseCats ++ [c])%list
                     end) rest).
    rewrite IH. destruct (merge_existing baseCats c) as [base'|] eqn:E.
    + destruct (merge_existing_names _ _ _ E) as [Hn Hi]. rewrite Hn. simpl.
      intuition. subst. now left.
    + rewrite map_app, in_app_iff. simpl. intuition.
Qed.

Lemma merged_categories_name (section_of : FinanceMismatchReport -> list FinanceCategory)
  (reports : list FinanceMismatchReport) (n : string) :
  In n (map c_name (merged_categories section_of reports))
  <-> exists r, In r reports /\ In n (map c_name (section_of r)).
Proof.
  destruct reports as [|first others]; [simpl; split; [intros [] | intros (r & [] & _)]|].
  unfold merged_categories.
  assert (H : forall base,
             In n (map c_name (fold_left mergeCats (map section_of others) base))
             <-> In n (map c_name base)
                 \/ exists r, In r others /\ In n (map c_name (section_of r))).
  { induction others as [|r rest IH]; intros base; simpl.
    - split; [now left | intros [H | (r & [] & _)]; exact H].
    - rewrite IH, mergeCats_name. split.
      + intros [[H | H] | (x & Hx & Hn)]; [now left | right; exists r | right; exists x]; auto.
      + intros [H | (x & [<- | Hx] & Hn)]; [left; now left | left; now right | right; exists x]; auto. }
  rewrite H. split.
  - intros [Hn | (r & Hr & Hn)]; [exists first | exists r]; simpl; auto.
  - intros (r & [<- | Hr] & Hn); [now left | right; exists r]; auto.
Qed.

Lemma strict_eq_self (x : number) : strict_eq x x = negb (is_nan x).
Proof. unfold is_nan, strict_eq. now rewrite negb_involutive. Qed.

(** C3, as amended.  Whatever reports a batch holds (and whatever their own
    closing balances are), the merged report has the categories of the
    first report with those of the others merged into them, under the names
    that the reports of the batch hold, and the opening balance of the first
    report whose projected opening balance is not 0; its inflow and outflow
    are recomputed as the sums of the merged category totals; its closing
    balance is the value of opening + inflow - outflow, and it compares
    equal to it ([==]) whenever it is a number. *)
Theorem mergeReports_closing_balance (reports : list FinanceMismatchReport) :
  reports <> [] ->
  exists master,
    mergeReports reports = Some master
    /\ inflowCategories master = merged_categories inflowCategories reports
    /\ outflowCategories master = merged_categories outflowCategories reports
    /\ (forall n, In n (map c_name (inflowCategories master))
                  <-> exists r, In r reports /\ In n (map c_name (inflowCategories r)))
    /\ (forall n, In n (map c_name (outflowCategories master))
                  <-> exists r, In r reports /\ In n (map c_name (outflowCategories r)))
    /\ openingBalance master = batch_opening reports
    /\ f_actual (inflow master) = sum (map totalActual (inflowCategories master))
    /\ f_actual (outflow master) = sum (map totalActual (outflowCategories master))
    /\ n_actual (closingBalance master)
       = (b_actual (openingBalance master) + f_actual (inflow master)
          - f_actual (outflow master))%float
    /\ (is_nan (n_actual (closingBalance master)) = false ->
        strict_eq (n_actual (closingBalance master))
          (b_actual (openingBalance master) + f_actual (inflow master)
           - f_actual (outflow master))%float = true).
Proof.
  destruct reports as [|first others]; [congruence|]. intros _.
  eexists. split; [reflexivity|].
  cbn [recalculate inflowCategories outflowCategories openingBalance inflow outflow
       closingBalance f_actual n_actual reCalcTotal fst snd].
  assert (Hi : inflowCategories (fold_left merge_report others first)
               = merged_categories inflowCategories (first :: others))
    by apply merge_report_inflow.
  assert (Ho : outflowCategories (fold_left merge_report others first)
               = merged_categories outflowCategories (first :: others))
    by apply merge_report_outflow.
  split; [exact Hi|]. split; [exact Ho|].
  split; [intros n; rewrite Hi; apply merged_categories_name|].
  split; [intros n; rewrite Ho; apply merged_categories_name|].
  split; [apply merge_report_opening|].
  split; [reflexivity|]. split; [reflexivity|]. split; [reflexivity|].
  intros Hn. rewrite strict_eq_self, Hn. reflexivity.
Qed.

(** An instance: a batch of three files, the second of which is empty and
    fails to parse. *)
Lemma mergeReports_closing_balance_witness :
  reportsToMerge "2025-11-30T00:00:00.000Z" 10 2025 [finance_sheet_1; []; finance_sheet_2] <> []
  /\ exists master,
       mergeReports (reportsToMerge "2025-11-30T00:00:00.000Z" 10 2025
                       [finance_sheet_1; []; finance_sheet_2]) = Some master
       /\ inflowCategories master
          = merged_categories inflowCategories
              (reportsToMerge "2025-11-30T00:00:00.000Z" 10 2025
                 [finance_sheet_1; []; finance_sheet_2])
       /\ outflowCategories master
          = merged_categories outflowCategories
              (reportsToMerge "2025-11-30T00:00:00.000Z" 10 2025
                 [finance_sheet_1; []; finance_sheet_2])
       /\ (forall n, In n (map c_name (inflowCategories master))
                     <-> exists r, In r (reportsToMerge "2025-11-30T00:00:00.000Z" 10 2025
                                           [finance_sheet_1; []; finance_sheet_2])
                                   /\ In n (map c_name (inflowCategories r)))
       /\ (forall n, In n (map c_name (outflowCategories master))
                     <-> exists r, In r (reportsToMerge "2025-11-30T00:00:00.000Z" 10 2025
                                           [finance_sheet_1; []; finance_sheet_2])
                                   /\ In n (map c_name (outflowCategories r)))
       /\ openingBalance master
          = batch_opening (reportsToMerge "2025-11-30T00:00:00.000Z" 10 2025
                             [finance_sheet_1; []; finance_sheet_2])
       /\ f_actual (inflow master) = sum (map totalActual (inflowCategories master))
       /\ f_actual (outflow master) = sum (map totalActual (outflowCategories master))
       /\ n_actual (closingBalance master)
          = (b_actual (openingBalance master) + f_actual (inflow master)
             - f_actual (outflow master))%float
       /\ (is_nan (n_actual (closingBalance master)) = false ->
           strict_eq (n_actual (closingBalance master))
             (b_actual (openingBalance master) + f_actual (inflow master)
              - f_actual (outflow master))%float = true).
Proof.
  assert (H : reportsToMerge "2025-11-30T00:00:00.000Z" 10 2025
                [finance_sheet_1; []; finance_sheet_2] <> []).
  { vm_compute. discriminate. }
  split; [exact H|].
  exact (mergeReports_closing_balance _ H).
Defined.

(** The claim as it stands fails where the closing balance is not a number:
    two weeks of 1e308 overflow to an infinite inflow and an infinite
    outflow, their difference is NaN, and NaN compares equal to nothing. *)
Lemma mergeReports_closing_balance_overflow :
  exists master,
    handleFileUpload "2025-11-30T00:00:00.000Z" 10 2025 [overflow_sheet] [] = Some [master]
    /\ f_actual (inflow master) = infinity /\ f_actual (outflow master) = infinity
    /\ strict_eq (n_actual (closingBalance master))
         (b_actual (openingBalance master) + f_actual (inflow master)
          - f_actual (outflow master))%float = false.
Proof. eexists. split; [vm_compute; reflexivity|]. repeat split. Qed.

(** The argument of [onDataUpdate]: when a file of the batch parses, the
    stored list is the old list without the reports of the month, followed
    by the merged report of the batch. *)
Lemma handleFileUpload_closing_balance (now : string) (selectedMonth selectedYear : Z)
  (files : list grid) (currentData : list FinanceMismatchReport) :
  reportsToMerge now selectedMonth selectedYear files <> [] ->
  exists master,
    mergeReports (reportsToMerge now selectedMonth selectedYear files) = Some master
    /\ handleFileUpload now selectedMonth selectedYear files currentData
       = Some (filter (fun d => negb (String.eqb (monthKey d)
                                        (int_to_string selectedYear ++ "-"
                                         ++ int_to_string selectedMonth)))
                 currentData ++ [master])%list
    /\ n_actual (closingBalance master)
       = (b_actual (openingBalance master) + f_actual (inflow master)
          - f_actual (outflow master))%float.
Proof.
  intros H. unfold handleFileUpload.
  destruct (reportsToMerge now selectedMonth selectedYear files) as [|first others];
    [congruence|].
  eexists. split; [reflexivity|]. split; reflexivity.
Qed.

(** *** Merging a report with itself *)

Section Keyed.

Variables (A : Type) (key : A -> string).

(** With distinct keys, the first element with the key of a member is the
    member itself. *)
Lemma first_pos_member (l : list A) (x : A) :
  NoDup (map key l) -> In x l ->
  exists k, first_pos (fun y => String.eqb (key y) (key x)) l = Some k
            /\ nth_error l k = Some x.
Proof.
  induction l as [|y r IH]; intros Hnd Hin; [contradiction|].
  simpl in Hnd. inversion Hnd as [|? ? Hy Hr]; subst. simpl.
  destruct (String.eqb_spec (key y) (key x)) as [E|E].
  - exists O. split; [reflexivity|]. simpl. f_equal.
    destruct Hin as [->|Hin]; [reflexivity|].
    exfalso. apply Hy. rewrite E. now apply in_map.
  - destruct Hin as [->|Hin]; [congruence|].
    destruct (IH Hr Hin) as (k & Hk & Hn).
    exists (S k). rewrite Hk. now split.
Qed.

End Keyed.

Lemma merge_week_member (ws : list FinanceWeek) (w : FinanceWeek) :
  NoDup (map weekLabel ws) -> In w ws -> merge_week ws w = ws.
Proof.
  intros Hnd Hin. unfold merge_week, findIndex.
  rewrite findIndex_from_first_pos.
  destruct (first_pos_member _ weekLabel ws w Hnd Hin) as (k & -> & Hn).
  destruct (Z.leb_spec 0 (0 + Z.of_nat k)); [|lia].
  rewrite Z.add_0_l, Nat2Z.id. now apply set_nth_same.
Qed.

Lemma merge_weeks_self (ws : list FinanceWeek) :
  NoDup (map weekLabel ws) -> fold_left merge_week ws ws = ws.
Proof.
  intros Hnd.
  apply (fold_left_invariant (fun acc => acc = ws)); [reflexivity|].
  intros acc w -> Hw. now apply merge_week_member.
Qed.

Lemma sort_weeks_ascending (ws : list FinanceWeek) :
  weeks_ascending ws -> sort_weeks ws = ws.
Proof.
  unfold weeks_ascending. induction ws as [|w r IH]; intros H; [reflexivity|].
  simpl in H. inversion H as [|? ? Hr Hw]; subst.
  simpl. rewrite (IH Hr).
  destruct r as [|x r']; [reflexivity|]. simpl.
  inversion Hw as [|? ? Hx _]; subst.
  destruct (Z.leb_spec (weekNumber w) (weekNumber x)); [reflexivity|lia].
Qed.

Lemma merge_category_self (c : FinanceCategory) :
  category_consistent c -> NoDup (map weekLabel (weeks c)) -> merge_category c c = c.
Proof.
  intros (Hs & Hp & Ha & Hc) Hnd. unfold merge_category.
  rewrite (merge_weeks_self _ Hnd), (sort_weeks_ascending _ Hs).
  destruct c; simpl in *. now subst.
Qed.

Lemma merge_existing_member (cats : list FinanceCategory) (c : FinanceCategory) :
  NoDup (map c_name cats) -> In c cats ->
  merge_category c c = c -> merge_existing cats c = Some cats.
Proof.
  induction cats as [|c0 r IH]; intros Hnd Hin Hc; [contradiction|].
  simpl in Hnd. inversion Hnd as [|? ? Hc0 Hr]; subst. simpl.
  destruct (String.eqb_spec (c_name c0) (c_name c)) as [E|E].
  - destruct Hin as [->|Hin]; [now rewrite Hc|].
    exfalso. apply Hc0. rewrite E. now apply in_map.
  - destruct Hin as [->|Hin]; [congruence|].
    now rewrite (IH Hr Hin Hc).
Qed.

Lemma mergeCats_self (cats : list FinanceCategory) :
  NoDup (map c_name cats) ->
  (forall c, In c cats -> category_consistent c /\ NoDup (map weekLabel (weeks c))) ->
  mergeCats cats cats = cats.
Proof.
  intros Hnd Hc. unfold mergeCats.
  apply (fold_left_invariant (fun acc => acc = cats)); [reflexivity|].
  intros acc c -> Hin.
  rewrite (merge_existing_member cats c Hnd Hin); [reflexivity|].
  destruct (Hc c Hin). now apply merge_category_self.
Qed.

Lemma merge_report_self (r : FinanceMismatchReport) :
  mergeCats (inflowCategories r) (inflowCategories r) = inflowCategories r ->
  mergeCats (outflowCategories r) (outflowCategories r) = outflowCategories r ->
  merge_report r r = r.
Proof.
  intros Hi Ho. unfold merge_report. rewrite Hi, Ho.
  destruct r; simpl.
  match goal with |- context [if ?b then _ else _] => destruct b end; reflexivity.
Qed.

Lemma distinct_NoDup (l : list string) : distinct l = true -> NoDup l.
Proof.
  induction l as [|x r IH]; simpl; intros H; [constructor|].
  apply andb_true_iff in H as [Hx Hr]. constructor; [|now apply IH].
  intros Hin. apply negb_true_iff in Hx.
  assert (E : existsb (String.eqb x) r = true).
  { apply existsb_exists. exists x. split; [exact Hin | apply String.eqb_refl]. }
  congruence.
Qed.

Lemma weekCols_primary_numbers (hs : list (Z * string)) (len num : Z) :
  StronglySorted Z.le (map wc_number (weekCols_primary hs len num))
  /\ Forall (Z.le num) (map wc_number (weekCols_primary hs len num)).
Proof.
  revert num. induction hs as [|[c h] r IH]; intros num; simpl.
  - split; constructor.
  - match goal with |- context [if ?b then _ else _] => destruct b end.
    + destruct (IH (num + 1)) as [Hs Hf]. simpl. split.
      * constructor; [exact Hs|].
        eapply Forall_impl; [|exact Hf]. intros; lia.
      * constructor; [lia|].
        eapply Forall_impl; [|exact Hf]. intros; simpl in *; lia.
    + apply IH.
Qed.

Lemma weekCols_fallback_numbers (prev : string) (hs : list (Z * string)) (num : Z) :
  StronglySorted Z.le (map wc_number (weekCols_fallback prev hs num))
  /\ Forall (Z.le num) (map wc_number (weekCols_fallback prev hs num)).
Proof.
  revert prev num. induction hs as [|[c h] r IH]; intros prev num; simpl.
  - split; constructor.
  - match goal with |- context [if ?b then _ :: _ else _] => destruct b end.
    + destruct (IH h (num + 1)) as [Hs Hf]. simpl. split.
      * constructor; [exact Hs|].
        eapply Forall_impl; [|exact Hf]. intros; lia.
      * constructor; [lia|].
        eapply Forall_impl; [|exact Hf]. intros; simpl in *; lia.
    + apply IH.
Qed.

Lemma weekCols_of_numbers (headers : list string) :
  StronglySorted Z.le (map wc_number (weekCols_of headers)).
Proof.
  unfold weekCols_of.
  destruct (weekCols_primary (indexed headers) (Z.of_nat (List.length headers)) 1) eqn:E.
  - destruct (indexed headers) as [|[i h0] r]; [constructor|].
    apply weekCols_fallback_numbers.
  - rewrite <- E. apply weekCols_primary_numbers.
Qed.

Lemma parseSection_consistent (rows : grid) (pcol : Z) (weekCols : list WeekCol)
  (nheaders start stop : Z) (type : flow) :
  StronglySorted Z.le (map wc_number weekCols) ->
  Forall category_consistent (parseSection rows pcol weekCols nheaders start stop type).
Proof.
  intros Hs. unfold parseSection. apply filter_map_Forall. intros r c.
  match goal with |- context [if ?b then None else _] => destruct b end; [discriminate|].
  match goal with |- context [if ?b then None else _] => destruct b end; [discriminate|].
  intros H. injection H as <-.
  unfold category_consistent, weeks_ascending. simpl.
  rewrite map_map. simpl. repeat split. exact Hs.
Qed.

(** Every category of a parsed file is consistent. *)
Lemma parseFile_consistent (now : string) (selectedMonth selectedYear : Z)
  (rows : grid) (r : FinanceMismatchReport) :
  parseFile now selectedMonth selectedYear rows = Ok r ->
  Forall category_consistent (inflowCategories r)
  /\ Forall category_consistent (outflowCategories r).
Proof.
  unfold parseFile.
  destruct (find_header rows 0 50 (-1, -1, 0)) as [[h d] pcol].
  destruct (h =? -1); [discriminate|].
  match goal with |- context [weekCols_of ?hs] =>
    pose proof (weekCols_of_numbers hs) as Hs; destruct (weekCols_of hs) eqn:E end;
    [discriminate|].
  rewrite <- E in *. intros H. injection H as <-. simpl. split.
  - now apply parseSection_consistent.
  - match goal with |- context [if ?b then _ else []] => destruct b end;
      [now apply parseSection_consistent | constructor].
Qed.

(** C9, as amended.  A parsed report whose merge keys are distinct
    (category names within each section, week labels within each
    category) merged with itself gives the report that processing it once
    gives: categories, section totals and balances are the same. *)
Theorem mergeReports_self (now : string) (selectedMonth selectedYear : Z)
  (rows : grid) (r : FinanceMismatchReport) :
  parseFile now selectedMonth selectedYear rows = Ok r ->
  distinct_keys r = true ->
  mergeReports [r; r] = mergeReports [r].
Proof.
  intros Hp Hk. unfold distinct_keys in Hk.
  apply andb_true_iff in Hk as [Hk Hw]. apply andb_true_iff in Hk as [Hi Ho].
  rewrite forallb_forall in Hw.
  destruct (parseFile_consistent _ _ _ _ _ Hp) as [Ci Co].
  rewrite Forall_forall in Ci, Co.
  unfold mergeReports. simpl. f_equal. f_equal.
  apply merge_report_self; apply mergeCats_self;
    try (now apply distinct_NoDup);
    intros c Hc; (split; [auto | apply distinct_NoDup, Hw, in_or_app; auto]).
Qed.

(** An instance: the first finance sheet. *)
Lemma mergeReports_self_witness :
  exists r,
    parseFile "2025-11-30T00:00:00.000Z" 10 2025 finance_sheet_1 = Ok r
    /\ distinct_keys r = true
    /\ mergeReports [r; r] = mergeReports [r].
Proof.
  eexists. split; [vm_compute; reflexivity|]. split; [vm_compute; reflexivity|].
  apply (mergeReports_self "2025-11-30T00:00:00.000Z" 10 2025 finance_sheet_1);
    vm_compute; reflexivity.
Defined.

(** C9, as stated, fails: the second "Sales" row is merged into the first
    category of that name, whose week it replaces.  Once, the inflow is
    90 + 40 and the closing balance 121; merged with itself, the inflow is
    40 + 40 and the closing balance 71. *)
Lemma mergeReports_self_twins :
  exists r once twice,
    parseFile "2025-11-30T00:00:00.000Z" 10 2025 finance_sheet_twins = Ok r
    /\ mergeReports [r] = Some once
    /\ mergeReports [r; r] = Some twice
    /\ map totalActual (inflowCategories once) = [90; 40]%float
    /\ map totalActual (inflowCategories twice) = [40; 40]%float
    /\ f_actual (inflow once) = 130%float
    /\ f_actual (inflow twice) = 80%float
    /\ n_actual (closingBalance once) = 121%float
    /\ n_actual (closingBalance twice) = 71%float
    /\ strict_eq (n_actual (closingBalance once)) (n_actual (closingBalance twice)) = false.
Proof.
  do 3 eexists. split; [vm_compute; reflexivity|].
  split; [vm_compute; reflexivity|]. split; [vm_compute; reflexivity|].
  repeat split; vm_compute; reflexivity.
Qed.

(** ** The sales daily target *)

Lemma days_in_month_min (y m : Z) : 28 <= days_in_month y m.
Proof.
  unfold days_in_month.
  destruct (m =? 1); [destruct (is_leap y); lia|].
  destruct ((m =? 3) || (m =? 5) || (m =? 8) || (m =? 10)); lia.
Qed.

(** Within a month, the closing day is the last day of the month. *)
Lemma isLastDay_spec (year month day : Z) :
  0 <= month <= 11 -> 1 <= day <= days_in_month (full_year year) month ->
  Dashboard.isLastDay year month day = (day =? days_in_month (full_year year) month).
Proof.
  intros Hm Hd. unfold Dashboard.isLastDay, Date, norm_month.
  rewrite Z.div_small, Z.mod_small, Z.add_0_r by lia.
  set (y := full_year year) in *.
  rewrite Nat.add_1_r. cbn [norm_day].
  destruct (Z.ltb_spec (day + 1) 1); [lia|].
  destruct (Z.ltb_spec (days_in_month y month) (day + 1)).
  - replace (day + 1 - days_in_month y month) with 1 by lia.
    destruct (Z.eqb_spec day (days_in_month y month)); [|lia].
    unfold norm_month.
    assert (Hk : exists k, Z.to_nat (Z.abs (day + 1)) = S k).
    { exists (Z.to_nat (Z.abs (day + 1)) - 1)%nat. lia. }
    destruct Hk as [k ->]. cbn [norm_day].
    destruct (Z.ltb_spec 1 1); [lia|].
    pose proof (days_in_month_min (y + (month + 1) / 12) ((month + 1) mod 12)).
    destruct (Z.ltb_spec (days_in_month (y + (month + 1) / 12) ((month + 1) mod 12)) 1);
      [lia|].
    unfold getMonth. simpl.
    destruct (Z.eqb_spec ((month + 1) mod 12) month) as [E|E]; [|reflexivity].
    exfalso. destruct (Z.eq_dec month 11) as [->|]; [discriminate E|].
    rewrite Z.mod_small in E by lia. lia.
  - unfold getMonth. simpl. rewrite Z.eqb_refl.
    destruct (Z.eqb_spec day (days_in_month y month)); [lia|reflexivity].
Qed.

(** C8, as amended.  The target of a day is rounded to an integer: a day
    that is not the last of the month gets
    [Math.round(totalPlan / ((workingDaysCount - 1) + 3.5))], the last day
    gets [Math.round] of 3.5 times the unrounded share. *)
Theorem getDailyTarget_rounded (year month workingDaysCount : Z) (totalPlan : number)
  (day : Z) :
  0 <= month <= 11 -> 1 <= day <= days_in_month (full_year year) month ->
  let perDay := (totalPlan / ((of_int workingDaysCount - 1) + 3.5))%float in
  Dashboard.getDailyTarget year month workingDaysCount totalPlan day
  = if day =? days_in_month (full_year year) month
    then Math_round (perDay * 3.5)%float
    else Math_round perDay.
Proof.
  intros Hm Hd perDay. unfold Dashboard.getDailyTarget.
  rewrite (isLastDay_spec _ _ _ Hm Hd). reflexivity.
Qed.

(** An instance: November 2025 without a holiday and a plan of 1000 units. *)
Lemma getDailyTarget_rounded_witness :
  Dashboard.getDailyTarget 2025 10 30 1000%float 30 = 108%float
  /\ Dashboard.getDailyTarget 2025 10 30 1000%float 29 = 31%float.
Proof.
  split.
  - rewrite (getDailyTarget_rounded 2025 10 30 1000%float 30); [|lia|vm_compute; split; discriminate].
    vm_compute. reflexivity.
  - rewrite (getDailyTarget_rounded 2025 10 30 1000%float 29); [|lia|vm_compute; split; discriminate].
    vm_compute. reflexivity.
Defined.

(** C8, as stated, fails: with a plan of 10 units over the 30 days of
    November 2025 (no holiday) the share of a day is 10 / 32.5, but every
    day before the last gets the target 0 and the last day gets 1, which is
    not 3.5 times a day's target; the targets add up to 1, not to 10. *)
Lemma getDailyTarget_small_plan :
  (10 / ((30 - 1) + 3.5) = 0.30769230769230771)%float
  /\ Dashboard.getDailyTarget 2025 10 30 10%float 1 = 0%float
  /\ Dashboard.getDailyTarget 2025 10 30 10%float 30 = 1%float
  /\ (3.5 * Dashboard.getDailyTarget 2025 10 30 10%float 1 = 0)%float
  /\ sum (map (Dashboard.getDailyTarget 2025 10 30 10%float) (range1 30)) = 1%float.
Proof. repeat split; vm_compute; reflexivity. Qed.

(** ** A grid without a header row *)

Lemma find_header_none (rest : grid) (i : Z) (fuel : nat) (st : Z * Z * Z) :
  (forall r, In r (firstn fuel rest) -> includes (rowStr r) "particulars" = false) ->
  find_header rest i fuel st = st.
Proof.
  revert rest i. induction fuel as [|fuel IH]; intros rest i H;
    [destruct rest; reflexivity|].
  destruct rest as [|r rest]; [reflexivity|]. simpl.
  rewrite (H r) by now left.
  apply IH. intros r' Hr'. apply H. now right.
Qed.

(** The upload component of the finance sheet fails in the same way. *)
Lemma parseFile_missing_header (now : string) (selectedMonth selectedYear : Z)
  (rows : grid) :
  (forall r, In r (slice0 50 rows) -> includes (rowStr r) "particulars" = false) ->
  parseFile now selectedMonth selectedYear rows = Throw "Missing 'Particulars' header".
Proof.
  intros H. unfold parseFile. rewrite find_header_none; [reflexivity|exact H].
Qed.

Lemma parseFinanceExcel_missing_header (MONTH_NAMES : list string) (now : string)
  (rows : grid) (selectedMonth selectedYear : Z) :
  (forall r, In r (slice0 50 rows) ->
             includes (toLowerCase (join_cells "|" r)) "particulars" = false) ->
  parseFinanceExcel MONTH_NAMES now rows selectedMonth selectedYear
  = Throw "Missing Finance headers".
Proof.
  intros H. unfold parseFinanceExcel. now rewrite findIndex_none.
Qed.

Lemma parseProductionExcel_missing_header (MONTH_NAMES : list string) (now : string)
  (rows : grid) (selectedMonth selectedYear : Z) :
  (forall r, In r (slice0 10 rows) -> production_header r = false) ->
  parseProductionExcel MONTH_NAMES now rows selectedMonth selectedYear
  = Throw "Missing Production headers".
Proof.
  intros H. unfold parseProductionExcel. now rewrite findIndex_none.
Qed.

Lemma parseSalesExcel_header_fallback (MONTH_NAMES SALES_TEAMS : list string)
  (rows : grid) (selectedMonth selectedYear : Z) (isMaster isTerritory : bool) :
  rows <> [] ->
  (forall r, In r rows -> some sales_trigger r = false) ->
  sales_headerRowIdx rows = 0
  /\ exists facts,
       parseSalesExcel MONTH_NAMES SALES_TEAMS rows selectedMonth selectedYear
         isMaster isTerritory = Ok facts.
Proof.
  intros Hne H. split.
  - unfold sales_headerRowIdx. now rewrite findIndex_none.
  - unfold parseSalesExcel. destruct rows; [congruence|]. eexists. reflexivity.
Qed.

(** C5, as amended.  Without a header row in the scan window the finance
    parser fails with "Missing Finance headers" and the production parser
    with "Missing Production headers"; the sales parser does not fail on a
    non-empty grid: it takes row 0 as the header row. *)
Theorem missing_header_row (MONTH_NAMES SALES_TEAMS : list string) (now : string)
  (rows : grid) (selectedMonth selectedYear : Z) (isMaster isTerritory : bool) :
  ((forall r, In r (slice0 50 rows) ->
              includes (toLowerCase (join_cells "|" r)) "particulars" = false) ->
   parseFinanceExcel MONTH_NAMES now rows selectedMonth selectedYear
   = Throw "Missing Finance headers")
  /\ ((forall r, In r (slice0 10 rows) -> production_header r = false) ->
      parseProductionExcel MONTH_NAMES now rows selectedMonth selectedYear
      = Throw "Missing Production headers")
  /\ (rows <> [] -> (forall r, In r rows -> some sales_trigger r = false) ->
      sales_headerRowIdx rows = 0
      /\ exists facts,
           parseSalesExcel MONTH_NAMES SALES_TEAMS rows selectedMonth selectedYear
             isMaster isTerritory = Ok facts).
Proof.
  split; [|split].
  - apply parseFinanceExcel_missing_header.
  - apply parseProductionExcel_missing_header.
  - apply parseSalesExcel_header_fallback.
Qed.

(** An instance for each of the three parsers. *)
Lemma missing_header_row_witness :
  parseFinanceExcel Config.MONTH_NAMES "2025-11-30T00:00:00.000Z" headerless_sheet 10 2025
  = Throw "Missing Finance headers"
  /\ parseProductionExcel Config.MONTH_NAMES "2025-11-30T00:00:00.000Z"
       [[CStr "Tablets"; CStr "3,100"; CNum 5%float]] 10 2025
     = Throw "Missing Production headers"
  /\ sales_headerRowIdx headerless_sheet = 0.
Proof.
  split; [|split].
  - apply (missing_header_row Config.MONTH_NAMES Config.SALES_TEAMS
             "2025-11-30T00:00:00.000Z" headerless_sheet 10 2025 true false).
    intros r Hr.
    apply (In_forallb (fun r => negb (includes (toLowerCase (join_cells "|" r)) "particulars"))
             (slice0 50 headerless_sheet)) in Hr; [|vm_compute; reflexivity].
    now apply negb_true_iff in Hr.
  - apply (missing_header_row Config.MONTH_NAMES Config.SALES_TEAMS
             "2025-11-30T00:00:00.000Z" [[CStr "Tablets"; CStr "3,100"; CNum 5%float]]
             10 2025 true false).
    intros r Hr.
    apply (In_forallb (fun r => negb (production_header r))
             (slice0 10 [[CStr "Tablets"; CStr "3,100"; CNum 5%float]])) in Hr;
      [|vm_compute; reflexivity].
    now apply negb_true_iff in Hr.
  - apply (missing_header_row Config.MONTH_NAMES Config.SALES_TEAMS
             "2025-11-30T00:00:00.000Z" headerless_sheet 10 2025 true false).
    + discriminate.
    + intros r Hr.
      apply (In_forallb (fun r => negb (some sales_trigger r)) headerless_sheet) in Hr;
        [|vm_compute; reflexivity].
      now apply negb_true_iff in Hr.
Defined.

(** C5, as stated, fails for the sales parser: no row of the sheet holds a
    trigger cell, and the parse succeeds with row 0 as the header row (its
    "Team", "Product" and "Plan" columns are resolved and a fact is
    emitted). *)
Lemma parseSalesExcel_headerless_sheet :
  forallb (fun r => negb (some sales_trigger r)) headerless_sheet = true
  /\ parseSalesExcel Config.MONTH_NAMES Config.SALES_TEAMS headerless_sheet 10 2025 true false
     = Ok [mkFact "Sales" "ACHIEVERS" "ProductX" 4646%float 0%float (-4646)%float "Units"
             "on-track" "MASTER_November_2025" (Some "FY 25-26")].
Proof. split; vm_compute; reflexivity. Qed.

(** The same through the universal uploader, on a daily sheet of May. *)
Lemma detectAndProcessFile_headerless_may_sheet :
  forallb (fun r => negb (some sales_trigger r)) headerless_may_sheet = true
  /\ UniversalUploader.detectAndProcessFile Config.MONTH_NAMES Config.SALES_TEAMS
       "2025-05-31T00:00:00.000Z" 4 2025 headerless_may_sheet
     = UniversalUploader.SalesIntegrated
         [mkFact "Sales" "ACHIEVERS" "ProductX" 0%float 150%float 150%float "Units"
            "on-track" "May 1, 2025" (Some "FY 24-25")].
Proof. split; vm_compute; reflexivity. Qed.

(** ** The upload component of the sales sheets *)

Section UploadComponent.

Variable MONTH_NAMES : list string.
Variable SALES_TEAMS : list string.
Variable parse_date_code : number -> option (Z * Z * Z).
Variables fileMonth fileYear : Z.

(** The guard that [parseSalesExcel] lacks: in a daily tab, a file without
    a date column of the month gives no entry and an error ("No valid date
    columns for <Month> <Year> found", when the file passes the checks that
    come before). *)
Lemma readFile_no_date_columns (isTerritoryTab : bool) (rows : grid) :
  DataEntry.header_dates fileMonth fileYear
    (nth (Z.to_nat (DataEntry.headerRowIdx rows)) rows []) = [] ->
  DataEntry.body_dates parse_date_code fileMonth fileYear rows = [] ->
  exists e,
    DataEntry.readFile MONTH_NAMES SALES_TEAMS parse_date_code fileMonth fileYear
      isTerritoryTab false rows = ([], Some e).
Proof.
  unfold DataEntry.readFile.
  destruct rows as [|r0 rest] eqn:E; [intros; now eexists|]. rewrite <- E.
  intros Hh Hb.
  match goal with |- context [if ?b then ([], Some DataEntry.TerritoryColumnInSalesTab) else _] =>
    destruct b end; [now eexists|].
  match goal with |- context [if ?b then ([], Some DataEntry.MissingTerritoryColumn) else _] =>
    destruct b end; [now eexists|].
  change (negb false) with true. cbv iota.
  rewrite Hh, Hb. now eexists.
Qed.

Lemma upload_row_records (isMaster isTerritory : bool)
  (teamHeaderIdx regionHeaderIdx productHeaderIdx territoryHeaderIdx dataColumnIndex : Z)
  (reportDateStr : string) (st : string * list DepartmentMismatch) (r : row) :
  Forall (sign_convention isMaster) (snd st) ->
  Forall (sign_convention isMaster)
    (snd (DataEntry.upload_row SALES_TEAMS isMaster isTerritory teamHeaderIdx regionHeaderIdx
            productHeaderIdx territoryHeaderIdx dataColumnIndex reportDateStr st r)).
Proof.
  intros Hst. destruct st as [team0 out]. unfold DataEntry.upload_row.
  assert (He : forall v dept tm met,
             sign_convention isMaster
               (mkFact dept tm met (if isMaster then v else 0%float)
                  (if isMaster then 0%float else v) (if isMaster then (- v)%float else v)
                  "Units" "on-track" reportDateStr None)).
  { intros v dept tm met. unfold sign_convention. destruct isMaster; simpl.
    - split; [apply opp_is_zero_minus | now split].
    - split; [rewrite minus_zero; apply same_number_refl | now split]. }
  destruct (find_ _ SALES_TEAMS) as [[|c rest]|]; try exact Hst;
    (destruct (String.eqb team0 ""); [exact Hst|];
     match goal with |- context [if ?b then (team0, out) else _] => destruct b end;
       [exact Hst|];
     match goal with |- context [if is_nan ?v then _ else _] => destruct (is_nan v) end;
       [exact Hst|];
     destruct isTerritory; simpl;
       [apply Forall_app; split; [exact Hst | repeat constructor; apply He]
       |match goal with |- context [if ?b then _ else (team0, out)] => destruct b end;
          [apply Forall_app; split; [exact Hst | repeat constructor; apply He] | exact Hst]]).
Qed.

(** The entries of the upload component follow the sign convention of
    C7 as well. *)
Lemma readFile_records (isTerritoryTab isMaster : bool) (rows : grid) :
  Forall (sign_convention isMaster)
    (fst (DataEntry.readFile MONTH_NAMES SALES_TEAMS parse_date_code fileMonth fileYear
            isTerritoryTab isMaster rows)).
Proof.
  unfold DataEntry.readFile. destruct rows as [|r0 rest] eqn:E; [constructor|].
  rewrite <- E.
  match goal with |- context [if ?b then ([], Some DataEntry.TerritoryColumnInSalesTab) else _] =>
    destruct b end; [constructor|].
  match goal with |- context [if ?b then ([], Some DataEntry.MissingTerritoryColumn) else _] =>
    destruct b end; [constructor|].
  match goal with |- context [flat_map ?f ?days] =>
    assert (H : Forall (sign_convention isMaster) (flat_map f days)) end.
  { apply Forall_flat_map, Forall_forall. intros day _.
    unfold DataEntry.upload_day.
    match goal with |- context [if ?b then [] else _] => destruct b end; [constructor|].
    apply (fold_left_invariant (fun st => Forall (sign_convention isMaster) (snd st)));
      [constructor|].
    intros st [i r] Hst _. simpl fst. simpl snd.
    match goal with |- context [if ?b then st else _] => destruct b end; [exact Hst|].
    now apply upload_row_records. }
  destruct isMaster; [exact H|].
  cbv iota in H |- *.
  match goal with |- context [map Number_ ?ks] => destruct (map Number_ ks) end;
    [constructor | exact H].
Qed.

(** On the sheet of C1 the upload component stops with the error. *)
Lemma handleUpload_october_sheet :
  DataEntry.handleUpload Config.MONTH_NAMES Config.SALES_TEAMS parse_date_code 10 2025
    false false [october_sheet]
  = DataEntry.Rejected (Some (DataEntry.NoValidDateColumns "November" 2025)).
Proof. vm_compute. reflexivity. Qed.

(** Like [parseSalesExcel], the upload component takes row 0 as the header
    row of a sheet without a trigger cell. *)
Lemma handleUpload_headerless_sheet :
  DataEntry.handleUpload Config.MONTH_NAMES Config.SALES_TEAMS parse_date_code 10 2025
    false true
    [[[CStr "Sales Force"; CStr "Product Name"; CStr "Plan"];
      [CStr "ACHIEVERS"; CStr ""; CStr "9,292"];
      [CStr ""; CStr "ProductX"; CStr "4646"]]]
  = DataEntry.Saved
      [mkFact "Sales" "Achievers" "ProductX" 4646%float 0%float (-4646)%float "Units"
         "on-track" "MASTER_November_2025" None].
Proof. vm_compute. reflexivity. Qed.

End UploadComponent.

(** ** The universal uploader *)

(** The caller of [parseSalesExcel] reports an empty list as the error
    "No valid Sales data found.", which names neither the date columns
    nor the month; it does so for the round-trip scenario of the spec as
    well. *)
Lemma detectAndProcessFile_no_date_column :
  UniversalUploader.detectAndProcessFile Config.MONTH_NAMES Config.SALES_TEAMS
    "2025-11-30T00:00:00.000Z" 10 2025 october_sheet
  = UniversalUploader.Failed "No valid Sales data found."
  /\ UniversalUploader.detectAndProcessFile Config.MONTH_NAMES Config.SALES_TEAMS
       "2025-11-30T00:00:00.000Z" 10 2025 scenario_daily
     = UniversalUploader.Failed "No valid Sales data found.".
Proof. split; vm_compute; reflexivity. Qed.

(** A sheet without any known signature is refused. *)
Lemma detectAndProcessFile_unknown_format :
  UniversalUploader.detectAndProcessFile Config.MONTH_NAMES Config.SALES_TEAMS
    "2025-11-30T00:00:00.000Z" 10 2025 headerless_sheet
  = UniversalUploader.Failed "Could not detect department format.".
Proof. vm_compute. reflexivity. Qed.

(** ** The other upload components *)

(** The upload component of the production sheet drops the rows with a
    zero plan as [parseProductionExcel] does. *)
Lemma buildReport_plans_nonzero (now : string) (selectedMonth selectedYear : Z)
  (rows : grid) (rep : ProductionReport) :
  ProductionEntry.buildReport now selectedMonth selectedYear rows = Ok rep ->
  Forall (fun p => strict_eq (p_monthlyPlan p) 0%float = false) (pr_particulars rep).
Proof.
  unfold ProductionEntry.buildReport.
  destruct (findIndex production_header (slice0 10 rows) =? -1); [discriminate|].
  match goal with |- context [filter_map ?f ?l] =>
    assert (H : Forall (fun p => strict_eq (p_monthlyPlan p) 0%float = false) (filter_map f l));
    [|destruct (filter_map f l); [discriminate|]; intros E; injection E as <-; exact H] end.
  apply filter_map_Forall. intros r p. unfold ProductionEntry.upload_row.
  match goal with |- context [if ?b then None else _] => destruct b end; [discriminate|].
  match goal with |- context [strict_eq ?v 0%float] => destruct (strict_eq v 0%float) eqn:E end;
    [discriminate|].
  intros H. injection H as <-. exact E.
Qed.

Section DeliveryComponent.

Variable MONTH_NAMES : list string.
Variable SALES_TEAMS : list string.
Variable parse_date_code : number -> option (Z * Z * Z).
Variables fileMonth fileYear : Z.

(** The records of the delivery package follow the asymmetry too: plan
    and [plan * -1] in master mode, actual and +actual in daily mode. *)
Lemma delivery_readFile_records (isTerritory isMaster : bool) (rows : grid) :
  Forall (delivery_convention isMaster)
    (fst (DeliveryDataEntry.readFile MONTH_NAMES SALES_TEAMS parse_date_code
            fileMonth fileYear isTerritory isMaster rows)).
Proof.
  unfold DeliveryDataEntry.readFile.
  match goal with |- context [flat_map ?f ?days] =>
    assert (H : Forall (delivery_convention isMaster) (flat_map f days)) end.
  { apply Forall_flat_map, Forall_forall. intros day _.
    unfold DeliveryDataEntry.upload_day.
    match goal with |- context [if ?b then [] else _] => destruct b end; [constructor|].
    apply (fold_left_invariant (fun st => Forall (delivery_convention isMaster) (snd st)));
      [constructor|].
    intros [team0 out] r Hst _. unfold DeliveryDataEntry.upload_row. simpl in Hst.
    repeat match goal with
           | |- context [if ?b then _ else _] => destruct b; simpl; try exact Hst
           end;
      apply Forall_app; (split; [exact Hst|]); repeat constructor. }
  destruct isMaster; [exact H|].
  cbv iota in H |- *.
  match goal with |- context [map Number_ ?ks] => destruct (map Number_ ks) end;
    [constructor | exact H].
Qed.

End DeliveryComponent.

(** * Further properties of the embedded code *)

(** ** The value normalizer, further *)

Lemma remove_chars_idempotent (p : ascii -> bool) (s : string) :
  remove_chars p (remove_chars p s) = remove_chars p s.
Proof.
  induction s as [|c r IH]; simpl; [reflexivity|].
  destruct (p c) eqn:E; simpl; [exact IH|]. now rewrite E, IH.
Qed.

(** X1.  Thousands separators never change the value of a text cell: the
    normalizer gives a text and the same text without its commas the same
    number (the same for a text of commas only, which is 0). *)
Theorem cleanValue_commas (s : string) :
  cleanValue (CStr s) = cleanValue (CStr (remove_chars is_comma s)).
Proof.
  unfold cleanValue. cbn [falsy String_].
  rewrite remove_chars_idempotent.
  destruct (String.eqb_spec s "") as [->|Hs]; [reflexivity|].
  destruct (String.eqb_spec (remove_chars is_comma s) "") as [E|E]; [|reflexivity].
  rewrite E. reflexivity.
Qed.

(** X2.  The normalizer returns NaN in two cases only: for a number cell
    that is NaN itself, and for a text that, without its commas and trimmed,
    starts with an opening and ends with a closing parenthesis.  Every other
    cell gives a number. *)
Theorem cleanValue_nan (val : cell) :
  is_nan (cleanValue val) = true ->
  (exists x, val = CNum x /\ is_nan x = true)
  \/ (exists s, val = CStr s
                /\ let str := trim (remove_chars is_comma s) in
                   startsWith str "(" && endsWith str ")" = true).
Proof.
  destruct val as [x|s|]; intros H.
  - left. now exists x.
  - right. exists s. split; [reflexivity|]. cbv zeta.
    destruct (startsWith (trim (remove_chars is_comma s)) "("
              && endsWith (trim (remove_chars is_comma s)) ")") eqn:E; [reflexivity|].
    rewrite (cleanValue_unparenthesized s E) in H. discriminate.
  - discriminate.
Qed.

Lemma cleanValue_nan_witness :
  is_nan (cleanValue (CStr " (n/a),")) = true
  /\ ((exists x, CStr " (n/a)," = CNum x /\ is_nan x = true)
      \/ (exists s, CStr " (n/a)," = CStr s
                    /\ let str := trim (remove_chars is_comma s) in
                       startsWith str "(" && endsWith str ")" = true)).
Proof.
  split; [vm_compute; reflexivity|].
  apply (cleanValue_nan (CStr " (n/a),")). vm_compute. reflexivity.
Defined.

(** ** The sales fact extractor, further *)

Section SalesWellformed.

Variable MONTH_NAMES : list string.
Variable SALES_TEAMS : list string.
Variables selectedMonth selectedYear : Z.

Let wf (isMaster : bool) := sales_fact_wellformed SALES_TEAMS selectedMonth selectedYear isMaster.

Lemma sales_row_step_wellformed (isMaster : bool)
  (day teamIdx regionIdx productIdx dataIdx : Z)
  (st : string * list DepartmentMismatch) (r : row) :
  (fst st = "" \/ In (fst st) SALES_TEAMS) /\ Forall (wf isMaster) (snd st) ->
  let st' := sales_row_step MONTH_NAMES SALES_TEAMS isMaster selectedMonth selectedYear day
               teamIdx regionIdx productIdx dataIdx
               (getFYLabel selectedMonth selectedYear) st r in
  (fst st' = "" \/ In (fst st') SALES_TEAMS) /\ Forall (wf isMaster) (snd st').
Proof.
  destruct st as [team0 out]. cbn [fst snd]. intros [Ht Hout].
  unfold sales_row_step.
  match goal with |- context [String.eqb ?t ""] =>
    assert (Hu : t = "" \/ In t SALES_TEAMS); [|generalize dependent t; intros tm Hu] end.
  { destruct (find_ _ SALES_TEAMS) as [t|] eqn:E; [|exact Ht].
    destruct (String.eqb t ""); [exact Ht|].
    right. unfold find_ in E. now apply find_some in E as [E _]. }
  destruct (String.eqb_spec tm "") as [Etm|Etm]; [now split|].
  destruct Hu as [Hu|Hu]; [contradiction|].
  set (metric_ := trim (String_ (get r (if negb (productIdx =? -1) then productIdx else 0)))).
  set (region := if negb (regionIdx =? -1) then trim (String_ (get r regionIdx)) else tm).
  destruct (String.eqb_spec metric_ "") as [Em|Em]; [now split; [right|]|].
  destruct (includes (toLowerCase metric_) "total") eqn:Emt; [now split; [right|]|].
  destruct (includes (toLowerCase region) "total") eqn:Ert; [now split; [right|]|].
  cbn [orb].
  set (val := cleanValue (get r dataIdx)).
  assert (Hnz : negb (strict_eq val 0%float) || isMaster = true ->
                isMaster = false -> strict_eq (if isMaster then 0%float else val) 0%float = false).
  { intros H ->. rewrite orb_false_r in H. now apply negb_true_iff in H. }
  destruct (negb (strict_eq val 0%float) || isMaster) eqn:Ev; [|now split; [right|]].
  specialize (Hnz eq_refl).
  assert (Hs : wf isMaster
                 (mkFact "Sales" tm metric_ (if isMaster then val else 0%float)
                    (if isMaster then 0%float else val)
                    (if isMaster then (- val)%float else val) "Units" "on-track"
                    (if isMaster
                     then "MASTER_" ++ month_name MONTH_NAMES selectedMonth ++ "_"
                          ++ int_to_string selectedYear
                     else month_name MONTH_NAMES selectedMonth ++ " " ++ int_to_string day
                          ++ ", " ++ int_to_string selectedYear)
                    (Some (getFYLabel selectedMonth selectedYear)))).
  { unfold wf, sales_fact_wellformed. cbn. repeat split; try assumption. now left. }
  destruct (String.eqb_spec region "") as [Er|Er]; cbn [negb andb].
  - cbn [fst snd]. split; [now right|].
    apply Forall_app. split; [exact Hout | now constructor].
  - destruct (negb (String.eqb region tm)); cbn [fst snd]; (split; [now right|]).
    + apply Forall_app. split; [apply Forall_app; split; [exact Hout | now constructor]|].
      constructor; [|constructor].
      unfold wf, sales_fact_wellformed. cbn. repeat split; try assumption. right. now repeat split.
    + apply Forall_app. split; [exact Hout | now constructor].
Qed.

(** X3.  Every fact of the sales fact extractor has the unit "Units", the
    status "on-track" and the financial-year label of the selected month, a
    metric that is not empty and has no "total" in it; a daily fact has an
    actual that is not 0; a "Sales" fact has a team of [SALES_TEAMS], a
    "Territory Sales" fact a region that is not empty and has no "total" in
    it. *)
Theorem parseSalesExcel_wellformed (rows : grid) (isMaster isTerritory : bool)
  (facts : list DepartmentMismatch) :
  parseSalesExcel MONTH_NAMES SALES_TEAMS rows selectedMonth selectedYear
    isMaster isTerritory = Ok facts ->
  Forall (sales_fact_wellformed SALES_TEAMS selectedMonth selectedYear isMaster) facts.
Proof.
  unfold parseSalesExcel. destruct rows as [|r0 rest] eqn:E; [discriminate|].
  rewrite <- E. intros H. injection H as <-.
  apply Forall_flat_map, Forall_forall. intros day _. unfold sales_day.
  match goal with |- context [if ?b then [] else _] => destruct b end; [constructor|].
  apply (fold_left_invariant
           (fun st => (fst st = "" \/ In (fst st) SALES_TEAMS)
                      /\ Forall (wf isMaster) (snd st)));
    [split; [now left | constructor]|].
  intros st [i r] Hst _. cbn [fst snd].
  match goal with |- context [if ?b then st else _] => destruct b end; [exact Hst|].
  now apply sales_row_step_wellformed.
Qed.

End SalesWellformed.

Lemma parseSalesExcel_wellformed_witness :
  Forall (sales_fact_wellformed Config.SALES_TEAMS 10 2025 true)
    [mkFact "Sales" "ACHIEVERS" "ProductX" 4646%float 0%float (-4646)%float "Units"
       "on-track" "MASTER_November_2025" (Some "FY 25-26")].
Proof.
  apply (parseSalesExcel_wellformed Config.MONTH_NAMES Config.SALES_TEAMS 10 2025
           scenario_master true false).
  vm_compute. reflexivity.
Defined.

(** *** The date columns of a daily sheet *)

Lemma indexed_from_get (l : row) (a : nat) (i : Z) (x : cell) :
  In (i, x) (combine (map Z.of_nat (seq a (List.length l))) l) ->
  Z.of_nat a <= i < Z.of_nat a + Z.of_nat (List.length l)
  /\ nth (Z.to_nat i - a) l CUndef = x.
Proof.
  revert a. induction l as [|y r IH]; intros a H; [contradiction|].
  cbn [List.length seq map combine] in H. destruct H as [H|H].
  - injection H as <- <-. split; [cbn [List.length]; lia|].
    replace (Z.to_nat (Z.of_nat a) - a)%nat with 0%nat by lia. reflexivity.
  - apply IH in H as [Hi Hx]. split; [cbn [List.length]; lia|].
    replace (Z.to_nat i - a)%nat with (S (Z.to_nat i - S a)) by lia. exact Hx.
Qed.

Lemma indexed_get (l : row) (i : Z) (x : cell) :
  In (i, x) (indexed l) -> 0 <= i < Z.of_nat (List.length l) /\ get l i = x.
Proof.
  unfold indexed, range0. rewrite Nat2Z.id. intros H.
  apply indexed_from_get in H as [Hi Hx]. split; [lia|].
  unfold get. destruct (Z.ltb_spec i 0); [lia|].
  now rewrite Nat.sub_0_r in Hx.
Qed.

Lemma dcm_set_In (m : dateColumnMap_t) (k v k' v' : Z) :
  In (k', v') (dcm_set m k v) -> (k', v') = (k, v) \/ In (k', v') m.
Proof.
  induction m as [|[k0 v0] r IH]; simpl.
  - intros [H|[]]. now left.
  - destruct (k <? k0); [|destruct (k =? k0)]; simpl.
    + intros [H|[H|H]]; [now left | right; now left | right; now right].
    + intros [H|H]; [now left | right; now right].
    + intros [H|H]; [right; now left|].
      destruct (IH H) as [E|E]; [now left | right; now right].
Qed.

Lemma dcm_set_sorted (m : dateColumnMap_t) (k v : Z) :
  StronglySorted Z.lt (map fst m) -> StronglySorted Z.lt (map fst (dcm_set m k v)).
Proof.
  induction m as [|[k0 v0] r IH]; intros H; simpl.
  - repeat constructor.
  - simpl in H. inversion H as [|? ? Hr Hk0]; subst.
    destruct (Z.ltb_spec k k0); [|destruct (Z.eqb_spec k k0)]; simpl.
    + constructor; [exact H|]. constructor; [exact H0|].
      eapply Forall_impl; [|exact Hk0]. intros; lia.
    + subst. now constructor.
    + constructor; [now apply IH|].
      apply Forall_forall. intros x Hx. apply in_map_iff in Hx as ([k1 v1] & <- & Hx).
      apply dcm_set_In in Hx as [E|Hx].
      * injection E as -> ->. simpl. lia.
      * rewrite Forall_forall in Hk0. apply Hk0. now apply (in_map fst) in Hx.
Qed.

(** X4.  The date columns that the sales fact extractor keeps are ordered
    by day, one column for a day, and each of them is a column of the header
    row whose cell reads as that day of the selected month, whatever the
    year in the cell is. *)
Theorem sales_dateColumnMap_columns (MONTH_NAMES : list string) (headerRow : row)
  (selectedMonth : Z) :
  let dateColumnMap := sales_dateColumnMap MONTH_NAMES headerRow selectedMonth in
  StronglySorted Z.lt (dcm_keys dateColumnMap)
  /\ forall day col, In (day, col) dateColumnMap ->
       date_column MONTH_NAMES headerRow selectedMonth day col.
Proof.
  cbv zeta. unfold sales_dateColumnMap, dcm_keys.
  apply (fold_left_invariant
           (fun m => StronglySorted Z.lt (map fst m)
                     /\ forall day col, In (day, col) m ->
                          date_column MONTH_NAMES headerRow selectedMonth day col)).
  - split; [constructor | intros ? ? []].
  - intros m [i c] [Hs Hc] Hin. cbn [fst snd].
    apply indexed_get in Hin as [Hi Hg].
    destruct (match_date_header (String_ c)) as [[d mon]|] eqn:E; [|now split].
    destruct (Z.eqb_spec (indexOf MONTH_NAMES (capitalize mon)) selectedMonth) as [Em|Em];
      [|now split].
    split; [now apply dcm_set_sorted|].
    intros day col H. apply dcm_set_In in H as [H|H]; [|now apply Hc].
    injection H as -> ->. split; [exact Hi|].
    exists d, mon. rewrite Hg. now repeat split.
Qed.

(** ** The production parser, further *)

Lemma Date_last_day (year month : Z) :
  0 <= month <= 11 ->
  getDate (Date year (month + 1) 0) = days_in_month (full_year year) month.
Proof.
  intros Hm. unfold Date, norm_month. cbn [Z.abs Z.to_nat Nat.add norm_day].
  cbn [Z.ltb Z.compare]. unfold norm_month.
  destruct (Z.eq_dec month 11) as [->|Hn].
  - change ((11 + 1) / 12) with 1. change (((11 + 1) mod 12 - 1) / 12) with (-1).
    change (((11 + 1) mod 12 - 1) mod 12) with 11.
    unfold getDate. cbn [snd]. rewrite Z.add_0_l. f_equal. lia.
  - rewrite (Z.div_small (month + 1)), (Z.mod_small (month + 1)) by lia.
    replace (month + 1 - 1) with month by lia.
    rewrite Z.div_small, Z.mod_small by lia.
    unfold getDate. cbn [snd]. now rewrite Z.add_0_l, !Z.add_0_r.
Qed.

Lemma combine_fst {A B : Type} (a : list A) (b : list B) :
  List.length a = List.length b -> map fst (combine a b) = a.
Proof.
  revert b. induction a as [|x a IH]; intros [|y b] H; simpl in *; try discriminate;
    [reflexivity|]. f_equal. apply IH. lia.
Qed.

Lemma combine_snd {A B : Type} (a : list A) (b : list B) :
  List.length a = List.length b -> map snd (combine a b) = b.
Proof.
  revert b. induction a as [|x a IH]; intros [|y b] H; simpl in *; try discriminate;
    [reflexivity|]. f_equal. apply IH. lia.
Qed.

Lemma range0_succ (n : Z) : map (fun i => i + 1) (range0 n) = range1 n.
Proof.
  unfold range0, range1. rewrite <- seq_shift, !map_map. apply map_ext. intros; lia.
Qed.

Lemma range0_length (n : Z) : List.length (range0 n) = Z.to_nat n.
Proof. unfold range0. now rewrite length_map, length_seq. Qed.

Lemma production_row_consistent (monthlyPlanCol firstDailyCol daysInMonth : Z) (r : row)
  (p : Particular) :
  production_row monthlyPlanCol firstDailyCol daysInMonth r = Some p ->
  particular_consistent daysInMonth p.
Proof.
  unfold production_row.
  match goal with |- context [if ?b then None else _] => destruct b end; [discriminate|].
  destruct (strict_eq (cleanValue (get r monthlyPlanCol)) 0%float); [discriminate|].
  intros H. injection H as <-.
  set (plans := calculateDailyPlans (cleanValue (get r monthlyPlanCol)) daysInMonth).
  set (achieved := map _ (range1 daysInMonth)).
  assert (Hlp : List.length plans = Z.to_nat daysInMonth)
    by apply calculateDailyPlans_length.
  assert (Hla : List.length achieved = Z.to_nat daysInMonth)
    by (unfold achieved; now rewrite length_map, range1_length).
  assert (Hlc : List.length (combine plans achieved) = Z.to_nat daysInMonth)
    by (rewrite length_combine; lia).
  assert (Hli : List.length (range0 (Z.of_nat (List.length (combine plans achieved))))
                = List.length (combine plans achieved))
    by (rewrite range0_length; lia).
  unfold particular_consistent.
  cbn [p_dailyData p_monthlyPlan p_totalAchieved p_remaining].
  unfold indexed. rewrite !map_map.
  repeat split.
  - rewrite (map_ext _ (fun x : Z * (number * number) => fst x + 1))
      by (intros [i [a b]]; reflexivity).
    rewrite <- (map_map fst (fun i => i + 1)), combine_fst by exact Hli.
    rewrite range0_succ, Hlc. unfold range1. now rewrite Nat2Z.id.
  - rewrite (map_ext _ (fun x : Z * (number * number) => fst (snd x)))
      by (intros [i [a b]]; reflexivity).
    rewrite <- (map_map snd fst), combine_snd by exact Hli.
    apply combine_fst. change (List.length plans = List.length achieved). congruence.
  - apply Forall_forall. intros d Hd. apply in_map_iff in Hd as ([i [a b]] & <- & _).
    reflexivity.
  - f_equal.
    rewrite (map_ext _ (fun x : Z * (number * number) => snd (snd x)))
      by (intros [i [a b]]; reflexivity).
    rewrite <- (map_map snd snd), combine_snd by exact Hli.
    symmetry. apply combine_snd. congruence.
Qed.

(** X5.  A report of the production parser has the number of days of the
    selected month; every particular has one daily entry for each day of the
    month, in order, planned by the allocator from its monthly plan, with
    variance achieved - planned; its total achieved is the sum of the daily
    achievements and its remaining is plan - total achieved. *)
Theorem parseProductionExcel_daily_data (MONTH_NAMES : list string) (now : string)
  (rows : grid) (selectedMonth selectedYear : Z) (rep : ProductionReport) :
  0 <= selectedMonth <= 11 ->
  parseProductionExcel MONTH_NAMES now rows selectedMonth selectedYear = Ok rep ->
  pr_daysInMonth rep = days_in_month (full_year selectedYear) selectedMonth
  /\ Forall (particular_consistent (pr_daysInMonth rep)) (pr_particulars rep).
Proof.
  intros Hm. unfold parseProductionExcel.
  destruct (findIndex production_header (slice0 10 rows) =? -1); [discriminate|].
  intros H. injection H as <-. cbn [pr_daysInMonth pr_particulars].
  split; [now apply Date_last_day|].
  apply filter_map_Forall. intros r p. apply production_row_consistent.
Qed.

Lemma parseProductionExcel_daily_data_witness :
  exists rep,
    parseProductionExcel Config.MONTH_NAMES "2025-02-28T00:00:00.000Z" production_sheet 1 2025
    = Ok rep
    /\ pr_daysInMonth rep = 28
    /\ Forall (particular_consistent (pr_daysInMonth rep)) (pr_particulars rep).
Proof.
  eexists. split; [vm_compute; reflexivity|]. split; [reflexivity|].
  eapply (parseProductionExcel_daily_data Config.MONTH_NAMES "2025-02-28T00:00:00.000Z"
            production_sheet 1 2025); [lia|].
  vm_compute. reflexivity.
Defined.

(** ** The finance parser *)

Section FinanceParser.

Variable MONTH_NAMES : list string.

Lemma pe_section_categories (rows : grid) (particularsColIdx : Z)
  (weekCols : list (string * Z)) (start stop : Z) (type : flow) :
  Forall (parsed_category (map fst weekCols) type)
    (pe_section rows particularsColIdx weekCols start stop type).
Proof.
  unfold pe_section. apply filter_map_Forall. intros r c.
  destruct (String.eqb_spec (trim (String_or (get r particularsColIdx) "")) "") as [E|E];
    [discriminate|].
  destruct (includes (toLowerCase (trim (String_or (get r particularsColIdx) ""))) "total")
    eqn:Et; [discriminate|].
  cbn [orb].
  match goal with |- context [if ?b then None else _] => destruct b end; [discriminate|].
  intros H. injection H as <-.
  assert (Hli : List.length (range0 (Z.of_nat (List.length weekCols))) = List.length weekCols)
    by (rewrite range0_length; lia).
  unfold parsed_category. cbn [c_type c_name weeks totalProjected totalActual].
  unfold indexed. rewrite !map_map.
  repeat split; try assumption.
  - rewrite (map_ext _ (fun x : Z * (string * Z) => fst (snd x)))
      by (intros [i [a b]]; reflexivity).
    now rewrite <- (map_map snd fst), combine_snd.
  - rewrite (map_ext _ (fun x : Z * (string * Z) => fst x + 1))
      by (intros [i [a b]]; reflexivity).
    rewrite <- (map_map fst (fun i => i + 1)), combine_fst by exact Hli.
    now rewrite range0_succ, length_map.
  - apply Forall_forall. intros w Hw. apply in_map_iff in Hw as ([i [a b]] & <- & _).
    reflexivity.
Qed.

(** X6.  In a report of the finance parser all categories have the same
    week labels, numbered 1, 2, ... in the order of the columns; a category
    has a name that is not empty and has no "total" in it, its totals are the
    sums of its weeks; the totals of the report itself (inflow, outflow,
    opening and closing balance, net position) are all 0, whatever the sheet
    holds. *)
Theorem parseFinanceExcel_categories (now : string) (rows : grid)
  (selectedMonth selectedYear : Z) (r : FinanceMismatchReport) :
  parseFinanceExcel MONTH_NAMES now rows selectedMonth selectedYear = Ok r ->
  (exists labels,
      Forall (parsed_category labels inflow_t) (inflowCategories r)
      /\ Forall (parsed_category labels outflow_t) (outflowCategories r))
  /\ inflow r = mkFlow 0%float 0%float 0%float
  /\ outflow r = mkFlow 0%float 0%float 0%float
  /\ openingBalance r = mkBalance 0%float 0%float
  /\ closingBalance r = mkPosition 0%float 0%float 0%float
  /\ netPosition r = mkPosition 0%float 0%float 0%float.
Proof.
  unfold parseFinanceExcel.
  match goal with |- context [if ?b then Throw _ else _] => destruct b end; [discriminate|].
  intros H. injection H as <-.
  cbn [inflowCategories outflowCategories inflow outflow openingBalance closingBalance
       netPosition].
  split; [|now repeat split].
  eexists. split; [apply pe_section_categories|].
  match goal with |- context [if ?b then _ else []] => destruct b end;
    [apply pe_section_categories | constructor].
Qed.

End FinanceParser.

Lemma parseFinanceExcel_categories_witness :
  exists r,
    parseFinanceExcel Config.MONTH_NAMES "2025-11-30T00:00:00.000Z" finance_sheet_1 10 2025 = Ok r
    /\ map c_name (inflowCategories r) = ["Sales"]
    /\ map c_name (outflowCategories r) = ["Rent"]
    /\ inflow r = mkFlow 0%float 0%float 0%float.
Proof.
  eexists. split; [vm_compute; reflexivity|]. split; [reflexivity|]. split; [reflexivity|].
  eapply (parseFinanceExcel_categories Config.MONTH_NAMES "2025-11-30T00:00:00.000Z"
            finance_sheet_1 10 2025).
  vm_compute. reflexivity.
Defined.

(** ** The finance batch merge, further *)

(** *** The names of the merged categories *)

Lemma merge_existing_none (base : list FinanceCategory) (c : FinanceCategory) :
  merge_existing base c = None -> ~ In (c_name c) (map c_name base).
Proof.
  induction base as [|c0 r IH]; intros H; [intros []|].
  simpl in H. destruct (String.eqb_spec (c_name c0) (c_name c)) as [E|E]; [discriminate|].
  destruct (merge_existing r c); [discriminate|].
  intros [Hi|Hi]; [contradiction | now apply IH].
Qed.

(** X7.  The merge of two category lists keeps the categories of the base
    at their places, holds a name exactly when one of the two lists holds
    it, and holds no name twice when the base holds none twice (a name that
    the new list holds twice is merged into one category). *)
Theorem mergeCats_names (baseCats newCats : list FinanceCategory) :
  let merged := map c_name (mergeCats baseCats newCats) in
  firstn (List.length baseCats) merged = map c_name baseCats
  /\ (forall n, In n merged <-> In n (map c_name baseCats) \/ In n (map c_name newCats))
  /\ (NoDup (map c_name baseCats) -> NoDup merged).
Proof.
  cbv zeta. revert baseCats. induction newCats as [|c rest IH]; intros baseCats.
  - cbn [mergeCats fold_left map]. unfold mergeCats. cbn [fold_left].
    split; [|split].
    + rewrite <- (length_map c_name). apply firstn_all.
    + intros n. simpl. intuition.
    + auto.
  - unfold mergeCats. cbn [fold_left]. fold (mergeCats
      (match merge_existing baseCats c with
       | Some base' => base'
       | None => (baseCats ++ [c])%list
       end) rest).
    destruct (merge_existing baseCats c) as [base'|] eqn:E.
    + destruct (merge_existing_names _ _ _ E) as [Hn Hi].
      destruct (IH base') as (H1 & H2 & H3).
      assert (Hl : List.length base' = List.length baseCats)
        by (rewrite <- (length_map c_name base'), Hn; apply length_map).
      split; [|split].
      * now rewrite <- Hl, H1.
      * intros n. rewrite H2, Hn. simpl. intuition. subst. now left.
      * intros Hnd. apply H3. now rewrite Hn.
    + apply merge_existing_none in E.
      destruct (IH (baseCats ++ [c])%list) as (H1 & H2 & H3).
      rewrite map_app in *. cbn [map] in *.
      split; [|split].
      * apply (f_equal (firstn (List.length baseCats))) in H1.
        rewrite firstn_firstn, length_app, Nat.min_l in H1 by lia.
        rewrite H1, firstn_app, length_map, Nat.sub_diag. cbn [firstn].
        rewrite app_nil_r. rewrite <- (length_map c_name). apply firstn_all.
      * intros n. rewrite H2, in_app_iff. simpl. intuition.
      * intros Hnd. apply H3. apply NoDup_app; [exact Hnd | repeat constructor; intros [] |].
        intros a Ha [<-|[]]. contradiction.
Qed.

(** *** The merged categories are consistent *)

Lemma insert_week_In (w x : FinanceWeek) (l : list FinanceWeek) :
  In x (insert_week w l) <-> x = w \/ In x l.
Proof.
  induction l as [|y r IH]; simpl.
  - intuition.
  - destruct (weekNumber w <=? weekNumber y); simpl; [intuition|].
    rewrite IH. intuition.
Qed.

Lemma insert_week_sorted (w : FinanceWeek) (l : list FinanceWeek) :
  weeks_ascending l -> weeks_ascending (insert_week w l).
Proof.
  unfold weeks_ascending. induction l as [|y r IH]; intros H; simpl.
  - repeat constructor.
  - simpl in H. inversion H as [|? ? Hr Hy]; subst.
    destruct (Z.leb_spec (weekNumber w) (weekNumber y)); simpl.
    + constructor; [exact H|]. constructor; [exact H0|].
      eapply Forall_impl; [|exact Hy]. intros; lia.
    + constructor; [now apply IH|].
      apply Forall_forall. intros n Hn. apply in_map_iff in Hn as (x & <- & Hx).
      apply insert_week_In in Hx as [->|Hx]; [lia|].
      rewrite Forall_forall in Hy. apply Hy. now apply in_map.
Qed.

Lemma sort_weeks_sorted (l : list FinanceWeek) : weeks_ascending (sort_weeks l).
Proof.
  induction l as [|w r IH]; simpl; [constructor|]. now apply insert_week_sorted.
Qed.

Lemma merge_category_consistent (existing newCat : FinanceCategory) :
  category_consistent (merge_category existing newCat).
Proof.
  unfold merge_category, category_consistent. cbn [weeks totalProjected totalActual c_percentage].
  repeat split. apply sort_weeks_sorted.
Qed.

Lemma merge_existing_consistent (base : list FinanceCategory) (newCat : FinanceCategory)
  (base' : list FinanceCategory) :
  Forall category_consistent base -> merge_existing base newCat = Some base' ->
  Forall category_consistent base'.
Proof.
  revert base'. induction base as [|c r IH]; intros base' Hb H; [discriminate|].
  simpl in H. inversion Hb as [|? ? Hc Hr]; subst.
  destruct (String.eqb (c_name c) (c_name newCat)).
  - injection H as <-. constructor; [apply merge_category_consistent | exact Hr].
  - destruct (merge_existing r newCat) as [r'|] eqn:E; [|discriminate].
    injection H as <-. constructor; [exact Hc | now apply IH].
Qed.

Lemma mergeCats_consistent (base new : list FinanceCategory) :
  Forall category_consistent base -> Forall category_consistent new ->
  Forall category_consistent (mergeCats base new).
Proof.
  intros Hb Hn. unfold mergeCats. rewrite Forall_forall in Hn.
  apply fold_left_invariant; [exact Hb|].
  intros acc c Hacc Hc.
  destruct (merge_existing acc c) as [acc'|] eqn:E.
  - now apply (merge_existing_consistent acc c).
  - apply Forall_app. split; [exact Hacc|]. constructor; [now apply Hn | constructor].
Qed.

(** X8.  In the report that the upload merges from a batch of files,
    every category has its weeks in the order of their numbers, totals that
    are the sums of its weeks, and the percentage of these totals. *)
Theorem mergeReports_consistent (now : string) (selectedMonth selectedYear : Z)
  (files : list grid) (master : FinanceMismatchReport) :
  mergeReports (reportsToMerge now selectedMonth selectedYear files) = Some master ->
  Forall category_consistent (inflowCategories master)
  /\ Forall category_consistent (outflowCategories master).
Proof.
  assert (Hall : Forall (fun r => Forall category_consistent (inflowCategories r)
                                  /\ Forall category_consistent (outflowCategories r))
                   (reportsToMerge now selectedMonth selectedYear files)).
  { unfold reportsToMerge. apply filter_map_Forall. intros rows r.
    destruct (parseFile now selectedMonth selectedYear rows) as [r'|] eqn:E; [|discriminate].
    intros H. injection H as <-. now apply (parseFile_consistent now selectedMonth selectedYear rows). }
  unfold mergeReports.
  destruct (reportsToMerge now selectedMonth selectedYear files) as [|first others];
    [discriminate|].
  intros H. injection H as <-.
  inversion Hall as [|? ? Hf Ho]; subst.
  cbn [recalculate inflowCategories outflowCategories].
  rewrite Forall_forall in Ho.
  apply (fold_left_invariant
           (fun m => Forall category_consistent (inflowCategories m)
                     /\ Forall category_consistent (outflowCategories m)));
    [exact Hf|].
  intros m r [Hi Hou] Hr. destruct (Ho r Hr) as [Hri Hro].
  unfold merge_report, with_categories. cbn [inflowCategories outflowCategories].
  split; now apply mergeCats_consistent.
Qed.

Lemma mergeReports_consistent_witness :
  exists master,
    mergeReports (reportsToMerge "2025-11-30T00:00:00.000Z" 10 2025
                    [finance_sheet_1; finance_sheet_2]) = Some master
    /\ map (fun c => (c_name c, map weekNumber (weeks c))) (inflowCategories master)
       = [("Sales", [1; 1; 2]); ("Loans", [1; 2])]
    /\ Forall category_consistent (inflowCategories master).
Proof.
  eexists. split; [vm_compute; reflexivity|]. split; [vm_compute; reflexivity|].
  eapply (mergeReports_consistent "2025-11-30T00:00:00.000Z" 10 2025
            [finance_sheet_1; finance_sheet_2]).
  vm_compute. reflexivity.
Defined.

(** *** The stored list after an upload *)

Lemma filter_key_split {A : Type} (key : A -> string) (k : string) (l : list A) (x : A) :
  key x = k ->
  filter (fun d => String.eqb (key d) k)
    (filter (fun d => negb (String.eqb (key d) k)) l ++ [x]) = [x].
Proof.
  intros Hx. rewrite filter_app. simpl. rewrite Hx, String.eqb_refl.
  replace (filter _ (filter _ l)) with (@nil A); [reflexivity|].
  induction l as [|y r IH]; simpl; [reflexivity|].
  destruct (String.eqb (key y) k) eqn:E; simpl; [exact IH|]. now rewrite E.
Qed.

Lemma merge_report_monthKey (l : list FinanceMismatchReport) (first : FinanceMismatchReport) :
  monthKey (fold_left merge_report l first) = monthKey first.
Proof.
  revert first. induction l as [|r l IH]; intros first; [reflexivity|].
  simpl. now rewrite IH.
Qed.

(** X9.  An upload of finance files that stores something replaces the
    month: the stored list is the old list without the reports of the
    selected month, followed by the merged report, which is then the only
    report of that month. *)
Theorem handleFileUpload_replaces_month (now : string) (selectedMonth selectedYear : Z)
  (files : list grid) (currentData updated : list FinanceMismatchReport) :
  handleFileUpload now selectedMonth selectedYear files currentData = Some updated ->
  let key := int_to_string selectedYear ++ "-" ++ int_to_string selectedMonth in
  exists masterReport,
    updated = (filter (fun d => negb (String.eqb (monthKey d) key)) currentData
               ++ [masterReport])%list
    /\ monthKey masterReport = key
    /\ filter (fun d => String.eqb (monthKey d) key) updated = [masterReport].
Proof.
  unfold handleFileUpload, mergeReports.
  assert (Hall : Forall (fun r => monthKey r
                                  = int_to_string selectedYear ++ "-" ++ int_to_string selectedMonth)
                   (reportsToMerge now selectedMonth selectedYear files)).
  { unfold reportsToMerge. apply filter_map_Forall. intros rows r.
    destruct (parseFile now selectedMonth selectedYear rows) as [r'|] eqn:E; [|discriminate].
    intros H. injection H as <-. revert E. unfold parseFile.
    destruct (find_header rows 0 50 (-1, -1, 0)) as [[h d] pcol].
    destruct (h =? -1); [discriminate|].
    match goal with |- context [weekCols_of ?hs] => destruct (weekCols_of hs) end;
      [discriminate|].
    intros H. injection H as <-. reflexivity. }
  destruct (reportsToMerge now selectedMonth selectedYear files) as [|first others];
    [discriminate|].
  intros H. injection H as <-. cbv zeta.
  inversion Hall as [|? ? Hf _]; subst.
  assert (Hk : monthKey (recalculate (fold_left merge_report others first))
               = int_to_string selectedYear ++ "-" ++ int_to_string selectedMonth).
  { cbn [recalculate monthKey]. now rewrite merge_report_monthKey. }
  eexists. split; [reflexivity|]. split; [exact Hk|].
  now apply filter_key_split.
Qed.

Lemma handleFileUpload_replaces_month_witness :
  exists updated,
    handleFileUpload "2025-11-30T00:00:00.000Z" 10 2025 [finance_sheet_2]
      [stored_report "2025-9"; stored_report "2025-10"] = Some updated
    /\ map monthKey updated = ["2025-9"; "2025-10"]
    /\ exists masterReport,
         updated = (filter (fun d => negb (String.eqb (monthKey d) "2025-10"))
                      [stored_report "2025-9"; stored_report "2025-10"]
                    ++ [masterReport])%list
         /\ monthKey masterReport = "2025-10"
         /\ filter (fun d => String.eqb (monthKey d) "2025-10") updated = [masterReport].
Proof.
  eexists. split; [vm_compute; reflexivity|]. split; [reflexivity|].
  apply (handleFileUpload_replaces_month "2025-11-30T00:00:00.000Z" 10 2025 [finance_sheet_2]
           [stored_report "2025-9"; stored_report "2025-10"]).
  vm_compute. reflexivity.
Defined.

(** ** The upload component of the sales sheets, further *)

Lemma is_nan_spec (x : number) :
  is_nan x = match Prim2SF x with S754_nan => true | _ => false end.
Proof.
  unfold is_nan. rewrite eqb_spec.
  destruct (Prim2SF x) as [s|s| |s m e]; try reflexivity.
  - destruct s; reflexivity.
  - now rewrite SFeqb_finite_refl.
Qed.

Lemma is_nan_opp (x : number) : is_nan (- x)%float = is_nan x.
Proof.
  rewrite !is_nan_spec, opp_spec. destruct (Prim2SF x); reflexivity.
Qed.

Lemma app_nonempty (a b : string) : a <> "" -> (a ++ b)%string <> "".
Proof. destruct a; [congruence | discriminate]. Qed.

Section UploadEntries.

Variable MONTH_NAMES : list string.
Variable SALES_TEAMS : list string.
Variable parse_date_code : number -> option (Z * Z * Z).
Variables fileMonth fileYear : Z.

Lemma upload_row_entries (isMaster isTerritory : bool)
  (teamHeaderIdx regionHeaderIdx productHeaderIdx territoryHeaderIdx dataColumnIndex : Z)
  (reportDateStr : string) (st : string * list DepartmentMismatch) (r : row) :
  (fst st = "" \/ stored_team SALES_TEAMS (fst st))
  /\ Forall (upload_entry SALES_TEAMS isTerritory) (snd st) ->
  let st' := DataEntry.upload_row SALES_TEAMS isMaster isTerritory teamHeaderIdx
               regionHeaderIdx productHeaderIdx territoryHeaderIdx dataColumnIndex
               reportDateStr st r in
  (fst st' = "" \/ stored_team SALES_TEAMS (fst st'))
  /\ Forall (upload_entry SALES_TEAMS isTerritory) (snd st').
Proof.
  destruct st as [team0 out]. cbn [fst snd]. intros [Ht Hout].
  unfold DataEntry.upload_row.
  match goal with |- context [if String.eqb team0 "" then (team0, out) else ?e] =>
    set (other := if String.eqb team0 "" then (team0, out) else e) end.
  assert (Ho : (fst other = "" \/ stored_team SALES_TEAMS (fst other))
               /\ Forall (upload_entry SALES_TEAMS isTerritory) (snd other)).
  { unfold other. clear other.
    destruct (String.eqb_spec team0 "") as [E0|E0]; [now split|].
    destruct Ht as [Ht|Ht]; [contradiction|].
    match goal with |- context [if ?b then (team0, out) else _] => destruct b end;
      [now split; [right|]|].
    match goal with |- context [if is_nan ?v then _ else _] =>
      set (numericVal := v); destruct (is_nan numericVal) eqn:Ev end;
      [now split; [right|]|].
    assert (He : forall dept met,
               dept = (if isTerritory then "Territory Sales" else "Sales") ->
               met <> "" ->
               upload_entry SALES_TEAMS isTerritory
                 (mkFact dept team0 met (if isMaster then numericVal else 0%float)
                    (if isMaster then 0%float else numericVal)
                    (if isMaster then (- numericVal)%float else numericVal)
                    "Units" "on-track" reportDateStr None)).
    { intros dept met Hd Hm. unfold upload_entry. cbn.
      repeat split; try assumption;
        destruct isMaster; try assumption; try reflexivity. now rewrite is_nan_opp. }
    destruct isTerritory; cbn [fst snd].
    - split; [now right|]. apply Forall_app. split; [exact Hout|].
      constructor; [|constructor].
      replace (if String.eqb team0 "" then "Unmapped Team" else team0) with team0
        by (destruct (String.eqb_spec team0 ""); [contradiction | reflexivity]).
      apply He; [reflexivity|].
      repeat match goal with
             | |- context [String.eqb ?x ""] => destruct (String.eqb_spec x ""); cbn [negb]
             end;
        try assumption; try discriminate; try (now apply app_nonempty).
    - match goal with |- context [if negb (String.eqb ?m "") then _ else (team0, out)] =>
        destruct (String.eqb_spec m "") as [Em|Em] end; cbn [negb fst snd].
      + now split; [right|].
      + split; [now right|]. apply Forall_app. split; [exact Hout|].
        constructor; [|constructor]. now apply He. }
  destruct (find_ _ SALES_TEAMS) as [[|c rest]|] eqn:E; try exact Ho.
  cbn [fst snd]. split; [|exact Hout]. right. exists c, rest. split; [|reflexivity].
  unfold find_ in E. now apply find_some in E as [E _].
Qed.

(** X10.  Every entry that the upload component reads from a file has the
    department of the tab, a team of [SALES_TEAMS] written with its tail in
    lower case, a metric that is not empty, numbers that are not NaN, the
    unit "Units", the status "on-track" and no financial-year label; a file
    that gives an error gives no entry. *)
Theorem readFile_entries (isTerritoryTab isMaster : bool) (rows : grid) :
  let result := DataEntry.readFile MONTH_NAMES SALES_TEAMS parse_date_code fileMonth fileYear
                  isTerritoryTab isMaster rows in
  Forall (upload_entry SALES_TEAMS isTerritoryTab) (fst result)
  /\ (snd result <> None -> fst result = []).
Proof.
  cbv zeta. unfold DataEntry.readFile. destruct rows as [|r0 rest] eqn:E;
    [split; [constructor | reflexivity]|].
  rewrite <- E.
  match goal with |- context [if ?b then ([], Some DataEntry.TerritoryColumnInSalesTab) else _] =>
    destruct b end; [split; [constructor | reflexivity]|].
  match goal with |- context [if ?b then ([], Some DataEntry.MissingTerritoryColumn) else _] =>
    destruct b end; [split; [constructor | reflexivity]|].
  match goal with |- context [flat_map ?f ?days] =>
    assert (H : Forall (upload_entry SALES_TEAMS isTerritoryTab) (flat_map f days)) end.
  { apply Forall_flat_map, Forall_forall. intros day _.
    unfold DataEntry.upload_day.
    match goal with |- context [if ?b then [] else _] => destruct b end; [constructor|].
    apply (fold_left_invariant
             (fun st => (fst st = "" \/ stored_team SALES_TEAMS (fst st))
                        /\ Forall (upload_entry SALES_TEAMS isTerritoryTab) (snd st)));
      [split; [now left | constructor]|].
    intros st [i r] Hst _. cbn [fst snd].
    match goal with |- context [if ?b then st else _] => destruct b end; [exact Hst|].
    now apply upload_row_entries. }
  destruct isMaster; [split; [exact H | intros Hn; now contradiction Hn]|].
  cbv iota in H |- *.
  match goal with |- context [map Number_ ?ks] => destruct (map Number_ ks) end;
    [split; [constructor | reflexivity]
    |split; [exact H | intros Hn; now contradiction Hn]].
Qed.

End UploadEntries.

(** ** Month navigation, working days and holidays *)

Lemma norm_day_in_month (fuel : nat) (y m d : Z) :
  1 <= d <= days_in_month y m -> norm_day (S fuel) y m d = (y, m, d).
Proof.
  intros H. cbn [norm_day].
  destruct (Z.ltb_spec d 1); [lia|].
  destruct (Z.ltb_spec (days_in_month y m) d); [lia|reflexivity].
Qed.

Lemma Date_in_month (year month day : Z) :
  0 <= month <= 11 -> 1 <= day <= days_in_month (full_year year) month ->
  Date year month day = (full_year year, month, day).
Proof.
  intros Hm Hd. unfold Date, norm_month.
  rewrite Z.div_small, Z.mod_small, Z.add_0_r by lia.
  rewrite Nat.add_1_r. now apply norm_day_in_month.
Qed.

Lemma days_in_month_max (y m : Z) : days_in_month y m <= 31.
Proof.
  unfold days_in_month.
  destruct (m =? 1); [destruct (is_leap y); lia|].
  destruct ((m =? 3) || (m =? 5) || (m =? 8) || (m =? 10)); lia.
Qed.

(** The day after the last day of a month lies in another month. *)
Lemma setDate_next_month (y m : Z) :
  0 <= m <= 11 ->
  getMonth (Calendar.setDate (y, m, days_in_month y m) (days_in_month y m + 1)) <> m.
Proof.
  intros Hm. unfold Calendar.setDate.
  pose proof (days_in_month_min y m) as Hmin.
  assert (Hk : exists k, (Z.to_nat (Z.abs (days_in_month y m + 1)) + 1)%nat = S (S k)).
  { exists (Z.to_nat (Z.abs (days_in_month y m + 1)) - 1)%nat. lia. }
  destruct Hk as [k ->]. cbn [norm_day].
  destruct (Z.ltb_spec (days_in_month y m + 1) 1); [lia|].
  destruct (Z.ltb_spec (days_in_month y m) (days_in_month y m + 1)); [|lia].
  unfold norm_month.
  replace (days_in_month y m + 1 - days_in_month y m) with 1 by lia.
  destruct (Z.ltb_spec 1 1); [lia|].
  pose proof (days_in_month_min (y + (m + 1) / 12) ((m + 1) mod 12)).
  destruct (Z.ltb_spec (days_in_month (y + (m + 1) / 12) ((m + 1) mod 12)) 1); [lia|].
  unfold getMonth. simpl.
  destruct (Z.eq_dec m 11) as [->|]; [discriminate|].
  rewrite Z.mod_small by lia. lia.
Qed.

Lemma working_from_S (hols : list Z) (d : Z) (k : nat) :
  working_from hols d (S k)
  = (if negb (Calendar.includes_day hols d) then 1 else 0) + working_from hols (d + 1) k.
Proof.
  unfold working_from. rewrite <- cons_seq, <- seq_shift. simpl map. rewrite map_map.
  rewrite Z.add_0_r.
  replace (map (fun x => d + Z.of_nat (S x)) (seq 0 k))
    with (map (fun i => d + 1 + Z.of_nat i) (seq 0 k))
    by (apply map_ext; intros; lia).
  simpl filter. destruct (negb (Calendar.includes_day hols d)); cbn [Datatypes.length]; lia.
Qed.

Lemma workingDays_loop_count (hols : list Z) (y m : Z) (k : nat) :
  0 <= m <= 11 ->
  forall (fuel : nat) (d count : Z),
    1 <= d -> d + Z.of_nat k = days_in_month y m -> (S k < fuel)%nat ->
    Calendar.workingDays_loop fuel m hols (y, m, d) count
    = Some (count + working_from hols d (S k)).
Proof.
  intros Hm. induction k as [|k IH]; intros fuel d count Hd Hk Hf;
    (destruct fuel as [|fuel]; [lia|]); cbn [Calendar.workingDays_loop];
    unfold getMonth at 1; cbn [fst snd]; rewrite Z.eqb_refl;
    unfold getDate; cbn [snd]; rewrite working_from_S.
  - replace d with (days_in_month y m) by lia.
    destruct fuel as [|fuel]; [lia|]. cbn [Calendar.workingDays_loop].
    destruct (Z.eqb_spec (getMonth (Calendar.setDate (y, m, days_in_month y m)
                                      (days_in_month y m + 1))) m) as [E|E].
    + exfalso. revert E. now apply setDate_next_month.
    + unfold working_from. simpl.
      destruct (negb (Calendar.includes_day hols (days_in_month y m))); f_equal; lia.
  - unfold Calendar.setDate. rewrite Nat.add_1_r, norm_day_in_month by lia.
    rewrite IH by lia.
    destruct (negb (Calendar.includes_day hols d)); f_equal; lia.
Qed.

Lemma working_from_1 (hols : list Z) (n : Z) :
  working_from hols 1 (Z.to_nat n) = working_days hols n.
Proof.
  unfold working_from, working_days, range1. rewrite <- seq_shift, map_map.
  do 3 f_equal. apply map_ext. intros; lia.
Qed.

Lemma workingDays_loop_month (hols : list Z) (selectedYear selectedMonth : Z) :
  0 <= selectedMonth <= 11 ->
  Calendar.workingDays_loop 33 selectedMonth hols (Date selectedYear selectedMonth 1) 0
  = Some (working_days hols (days_in_month (full_year selectedYear) selectedMonth)).
Proof.
  intros Hm.
  pose proof (days_in_month_min (full_year selectedYear) selectedMonth) as Hmin.
  pose proof (days_in_month_max (full_year selectedYear) selectedMonth) as Hmax.
  rewrite Date_in_month by lia.
  rewrite (workingDays_loop_count hols (full_year selectedYear) selectedMonth
             (Z.to_nat (days_in_month (full_year selectedYear) selectedMonth) - 1));
    try lia.
  replace (S (Z.to_nat (days_in_month (full_year selectedYear) selectedMonth) - 1))
    with (Z.to_nat (days_in_month (full_year selectedYear) selectedMonth)) by lia.
  now rewrite working_from_1.
Qed.

(** X11.  The loop of [workingDaysCount] ends, and the count is the number
    of days of the selected month that are not among its holidays; when
    every day of the month is a holiday the count is 26, not 0. *)
Theorem workingDaysCount_spec (holidaysMap : Calendar.HolidaysMap)
  (selectedYear selectedMonth : Z) :
  0 <= selectedMonth <= 11 ->
  let hols := Calendar.holidays_of holidaysMap (Calendar.monthKey selectedYear selectedMonth) in
  let n := working_days hols (days_in_month (full_year selectedYear) selectedMonth) in
  Calendar.workingDaysCount holidaysMap selectedYear selectedMonth
  = Some (if n =? 0 then 26 else n).
Proof.
  intros Hm hols n. unfold Calendar.workingDaysCount. fold hols.
  now rewrite workingDays_loop_month.
Qed.

Lemma workingDaysCount_spec_witness :
  Calendar.workingDaysCount [("2025-10", [2; 9; 16; 23; 30])] 2025 10 = Some 25
  /\ Calendar.workingDaysCount [("2025-1", range1 28)] 2025 1 = Some 26.
Proof.
  split.
  - rewrite (workingDaysCount_spec [("2025-10", [2; 9; 16; 23; 30])] 2025 10) by lia.
    vm_compute. reflexivity.
  - rewrite (workingDaysCount_spec [("2025-1", range1 28)] 2025 1) by lia.
    vm_compute. reflexivity.
Defined.

Lemma Date_first (year month : Z) :
  Date year month 1
  = (full_year year + month / 12, month mod 12, 1).
Proof.
  unfold Date, norm_month. simpl Z.to_nat. cbn [Nat.add Pos.to_nat Pos.iter_op].
  apply norm_day_in_month.
  pose proof (days_in_month_min (full_year year + month / 12) (month mod 12)). lia.
Qed.

(** X14.  [handleMonthChange] moves the view to the first day of a month
    of the calendar (the month index is again between 0 and 11, the year is
    carried), and the opposite offset brings the view back to the first day
    of the month it came from.  The years are those that [Date] takes as
    they are (100 and later). *)

Theorem handleMonthChange_inverse (selectedYear selectedMonth offset : Z) :
  0 <= selectedMonth <= 11 ->
  100 <= selectedYear -> 100 <= selectedYear + (selectedMonth + offset) / 12 ->
  let d := Calendar.handleMonthChange selectedYear selectedMonth offset in
  0 <= getMonth d <= 11
  /\ getDate d = 1
  /\ Calendar.handleMonthChange (Calendar.getFullYear d) (getMonth d) (- offset)
     = (selectedYear, selectedMonth, 1).
Proof.
  intros Hm Hy Hy1. unfold Calendar.handleMonthChange. rewrite Date_first.
  unfold getMonth, getDate, Calendar.getFullYear. cbn [fst snd].
  assert (Hf : full_year selectedYear = selectedYear).
  { unfold full_year. destruct (Z.leb_spec 0 selectedYear), (Z.leb_spec selectedYear 99);
      simpl; lia. }
  rewrite Hf.
  split; [pose proof (Z.mod_pos_bound (selectedMonth + offset) 12); lia|].
  split; [reflexivity|].
  rewrite Date_first.
  set (q := (selectedMonth + offset) / 12) in *.
  assert (Hf1 : full_year (selectedYear + q) = selectedYear + q).
  { unfold full_year. destruct (Z.leb_spec 0 (selectedYear + q)),
      (Z.leb_spec (selectedYear + q) 99); simpl; lia. }
  rewrite Hf1.
  assert (E : (selectedMonth + offset) mod 12 + - offset = selectedMonth + (- q) * 12).
  { pose proof (Z.div_mod (selectedMonth + offset) 12). unfold q. lia. }
  rewrite E, Z.div_add, Z.mod_add, Z.div_small, Z.mod_small by lia.
  f_equal. f_equal. lia.
Qed.

Lemma handleMonthChange_inverse_witness :
  Calendar.handleMonthChange 2025 11 1 = (2026, 0, 1)
  /\ Calendar.handleMonthChange 2026 0 (-1) = (2025, 11, 1).
Proof.
  split; [vm_compute; reflexivity|].
  exact (proj2 (proj2 (handleMonthChange_inverse 2025 11 1
                         ltac:(lia) ltac:(lia) ltac:(vm_compute; discriminate)))).
Defined.

Lemma holidays_of_set (m : Calendar.HolidaysMap) (k : string) (v : list Z) :
  Calendar.holidays_of (Calendar.hm_set m k v) k = v.
Proof.
  unfold Calendar.holidays_of.
  induction m as [|[k' v'] r IH]; simpl.
  - now rewrite String.eqb_refl.
  - destruct (String.eqb k k') eqn:E; simpl; rewrite ?String.eqb_refl, ?E; auto.
Qed.

Lemma hm_get_set_other (m : Calendar.HolidaysMap) (k k' : string) (v : list Z) :
  k' <> k -> Calendar.hm_get (Calendar.hm_set m k v) k' = Calendar.hm_get m k'.
Proof.
  intros Hk. induction m as [|[k0 v0] r IH]; simpl.
  - destruct (String.eqb_spec k' k); [contradiction|reflexivity].
  - destruct (String.eqb_spec k k0) as [->|E]; simpl.
    + destruct (String.eqb_spec k' k0); [contradiction|reflexivity].
    + destruct (String.eqb_spec k' k0); [reflexivity|exact IH].
Qed.

Lemma includes_day_In (hols : list Z) (d : Z) :
  Calendar.includes_day hols d = true <-> In d hols.
Proof.
  unfold Calendar.includes_day. rewrite existsb_exists. split.
  - intros (x & Hx & E). apply Z.eqb_eq in E. now subst.
  - intros H. exists d. split; [exact H | apply Z.eqb_refl].
Qed.

Lemma filter_absent (l : list Z) (day : Z) :
  ~ In day l -> filter (fun d => negb (d =? day)) l = l.
Proof.
  induction l as [|x r IH]; intros H; simpl; [reflexivity|].
  destruct (Z.eqb_spec x day) as [->|E]; simpl.
  - exfalso. apply H. now left.
  - rewrite IH; [reflexivity|]. intros Hin. apply H. now right.
Qed.

(** X12.  A toggle of a day turns a holiday of the month into a working
    day and a working day into a holiday; two toggles of the same day give
    back the holidays of the month (the same list when the day was not a
    holiday), and the holidays of the other months are never touched. *)

Theorem handleToggleHoliday_twice (prev : Calendar.HolidaysMap)
  (selectedYear selectedMonth day : Z) :
  let key := Calendar.monthKey selectedYear selectedMonth in
  let once := Calendar.handleToggleHoliday prev selectedYear selectedMonth day in
  let twice := Calendar.handleToggleHoliday once selectedYear selectedMonth day in
  Calendar.includes_day (Calendar.holidays_of once key) day
  = negb (Calendar.includes_day (Calendar.holidays_of prev key) day)
  /\ (forall d, In d (Calendar.holidays_of twice key) <-> In d (Calendar.holidays_of prev key))
  /\ (Calendar.includes_day (Calendar.holidays_of prev key) day = false ->
      Calendar.holidays_of twice key = Calendar.holidays_of prev key)
  /\ (forall k, k <> key ->
      Calendar.hm_get once k = Calendar.hm_get prev k
      /\ Calendar.hm_get twice k = Calendar.hm_get prev k).
Proof.
  intros key once twice.
  set (hols := Calendar.holidays_of prev key).
  assert (Honce : Calendar.holidays_of once key
                  = if Calendar.includes_day hols day
                    then filter (fun d => negb (d =? day)) hols
                    else (hols ++ [day])%list).
  { unfold once, Calendar.handleToggleHoliday. fold key. fold hols.
    apply holidays_of_set. }
  assert (Htwice : Calendar.holidays_of twice key
                   = let h1 := Calendar.holidays_of once key in
                     if Calendar.includes_day h1 day
                     then filter (fun d => negb (d =? day)) h1
                     else (h1 ++ [day])%list).
  { unfold twice, Calendar.handleToggleHoliday. fold key. apply holidays_of_set. }
  assert (Hin1 : Calendar.includes_day (Calendar.holidays_of once key) day
                 = negb (Calendar.includes_day hols day)).
  { rewrite Honce. destruct (Calendar.includes_day hols day) eqn:E; simpl.
    - apply not_true_iff_false. rewrite includes_day_In, filter_In.
      intros [_ H]. rewrite Z.eqb_refl in H. discriminate.
    - apply includes_day_In, in_or_app. right. now left. }
  split; [exact Hin1|]. split; [|split].
  - intros d. rewrite Htwice. cbv zeta. rewrite Hin1, Honce.
    destruct (Calendar.includes_day hols day) eqn:E; simpl.
    + rewrite in_app_iff, filter_In. simpl. split.
      * intros [[H _]|[<-|[]]]; [exact H | now apply includes_day_In].
      * intros H. destruct (Z.eqb_spec d day) as [->|Hd]; [right; now left|].
        left. split; [exact H|reflexivity].
    + rewrite filter_In, in_app_iff. simpl. split.
      * intros [[H|[<-|[]]] Hd]; [exact H|]. rewrite Z.eqb_refl in Hd. discriminate.
      * intros H. split; [now left|].
        apply negb_true_iff, Z.eqb_neq. intros ->.
        apply includes_day_In in H. congruence.
  - intros E. rewrite Htwice. cbv zeta. rewrite Hin1, Honce, E. simpl.
    rewrite filter_app. simpl. rewrite Z.eqb_refl. simpl. rewrite app_nil_r.
    apply filter_absent. intros H. apply includes_day_In in H. fold hols in E. congruence.
  - intros k Hk.
    assert (H1 : Calendar.hm_get once k = Calendar.hm_get prev k).
    { unfold once, Calendar.handleToggleHoliday. fold key. now apply hm_get_set_other. }
    split; [exact H1|].
    unfold twice, Calendar.handleToggleHoliday. fold key.
    rewrite hm_get_set_other by exact Hk. exact H1.
Qed.

Lemma filter_length_differ (p q : Z -> bool) (day : Z) (l : list Z) :
  (forall x, x <> day -> p x = q x) -> p day = true -> q day = false ->
  NoDup l -> In day l ->
  List.length (filter p l) = S (List.length (filter q l)).
Proof.
  intros Hpq Hp Hq. induction l as [|x r IH]; intros Hnd Hin; [contradiction|].
  inversion Hnd as [|? ? Hx Hr]; subst. simpl.
  destruct (Z.eq_dec x day) as [->|E].
  - rewrite Hp, Hq. simpl. f_equal.
    clear IH Hin Hnd Hr. induction r as [|z r IH]; [reflexivity|]. simpl.
    assert (Hz : z <> day) by (intros ->; apply Hx; now left).
    rewrite (Hpq z Hz).
    assert (Hx' : ~ In day r) by (intros H; apply Hx; now right).
    destruct (q z); simpl; now rewrite (IH Hx').
  - destruct Hin as [->|Hin]; [congruence|].
    rewrite (Hpq x E). destruct (q x); simpl; now rewrite (IH Hr Hin).
Qed.

Lemma range1_NoDup (n : Z) : NoDup (range1 n).
Proof.
  unfold range1. generalize 1%nat. induction (Z.to_nat n) as [|k IH]; intros a; simpl.
  - constructor.
  - constructor; [|apply IH].
    rewrite in_map_iff. intros (i & E & Hi). apply in_seq in Hi. lia.
Qed.

Lemma range1_In (n d : Z) : In d (range1 n) <-> 1 <= d <= n.
Proof.
  unfold range1. rewrite in_map_iff. split.
  - intros (i & <- & Hi). apply in_seq in Hi. lia.
  - intros H. exists (Z.to_nat d). split; [lia|]. apply in_seq. lia.
Qed.

Lemma includes_day_app (hols : list Z) (day x : Z) :
  Calendar.includes_day (hols ++ [day]) x = Calendar.includes_day hols x || (x =? day).
Proof.
  unfold Calendar.includes_day. rewrite existsb_app. simpl. now rewrite orb_false_r.
Qed.

Lemma includes_day_filter (hols : list Z) (day x : Z) :
  Calendar.includes_day (filter (fun d => negb (d =? day)) hols) x
  = Calendar.includes_day hols x && negb (x =? day).
Proof.
  unfold Calendar.includes_day. induction hols as [|h r IH]; simpl; [reflexivity|].
  destruct (Z.eqb_spec h day) as [->|E]; simpl.
  - rewrite IH. destruct (Z.eqb_spec x day); simpl;
      [now rewrite andb_false_r | now rewrite andb_true_r].
  - rewrite IH. destruct (Z.eqb_spec x h) as [->|E']; simpl; [|reflexivity].
    destruct (Z.eqb_spec h day); [contradiction|reflexivity].
Qed.

Lemma working_days_none (hols : list Z) (daysInMonth : Z) :
  working_days hols daysInMonth = 0
  <-> forallb (Calendar.includes_day hols) (range1 daysInMonth) = true.
Proof.
  unfold working_days. induction (range1 daysInMonth) as [|d r IH]; simpl.
  - split; reflexivity.
  - destruct (Calendar.includes_day hols d); simpl; [exact IH|].
    split; [lia | discriminate].
Qed.

(** X13.  On the holiday tab of the sales sheets, a toggle of a day of the
    month changes [workingDaysCount] by one, one more when the day was a
    holiday and one less when it was not, except where the count falls back
    to 26: when every day of the month was a holiday the count goes from 26
    to 1, and when the only working day becomes a holiday it goes from 1 to
    26. *)
Theorem handleToggleHoliday_workingDays (holidaysMap : Calendar.HolidaysMap)
  (selectedYear selectedMonth day : Z) :
  0 <= selectedMonth <= 11 ->
  1 <= day <= days_in_month (full_year selectedYear) selectedMonth ->
  let hols := Calendar.holidays_of holidaysMap (Calendar.monthKey selectedYear selectedMonth) in
  let allHolidays :=
    forallb (Calendar.includes_day hols)
      (range1 (days_in_month (full_year selectedYear) selectedMonth)) in
  exists count count',
    Calendar.workingDaysCount holidaysMap selectedYear selectedMonth = Some count
    /\ Calendar.workingDaysCount
         (Calendar.handleToggleHoliday holidaysMap selectedYear selectedMonth day)
         selectedYear selectedMonth = Some count'
    /\ count' = if Calendar.includes_day hols day
                then (if allHolidays then 1 else count + 1)
                else (if count =? 1 then 26 else count - 1).
Proof.
  intros Hm Hd hols allHolidays.
  unfold Calendar.workingDaysCount. rewrite !workingDays_loop_month by exact Hm.
  fold hols.
  unfold Calendar.handleToggleHoliday. rewrite holidays_of_set. fold hols.
  set (dim := days_in_month (full_year selectedYear) selectedMonth) in *.
  set (n := working_days hols dim).
  eexists _, _. split; [reflexivity|]. split; [reflexivity|].
  assert (Hin : In day (range1 dim)) by now apply range1_In.
  pose proof (range1_NoDup dim) as Hnd.
  assert (Hn0 : 0 <= n) by (unfold n, working_days; lia).
  pose proof (working_days_none hols dim) as Hall. fold n in Hall. fold allHolidays in Hall.
  destruct (Calendar.includes_day hols day) eqn:E.
  - assert (H : working_days (filter (fun d => negb (d =? day)) hols) dim = n + 1).
    { unfold n, working_days.
      rewrite (filter_length_differ
                 (fun d => negb (Calendar.includes_day (filter (fun d0 => negb (d0 =? day)) hols) d))
                 (fun d => negb (Calendar.includes_day hols d)) day); try assumption; try lia.
      - intros x Hx. rewrite includes_day_filter.
        destruct (Z.eqb_spec x day); [contradiction|]. now rewrite andb_true_r.
      - rewrite includes_day_filter, Z.eqb_refl. now rewrite andb_false_r.
      - now rewrite E. }
    rewrite H.
    destruct (Z.eqb_spec (n + 1) 0); [lia|].
    destruct allHolidays.
    + replace n with 0 by (symmetry; now apply Hall). reflexivity.
    + destruct (Z.eqb_spec n 0) as [E0|E0]; [|reflexivity].
      apply Hall in E0. discriminate.
  - assert (H : n = working_days (hols ++ [day]) dim + 1).
    { unfold n, working_days.
      rewrite (filter_length_differ
                 (fun d => negb (Calendar.includes_day hols d))
                 (fun d => negb (Calendar.includes_day (hols ++ [day]) d)) day);
        try assumption; try lia.
      - intros x Hx. rewrite includes_day_app.
        destruct (Z.eqb_spec x day); [contradiction|]. now rewrite orb_false_r.
      - now rewrite E.
      - rewrite includes_day_app, Z.eqb_refl. now rewrite orb_true_r. }
    assert (0 <= working_days (hols ++ [day]) dim) by (unfold working_days; lia).
    destruct (Z.eqb_spec n 0) as [E0|E0]; [lia|].
    destruct (Z.eqb_spec (working_days (hols ++ [day]) dim) 0) as [E1|E1];
      destruct (Z.eqb_spec n 1); try lia; try reflexivity.
Qed.

Lemma handleToggleHoliday_workingDays_witness :
  Calendar.workingDaysCount [] 2025 10 = Some 30
  /\ Calendar.workingDaysCount (Calendar.handleToggleHoliday [] 2025 10 2) 2025 10 = Some 29
  /\ Calendar.workingDaysCount [("2025-1", range1 28)] 2025 1 = Some 26
  /\ Calendar.workingDaysCount
       (Calendar.handleToggleHoliday [("2025-1", range1 28)] 2025 1 5) 2025 1 = Some 1
  /\ exists count count',
       Calendar.workingDaysCount [("2025-1", range1 28)] 2025 1 = Some count
       /\ Calendar.workingDaysCount
            (Calendar.handleToggleHoliday [("2025-1", range1 28)] 2025 1 5) 2025 1
          = Some count'
       /\ count' = if Calendar.includes_day
                       (Calendar.holidays_of [("2025-1", range1 28)]
                          (Calendar.monthKey 2025 1)) 5
                   then (if forallb
                              (Calendar.includes_day
                                 (Calendar.holidays_of [("2025-1", range1 28)]
                                    (Calendar.monthKey 2025 1)))
                              (range1 (days_in_month (full_year 2025) 1))
                         then 1 else count + 1)
                   else (if count =? 1 then 26 else count - 1).
Proof.
  repeat (split; [vm_compute; reflexivity|]).
  apply (handleToggleHoliday_workingDays [("2025-1", range1 28)] 2025 1 5);
    [lia | vm_compute; split; discriminate].
Defined.

(** ** The trade tab *)

Lemma amount_not_nan (c : cell) : is_nan (TradeUpload.amount c) = false.
Proof. apply or_zero_not_nan. Qed.

Lemma amount_if_not_nan (b : bool) (c : cell) :
  is_nan (if b then TradeUpload.amount c else 0%float) = false.
Proof. destruct b; [apply or_zero_not_nan | reflexivity]. Qed.

Section TradeTab.

Variables currentMonth currentYear : Z.

(** What the loop over the rows keeps: the months of the block are months
    of [tradeMonths], the entries are trade records. *)
Let trade_state (st : list TradeUpload.MonthIndices * list DepartmentMismatch) : Prop :=
  Forall (fun m => In (TradeUpload.mi_name m) (map fst TradeUpload.tradeMonths)) (fst st)
  /\ Forall (trade_record currentMonth currentYear) (snd st).

Let names_known (l : list TradeUpload.MonthIndices) : Prop :=
  Forall (fun m => In (TradeUpload.mi_name m) (map fst TradeUpload.tradeMonths)) l.

Lemma trade_entries_records (l : list TradeUpload.MonthIndices)
  (category customerName : string) (r : row) :
  names_known l -> customerName <> "" ->
  includes (toLowerCase customerName) "total" = false ->
  Forall (trade_record currentMonth currentYear)
    (TradeUpload.trade_entries currentMonth currentYear l category customerName r).
Proof.
  intros Hl Hc Ht. unfold TradeUpload.trade_entries.
  apply Forall_flat_map. eapply Forall_impl; [|exact Hl]. intros m Hm. cbv beta.
  set (budget := if negb (TradeUpload.bIdx m =? -1) then _ else _).
  set (sales := if negb (TradeUpload.sIdx m =? -1) then _ else _).
  assert (Hb : is_nan budget = false) by apply amount_if_not_nan.
  assert (Hs : is_nan sales = false) by apply amount_if_not_nan.
  destruct (strict_eq budget 0%float && strict_eq sales 0%float) eqn:E; constructor; [|constructor].
  unfold trade_record. cbn [department unit reportDate fy team metric plan actual variance status].
  repeat split; try assumption; try reflexivity.
  destruct (String.eqb_spec category ""); [discriminate | assumption].
Qed.

Lemma trade_row_records (st : list TradeUpload.MonthIndices * list DepartmentMismatch)
  (r : row) :
  names_known (fst st) /\ Forall (trade_record currentMonth currentYear) (snd st) ->
  let st' := TradeUpload.trade_row currentMonth currentYear st r in
  names_known (fst st') /\ Forall (trade_record currentMonth currentYear) (snd st').
Proof.
  destruct st as [l out]. cbn [fst snd]. intros [Hl Hout]. unfold TradeUpload.trade_row.
  match goal with |- context [if ?b then _ else _] => destruct b end.
  - cbn [fst snd]. split; [|exact Hout].
    unfold names_known. apply Forall_forall. intros m Hm.
    apply filter_In in Hm as [Hm _]. apply in_map_iff in Hm as (x & <- & Hx).
    cbn [TradeUpload.mi_name]. now apply in_map.
  - destruct l as [|m0 l']; [now split|].
    destruct (String.eqb_spec (trim (String_or (get r 1) "")) "") as [E|E]; [now split|].
    destruct (includes (toLowerCase (trim (String_or (get r 1) ""))) "total") eqn:Et;
      [now split|].
    rewrite orb_false_l.
    match goal with |- context [if ?b then _ else _] => destruct b end; [now split|].
    cbn [fst snd]. split; [exact Hl|].
    apply Forall_app. split; [exact Hout|].
    now apply trade_entries_records.
Qed.

Lemma trade_rows_records (rows : grid)
  (st : list TradeUpload.MonthIndices * list DepartmentMismatch) :
  trade_state st ->
  trade_state (fold_left (TradeUpload.trade_row currentMonth currentYear) rows st).
Proof.
  intros Hst. apply (fold_left_invariant trade_state); [exact Hst|].
  intros st' r Hst' _. now apply trade_row_records.
Qed.

(** X15.  Every entry of the trade tab is a "TRADE" record in "PKR" of a
    month of the financial year, labelled with the financial year of the
    day of the upload; its team and its customer are not empty, the customer
    has no "total" in it; budget and sales are numbers, not both 0; the
    variance is sales - budget and the status is "on-track" exactly when the
    sales reach the budget. *)
Theorem readTradeFile_records (rows : grid) :
  Forall (trade_record currentMonth currentYear)
    (TradeUpload.readTradeFile currentMonth currentYear rows).
Proof.
  unfold TradeUpload.readTradeFile.
  apply (trade_rows_records rows ([], [])). split; constructor.
Qed.

Lemma trade_row_before_header (st : list TradeUpload.MonthIndices * list DepartmentMismatch)
  (r : row) :
  fst st = [] -> trade_header r = false ->
  TradeUpload.trade_row currentMonth currentYear st r = st.
Proof.
  destruct st as [l out]. cbn [fst]. intros -> H. unfold TradeUpload.trade_row.
  unfold trade_header in H. rewrite H. reflexivity.
Qed.

(** X16.  The rows of a trade sheet that come before its first header row
    (a row with "customer" in its second cell, or with two cells that hold
    "budget") give no entry: the sheet reads as it does without them. *)
Theorem readTradeFile_before_header (before rows : grid) :
  (forall r, In r before -> trade_header r = false) ->
  TradeUpload.readTradeFile currentMonth currentYear (before ++ rows)%list
  = TradeUpload.readTradeFile currentMonth currentYear rows.
Proof.
  intros H. unfold TradeUpload.readTradeFile. rewrite fold_left_app. f_equal. f_equal.
  apply (fold_left_invariant (fun st => st = ([], []))); [reflexivity|].
  intros st r -> Hr. apply trade_row_before_header; [reflexivity | now apply H].
Qed.

End TradeTab.

Lemma readTradeFile_before_header_witness :
  TradeUpload.readTradeFile 10 2025
    ([[CStr "Trade"; CStr "Acme"; CStr "500"; CStr "400"]]
     ++ [[CStr "Category"; CStr "Customer"; CStr "July Budget"; CStr "July Sales"];
         [CStr "Retail"; CStr "Acme"; CStr "1,000"; CStr "900"]])%list
  = TradeUpload.readTradeFile 10 2025
      [[CStr "Category"; CStr "Customer"; CStr "July Budget"; CStr "July Sales"];
       [CStr "Retail"; CStr "Acme"; CStr "1,000"; CStr "900"]]
  /\ TradeUpload.readTradeFile 10 2025
      [[CStr "Category"; CStr "Customer"; CStr "July Budget"; CStr "July Sales"];
       [CStr "Retail"; CStr "Acme"; CStr "1,000"; CStr "900"]]
     = [mkFact "TRADE" "Retail" "Acme" 1000%float 900%float (-100)%float "PKR" "critical"
          "July" (Some "FY 25-26")].
Proof.
  split.
  - apply (readTradeFile_before_header 10 2025).
    intros r [<-|[]]. vm_compute. reflexivity.
  - vm_compute. reflexivity.
Defined.

(** *** The label of the financial year *)

Lemma fyLabel_month (m y : Z) :
  TradeUpload.fyLabel m y
  = if 6 <=? m then TradeUpload.fyLabel 6 y else TradeUpload.fyLabel 0 y.
Proof. unfold TradeUpload.fyLabel. destruct (6 <=? m); reflexivity. Qed.

Lemma getFYLabel_month (m y : Z) :
  getFYLabel m y = if 6 <=? m then getFYLabel 6 y else getFYLabel 0 y.
Proof. unfold getFYLabel. destruct (6 <=? m); reflexivity. Qed.

(** X17.  For the years 1970 to 2999, the trade tab labels the financial year
    as [getFYLabel] does exactly in the years 2010 to 2098 from July on, and
    in the years 2011 to 2099 before July; in the other years the two
    differ, since the trade tab writes the years without padding and without
    reduction modulo 100 ("FY 9-10" for "FY 09-10", "FY 99-100" for
    "FY 99-00"). *)
Theorem fyLabel_getFYLabel (currentMonth currentYear : Z) :
  1970 <= currentYear <= 2999 ->
  TradeUpload.fyLabel currentMonth currentYear = getFYLabel currentMonth currentYear
  <-> if 6 <=? currentMonth then 2010 <= currentYear <= 2098
      else 2011 <= currentYear <= 2099.
Proof.
  intros Hy.
  assert (H : forallb (fun y => Bool.eqb (String.eqb (TradeUpload.fyLabel 6 y) (getFYLabel 6 y))
                                         ((2010 <=? y) && (y <=? 2098))
                                && Bool.eqb (String.eqb (TradeUpload.fyLabel 0 y) (getFYLabel 0 y))
                                            ((2011 <=? y) && (y <=? 2099)))
                      (map (fun i => 1970 + Z.of_nat i) (seq 0 1030)) = true)
    by (vm_compute; reflexivity).
  rewrite forallb_forall in H.
  specialize (H currentYear).
  assert (Hin : In currentYear (map (fun i => 1970 + Z.of_nat i) (seq 0 1030))).
  { apply in_map_iff. exists (Z.to_nat (currentYear - 1970)). split; [lia|].
    apply in_seq. lia. }
  apply H in Hin. apply andb_true_iff in Hin as [H6 H0].
  apply Bool.eqb_prop in H6, H0.
  rewrite fyLabel_month, getFYLabel_month.
  destruct (6 <=? currentMonth).
  - rewrite <- String.eqb_eq, H6, andb_true_iff, !Z.leb_le. reflexivity.
  - rewrite <- String.eqb_eq, H0, andb_true_iff, !Z.leb_le. reflexivity.
Qed.

Lemma fyLabel_getFYLabel_witness :
  TradeUpload.fyLabel 10 2025 = getFYLabel 10 2025
  /\ TradeUpload.fyLabel 10 2009 <> getFYLabel 10 2009
  /\ TradeUpload.fyLabel 10 2009 = "FY 9-10" /\ getFYLabel 10 2009 = "FY 09-10"
  /\ TradeUpload.fyLabel 6 2099 = "FY 99-100" /\ getFYLabel 6 2099 = "FY 99-00".
Proof.
  split; [apply (fyLabel_getFYLabel 10 2025); [lia | simpl; lia]|].
  split; [|repeat split; vm_compute; reflexivity].
  intros E. apply (fyLabel_getFYLabel 10 2009) in E; [simpl in E; lia | lia].
Defined.

(** ** The upload component of the delivery package, further *)

Section DeliveryEntries.

Variable MONTH_NAMES : list string.
Variable SALES_TEAMS : list string.
Variable parse_date_code : number -> option (Z * Z * Z).
Variables fileMonth fileYear : Z.

(** X18.  Every entry that the upload component of the delivery package
    reads has the department of the tab, a team and a metric that are not
    empty, and a value (the plan of a master entry, the actual of a daily
    one) that is a number and not 0; a file that gives an error gives no
    entry. *)
Theorem delivery_readFile_entries (isTerritory isMaster : bool) (rows : grid) :
  let result := DeliveryDataEntry.readFile MONTH_NAMES SALES_TEAMS parse_date_code
                  fileMonth fileYear isTerritory isMaster rows in
  Forall (delivery_entry isTerritory isMaster) (fst result)
  /\ (snd result <> None -> fst result = []).
Proof.
  cbv zeta. unfold DeliveryDataEntry.readFile.
  match goal with |- context [flat_map ?f ?days] =>
    assert (H : Forall (delivery_entry isTerritory isMaster) (flat_map f days)) end.
  { apply Forall_flat_map, Forall_forall. intros day _.
    unfold DeliveryDataEntry.upload_day.
    match goal with |- context [if ?b then [] else _] => destruct b end; [constructor|].
    apply (fold_left_invariant
             (fun st => Forall (delivery_entry isTerritory isMaster) (snd st)));
      [constructor|].
    intros [team0 out] r Hst _. unfold DeliveryDataEntry.upload_row. cbn [snd] in Hst.
    destruct (String.eqb (trim (String_or (get r 0) "")) ""); [exact Hst|].
    match goal with |- context [if ?b then (?t, out) else _] =>
      set (currentTeam := t); destruct b end; [exact Hst|].
    destruct (String.eqb_spec currentTeam "") as [Et|Et]; [exact Hst|]. cbn [orb].
    match goal with |- context [if ?b then (currentTeam, out) else _] => destruct b end;
      [exact Hst|].
    match goal with |- context [if String.eqb ?m "" then (currentTeam, out) else _] =>
      set (metricName := m); destruct (String.eqb_spec metricName "") as [Em|Em] end;
      [exact Hst|].
    match goal with |- context [negb (is_nan ?v)] => set (numericVal := v) end.
    destruct (is_nan numericVal) eqn:En; [exact Hst|].
    destruct (strict_eq numericVal 0%float) eqn:Ez; [exact Hst|].
    cbn [negb andb snd]. apply Forall_app. split; [exact Hst|].
    constructor; [|constructor].
    unfold delivery_entry. cbn. repeat split; try assumption; now destruct isMaster. }
  destruct isMaster; [split; [exact H | intros Hn; now contradiction Hn]|].
  cbv iota in H |- *.
  match goal with |- context [map Number_ ?ks] => destruct (map Number_ ks) end;
    [split; [constructor | reflexivity]
    |split; [exact H | intros Hn; now contradiction Hn]].
Qed.

End DeliveryEntries.

(** ** The upload component of the production sheet, further *)

Lemma or_zero_idempotent (x : number) : or_zero (or_zero x) = or_zero x.
Proof.
  unfold or_zero. destruct (falsy_number x) eqn:E; [reflexivity|]. now rewrite E.
Qed.

Lemma upload_row_particular (monthlyPlanCol firstDailyCol remarksCol daysInMonth : Z)
  (r : row) (p : Particular) :
  ProductionEntry.upload_row monthlyPlanCol firstDailyCol remarksCol daysInMonth r = Some p ->
  uploaded_particular p.
Proof.
  unfold ProductionEntry.upload_row.
  destruct (String.eqb_spec (trim (String_or (get r 0) "")) "") as [En|En]; [discriminate|].
  cbn [orb].
  match goal with |- context [if ?b then None else _] => destruct b end; [discriminate|].
  destruct (strict_eq (ProductionEntry.numeric (get r monthlyPlanCol)) 0%float) eqn:Ez;
    [discriminate|].
  intros H. injection H as <-. unfold uploaded_particular.
  cbn [p_name p_monthlyPlan p_dailyData]. repeat split; try assumption.
  - apply or_zero_not_nan.
  - apply Forall_forall. intros d Hd. apply in_map_iff in Hd as ([i [a b]] & <- & _).
    cbn [dd_achieved]. apply or_zero_not_nan.
Qed.

(** X19.  An upload of a production sheet that stores something replaces
    the month: the stored list is the old list without the reports of the
    selected month, followed by the new report; the new report has at least
    one particular, and every particular has a name, a monthly plan that is a
    number and not 0, and daily achievements that are numbers. *)
Theorem production_handleFileUpload_stored (now : string) (selectedMonth selectedYear : Z)
  (rows : grid) (currentData updated : list ProductionReport) :
  ProductionEntry.handleFileUpload now selectedMonth selectedYear rows currentData
  = Ok updated ->
  let key := int_to_string selectedYear ++ "-" ++ int_to_string selectedMonth in
  exists productionReport,
    updated = (filter (fun d => negb (String.eqb (pr_monthKey d) key)) currentData
               ++ [productionReport])%list
    /\ pr_monthKey productionReport = key
    /\ pr_particulars productionReport <> []
    /\ Forall uploaded_particular (pr_particulars productionReport).
Proof.
  unfold ProductionEntry.handleFileUpload.
  destruct (ProductionEntry.buildReport now selectedMonth selectedYear rows) as [rep|msg] eqn:E;
    [|discriminate].
  intros H. injection H as <-. cbv zeta.
  revert E. unfold ProductionEntry.buildReport.
  destruct (findIndex production_header (slice0 10 rows) =? -1); [discriminate|].
  match goal with |- context [filter_map ?f ?l] =>
    assert (Hp : Forall uploaded_particular (filter_map f l));
    [|destruct (filter_map f l) as [|p0 ps] eqn:Ep; [discriminate|]] end.
  { apply filter_map_Forall. intros r p. apply upload_row_particular. }
  intros E. injection E as <-. cbn [pr_monthKey pr_particulars].
  eexists. split; [reflexivity|]. cbn [pr_monthKey pr_particulars].
  split; [reflexivity|]. split; [discriminate | exact Hp].
Qed.

Lemma production_handleFileUpload_stored_witness :
  exists updated,
    ProductionEntry.handleFileUpload "2025-02-28T00:00:00.000Z" 1 2025 production_sheet []
    = Ok updated
    /\ map (fun rep => (pr_monthKey rep, map p_name (pr_particulars rep))) updated
       = [("2025-1", ["Tablets"])]
    /\ exists productionReport,
         updated = (filter (fun d => negb (String.eqb (pr_monthKey d) "2025-1")) []
                    ++ [productionReport])%list
         /\ pr_monthKey productionReport = "2025-1"
         /\ pr_particulars productionReport <> []
         /\ Forall uploaded_particular (pr_particulars productionReport).
Proof.
  eexists. split; [vm_compute; reflexivity|]. split; [reflexivity|].
  apply (production_handleFileUpload_stored "2025-02-28T00:00:00.000Z" 1 2025
           production_sheet []).
  vm_compute. reflexivity.
Defined.

(** ** The closing day *)

Lemma range1_last (n : Z) : 1 <= n -> range1 n = (range1 (n - 1) ++ [n])%list.
Proof.
  intros H. unfold range1.
  replace (Z.to_nat n) with (Z.to_nat (n - 1) + 1)%nat by lia.
  rewrite seq_app, map_app. simpl. do 2 f_equal. lia.
Qed.

Lemma filter_none {A : Type} (f : A -> bool) (l : list A) :
  (forall x, In x l -> f x = false) -> filter f l = [].
Proof.
  induction l as [|x r IH]; intros H; [reflexivity|]. simpl.
  rewrite (H x) by now left. apply IH. intros y Hy. apply H. now right.
Qed.

(** X20.  Among the days of a month, [isLastDay] holds of the last one and
    of no other: the closing weight of the daily target falls on one day. *)
Theorem isLastDay_unique (year month : Z) :
  0 <= month <= 11 ->
  let daysInMonth := days_in_month (full_year year) month in
  filter (Dashboard.isLastDay year month) (range1 daysInMonth) = [daysInMonth].
Proof.
  intros Hm dim.
  pose proof (days_in_month_min (full_year year) month) as Hmin. fold dim in Hmin.
  rewrite (filter_ext_in _ (fun d => d =? dim)).
  - rewrite range1_last, filter_app by lia. simpl. rewrite Z.eqb_refl.
    rewrite filter_none; [reflexivity|].
    intros x Hx. apply range1_In in Hx. apply Z.eqb_neq. lia.
  - intros d Hd. apply range1_In in Hd. now apply isLastDay_spec.
Qed.

Lemma isLastDay_unique_witness :
  filter (Dashboard.isLastDay 2024 1) (range1 29) = [29].
Proof. apply (isLastDay_unique 2024 1). lia. Defined.

(** ** The trade sheet of the dashboard *)

Lemma set_add_In {A : Type} (eqb : A -> A -> bool) (seen : list A) (x y : A) :
  (forall a b, eqb a b = true <-> a = b) ->
  In y (TradeView.set_add eqb seen x) <-> In y seen \/ y = x.
Proof.
  intros Heq. unfold TradeView.set_add.
  destruct (existsb (eqb x) seen) eqn:E.
  - apply existsb_exists in E as (z & Hz & Ez). apply Heq in Ez. subst z.
    split; [now left | intros [H | ->]; assumption].
  - rewrite in_app_iff. simpl. intuition.
Qed.

Lemma set_add_NoDup {A : Type} (eqb : A -> A -> bool) (seen : list A) (x : A) :
  (forall a b, eqb a b = true <-> a = b) ->
  NoDup seen -> NoDup (TradeView.set_add eqb seen x).
Proof.
  intros Heq Hnd. unfold TradeView.set_add.
  destruct (existsb (eqb x) seen) eqn:E; [exact Hnd|].
  apply NoDup_app; [exact Hnd | repeat constructor; intros [] |].
  intros a Ha [<-|[]].
  assert (existsb (eqb x) seen = true); [|congruence].
  apply existsb_exists. exists x. split; [exact Ha | now apply Heq].
Qed.

Lemma unique_spec {A : Type} (eqb : A -> A -> bool) (l : list A) :
  (forall a b, eqb a b = true <-> a = b) ->
  NoDup (TradeView.unique eqb l) /\ forall x, In x (TradeView.unique eqb l) <-> In x l.
Proof.
  intros Heq. unfold TradeView.unique.
  assert (H : forall seen, NoDup seen ->
                NoDup (fold_left (TradeView.set_add eqb) l seen)
                /\ forall x, In x (fold_left (TradeView.set_add eqb) l seen)
                             <-> In x seen \/ In x l).
  { induction l as [|y r IH]; intros seen Hs; simpl.
    - split; [exact Hs | intuition].
    - destruct (IH (TradeView.set_add eqb seen y)) as [H1 H2];
        [now apply set_add_NoDup|].
      split; [exact H1|]. intros x. rewrite H2, set_add_In by exact Heq. intuition. }
  destruct (H [] (NoDup_nil _)) as [H1 H2]. split; [exact H1|].
  intros x. rewrite H2. simpl. intuition.
Qed.

Lemma fold_set_add_const {A : Type} (eqb : A -> A -> bool) (a : A) (l : list A) :
  eqb a a = true -> (forall x, In x l -> x = a) ->
  fold_left (TradeView.set_add eqb) l [a] = [a].
Proof.
  intros Ha. induction l as [|x r IH]; intros H; [reflexivity|]. simpl.
  rewrite (H x) by now left. unfold TradeView.set_add at 2. simpl. rewrite Ha. simpl.
  apply IH. intros y Hy. apply H. now right.
Qed.

Lemma unique_const {A : Type} (eqb : A -> A -> bool) (a : A) (l : list A) :
  eqb a a = true -> l <> [] -> (forall x, In x l -> x = a) ->
  TradeView.unique eqb l = [a].
Proof.
  intros Ha Hne H. destruct l as [|x r]; [congruence|].
  unfold TradeView.unique. simpl. unfold TradeView.set_add at 2. simpl.
  rewrite (H x) by now left.
  apply fold_set_add_const; [exact Ha|]. intros y Hy. apply H. now right.
Qed.

Lemma filter_no_trade (q : DepartmentMismatch -> bool) (others : list DepartmentMismatch) :
  (forall d, In d others -> TradeView.is_trade d = false) ->
  filter (fun d => TradeView.is_trade d && q d) others = [].
Proof.
  induction others as [|d r IH]; intros Ho; [reflexivity|]. simpl.
  rewrite (Ho d) by now left. simpl. apply IH. intros x Hx. apply Ho. now right.
Qed.

Lemma fyLabel_truthy (m y : Z) : String.eqb (TradeUpload.fyLabel m y) "" = false.
Proof. unfold TradeUpload.fyLabel. destruct (6 <=? m); reflexivity. Qed.

(** X21.  When the stored data are records of other departments followed
    by the entries of one trade sheet, and no financial year is selected, the
    trade sheet of the dashboard shows exactly the entries of that sheet,
    whatever the current date is: the financial year shown is the one the
    upload wrote. *)

Theorem tradeData_of_upload (currentMonth currentYear currMonth currYear : Z)
  (others : list DepartmentMismatch) (rows : grid) :
  (forall d, In d others -> TradeView.is_trade d = false) ->
  TradeView.tradeData "" (others ++ TradeUpload.readTradeFile currentMonth currentYear rows)
    currMonth currYear
  = TradeUpload.readTradeFile currentMonth currentYear rows.
Proof.
  intros Ho.
  assert (Hrec : Forall (trade_record currentMonth currentYear)
                   (TradeUpload.readTradeFile currentMonth currentYear rows)).
  { unfold TradeUpload.readTradeFile.
    apply (trade_rows_records currentMonth currentYear rows ([], [])). split; constructor. }
  set (up := TradeUpload.readTradeFile currentMonth currentYear rows) in *.
  set (L := TradeUpload.fyLabel currentMonth currentYear) in *.
  rewrite Forall_forall in Hrec.
  assert (Hfo : filter TradeView.is_trade others = []).
  { clear -Ho. induction others as [|d r IH]; [reflexivity|]. simpl.
    rewrite (Ho d) by now left. apply IH. intros x Hx. apply Ho. now right. }
  assert (Hup : forall p, (forall d, In d up -> p d = true) -> filter p up = up).
  { intros p. clear. induction up as [|d r IH]; intros H; [reflexivity|]. simpl.
    rewrite (H d) by now left. f_equal. apply IH. intros x Hx. apply H. now right. }
  assert (Htr : forall d, In d up -> TradeView.is_trade d = true).
  { intros d Hd. destruct (Hrec d Hd) as (Hdep & _). unfold TradeView.is_trade.
    rewrite Hdep. reflexivity. }
  assert (Hfy : forall d, In d up -> fy d = Some L).
  { intros d Hd. now destruct (Hrec d Hd) as (_ & _ & _ & Hf & _). }
  unfold TradeView.tradeData.
  destruct up as [|d0 up'] eqn:Eup.
  - rewrite app_nil_r. now apply filter_no_trade.
  - rewrite <- Eup in *.
    assert (Ha : TradeView.activeFY "" (others ++ up) currMonth currYear = L).
    { unfold TradeView.activeFY, TradeView.tradeFYs. cbn [String.eqb negb].
      rewrite filter_app, Hfo, app_nil_l, (Hup _ Htr).
      rewrite (unique_const TradeView.option_eqb (Some L)).
      - cbn [TradeView.truthy_labels flat_map app].
        replace (String.eqb L "") with false by (symmetry; apply fyLabel_truthy).
        reflexivity.
      - simpl. apply String.eqb_refl.
      - rewrite Eup. discriminate.
      - intros x Hx. apply in_map_iff in Hx as (d & <- & Hd). now apply Hfy. }
    rewrite Ha, filter_app, (filter_no_trade _ others Ho). simpl.
    apply Hup. intros d Hd. rewrite (Htr d Hd), (Hfy d Hd). simpl.
    apply String.eqb_refl.
Qed.

Lemma tradeData_of_upload_witness :
  TradeView.tradeData ""
    ([scenario_daily_expected] ++ TradeUpload.readTradeFile 10 2025 trade_sheet) 0 2031
  = TradeUpload.readTradeFile 10 2025 trade_sheet
  /\ TradeUpload.readTradeFile 10 2025 trade_sheet
     = [mkFact "TRADE" "Retail" "Acme" 1000%float 900%float (-100)%float "PKR" "critical"
          "July" (Some "FY 25-26")].
Proof.
  split; [|vm_compute; reflexivity].
  apply (tradeData_of_upload 10 2025 0 2031 [scenario_daily_expected] trade_sheet).
  intros d [<-|[]]. reflexivity.
Defined.

(** X22.  The summary of the trade sheet has one row for each team of the
    trade data: no team twice, every team of a record, and no team without a
    record. *)

Theorem tradeSummary_teams (tradeData : list DepartmentMismatch) :
  let summary := TradeView.tradeSummary tradeData in
  NoDup (map TradeView.ts_name summary)
  /\ (forall d, In d tradeData -> In (team d) (map TradeView.ts_name summary))
  /\ Forall (fun s =>
               exists d, In d tradeData /\ team d = TradeView.ts_name s)
            summary.
Proof.
  cbv zeta. unfold TradeView.tradeSummary.
  destruct (unique_spec String.eqb (map team tradeData) String.eqb_eq) as [Hnd Hin].
  rewrite map_map. cbn [TradeView.ts_name]. rewrite map_id.
  split; [exact Hnd|]. split.
  - intros d Hd. apply Hin. now apply in_map.
  - apply Forall_forall. intros s Hs. apply in_map_iff in Hs as (tm & <- & Htm).
    cbn [TradeView.ts_name]. apply Hin in Htm. apply in_map_iff in Htm as (d & <- & Hd).
    now exists d.
Qed.

(** ** The daily report *)

Lemma safeNum_not_nan (x : number) : is_nan (ReportService.safeNum x) = false.
Proof. unfold ReportService.safeNum. destruct (is_nan x) eqn:E; [reflexivity | exact E]. Qed.

Lemma or_string_nonempty (a b : string) : b <> "" -> ReportService.or_string a b <> "".
Proof.
  intros Hb. unfold ReportService.or_string.
  destruct (String.eqb_spec a ""); assumption.
Qed.

Section Report.

Variable localeCompare : string -> string -> Z.

(** X23.  The plan that the daily report gives a metric is the daily
    target of the dashboard for a day that is not the last of the month: the
    report never applies the closing weight, whatever day it is made for. *)
Theorem aggregate_metric_plan (data : list DepartmentMismatch) (dept metric_ : string)
  (selectedYear selectedMonth workingDaysCount day : Z) :
  0 <= selectedMonth <= 11 ->
  1 <= day < days_in_month (full_year selectedYear) selectedMonth ->
  ReportService.a_plan
    (ReportService.aggregate_metric localeCompare data dept (of_int workingDaysCount) metric_)
  = Dashboard.getDailyTarget selectedYear selectedMonth workingDaysCount
      (rawPlan_of data dept metric_) day.
Proof.
  intros Hm Hd. unfold Dashboard.getDailyTarget.
  rewrite isLastDay_spec by lia.
  destruct (Z.eqb_spec day (days_in_month (full_year selectedYear) selectedMonth)); [lia|].
  reflexivity.
Qed.

(** X24.  Every row of the daily report has a plan or an actual above 0,
    an actual that is a number, a team and a metric that are not empty, and
    the metric of a record of the department ("Unnamed Metric" for an empty
    one); when no record of the department has an empty metric, no metric
    has two rows.  This holds for every collation of the host. *)
Theorem aggregateDeptData_rows (data : list DepartmentMismatch) (dept : string)
  (dayNum : Z) (workingDaysCount : number) :
  let rows := ReportService.aggregateDeptData localeCompare data dept dayNum workingDaysCount in
  Forall (fun r =>
            gt0 (ReportService.a_plan r) || gt0 (ReportService.a_actual r) = true
            /\ is_nan (ReportService.a_actual r) = false
            /\ ReportService.a_team r <> "" /\ ReportService.a_metric r <> ""
            /\ exists d, In d data /\ department d = dept
                         /\ ReportService.a_metric r
                            = ReportService.or_string (metric d) "Unnamed Metric")
         rows
  /\ ((forall d, In d data -> department d = dept -> metric d <> "") ->
      NoDup (map ReportService.a_metric rows)).
Proof.
  cbv zeta. unfold ReportService.aggregateDeptData.
  set (metrics := TradeView.unique String.eqb
                    (map metric (filter (fun d => String.eqb (department d) dept) data))).
  destruct (unique_spec String.eqb
              (map metric (filter (fun d => String.eqb (department d) dept) data))
              String.eqb_eq) as [Hnd Hin].
  fold metrics in Hnd, Hin.
  assert (Hsrc : forall m, In m metrics ->
                   exists d, In d data /\ department d = dept /\ metric d = m).
  { intros m Hm. apply Hin in Hm. apply in_map_iff in Hm as (d & Hd & Hf).
    apply filter_In in Hf as [Hf He]. apply String.eqb_eq in He. now exists d. }
  split.
  - apply Forall_forall. intros r Hr. apply filter_In in Hr as [Hr Hpos].
    apply in_map_iff in Hr as (m & <- & Hm).
    split; [exact Hpos|].
    unfold ReportService.aggregate_metric.
    cbn [ReportService.a_actual ReportService.a_team ReportService.a_metric].
    split; [|split; [|split]].
    + destruct (ReportService.dailyEntry_of localeCompare data dept m);
        [apply safeNum_not_nan | reflexivity].
    + apply or_string_nonempty, or_string_nonempty. discriminate.
    + apply or_string_nonempty. discriminate.
    + destruct (Hsrc m Hm) as (d & Hd & Hdep & Hmet). exists d. now rewrite Hmet.
  - intros Hne.
    assert (Hmap : forall l, (forall m, In m l -> In m metrics) -> NoDup l ->
              NoDup (map ReportService.a_metric
                       (filter (fun d => gt0 (ReportService.a_plan d)
                                         || gt0 (ReportService.a_actual d))
                          (map (ReportService.aggregate_metric localeCompare data dept
                                  workingDaysCount) l)))).
    { induction l as [|m l IH]; intros Hl Hn; [constructor|].
      inversion Hn as [|? ? Hm Hn']; subst.
      assert (IH' := IH (fun x Hx => Hl x (or_intror Hx)) Hn').
      cbn [map filter].
      match goal with |- context [if ?b then _ else _] => destruct b end; [|exact IH'].
      cbn [map]. constructor; [|exact IH'].
      intros Hc. apply in_map_iff in Hc as (r & Hr & Hf).
      apply filter_In in Hf as [Hf _]. apply in_map_iff in Hf as (m' & <- & Hm').
      unfold ReportService.aggregate_metric in Hr. cbn [ReportService.a_metric] in Hr.
      assert (Hnm : forall x, In x metrics -> ReportService.or_string x "Unnamed Metric" = x).
      { intros x Hx. destruct (Hsrc x Hx) as (d & Hd & Hdep & Hmet).
        unfold ReportService.or_string.
        destruct (String.eqb_spec x ""); [|reflexivity].
        exfalso. apply (Hne d Hd Hdep). congruence. }
      rewrite (Hnm m') in Hr by (apply Hl; now right).
      rewrite (Hnm m) in Hr by (apply Hl; now left).
      subst. contradiction. }
    apply Hmap; [auto | exact Hnd].
Qed.

End Report.

Lemma aggregate_metric_plan_witness :
  ReportService.a_plan
    (ReportService.aggregate_metric compare_code_units report_data "Sales" (of_int 30)
       "ProductX") = 31%float
  /\ Dashboard.getDailyTarget 2025 10 30 (rawPlan_of report_data "Sales" "ProductX") 29
     = 31%float
  /\ Dashboard.getDailyTarget 2025 10 30 (rawPlan_of report_data "Sales" "ProductX") 30
     = 108%float.
Proof.
  split; [|split; vm_compute; reflexivity].
  rewrite (aggregate_metric_plan compare_code_units report_data "Sales" "ProductX"
             2025 10 30 29); [|lia|vm_compute; split; [discriminate | reflexivity]].
  vm_compute. reflexivity.
Defined.
